(** * Tasker MCP server: branch-name policy and GitHub + Trello workflows

    A shallow embedding of [tools/github.js] (class [GithubTool]),
    [tools/trello.js] (class [TrelloTool]), [tools/workflow.js] (class
    [WorkflowIntegration]) and of the [handleWorkflow] dispatcher of the
    server entry point, followed by the properties of the branch-name
    validator and of the three workflows.

    Conventions of the embedding.
    - A JavaScript string is a [string]; one [ascii] stands for one code
      unit, so [String.length] is the [length] property for names made of
      code units below 256.  The pictographs of the message templates are
      carried as their UTF-8 bytes; messages are only concatenated.
    - A parameter that may be [undefined] is an [option string].
    - A thrown value is an [Error]; only its [message] is ever read, so a
      throw carries the text that [error.message] renders to.
    - An [async] method is a function from the state before the call to
      a completion (normal value or throw) and the state after it.  Remote
      effects that happened before a throw stay in the state. *)

From Stdlib Require Import String Ascii List Bool Arith Lia DecimalString.
Import ListNotations.
Local Open Scope string_scope.

(** ** JavaScript values and operators *)

Module JS.

(** Line feed, written [\n] in the source. *)
Definition nl : string := String (ascii_of_nat 10) EmptyString.

(** The double quote character. *)
Definition dq : string := String (ascii_of_nat 34) EmptyString.

(** The backquote character. *)
Definition bq : string := String (ascii_of_nat 96) EmptyString.

(** [Boolean(x)] for a value that is a string or [undefined]. *)
Definition truthy (x : option string) : bool :=
  match x with
  | Some s => negb (s =? "")
  | None => false
  end.

(** [`${x}`]: interpolation of a string or [undefined] in a template. *)
Definition show (x : option string) : string :=
  match x with
  | Some s => s
  | None => "undefined"
  end.

(** [x || d] where [d] is a string. *)
Definition or_else (x : option string) (d : string) : string :=
  match x with
  | Some s => if s =? "" then d else s
  | None => d
  end.

(** [x || y] where both sides may be [undefined]. *)
Definition or_opt (x y : option string) : option string :=
  if truthy x then x else y.

(** [`${n}`] for a non-negative integer. *)
Definition show_nat (n : nat) : string :=
  NilEmpty.string_of_uint (Nat.to_uint n).

(** [`${b}`] for a boolean. *)
Definition show_bool (b : bool) : string :=
  if b then "true" else "false".

(** [s.startsWith(p)]. *)
Definition startsWith (s p : string) : bool := String.prefix p s.

(** [xs.join(sep)]. *)
Definition join (sep : string) (xs : list string) : string :=
  String.concat sep xs.

(** [s.split(c)] for a one-character separator: [acc] holds the piece
    being read, most recent character last. *)
Fixpoint split_from (c : ascii) (acc : string) (s : string) : list string :=
  match s with
  | EmptyString => [acc]
  | String a rest =>
      if Ascii.eqb a c then acc :: split_from c "" rest
      else split_from c (acc ++ String a EmptyString) rest
  end.

Definition split (c : ascii) (s : string) : list string :=
  split_from c "" s.

Definition between (lo hi : nat) (c : ascii) : bool :=
  (lo <=? nat_of_ascii c)%nat && (nat_of_ascii c <=? hi)%nat.

(** [toUpperCase] on one code unit, as the case-insensitive matcher
    uses it.  Only [a]-[z] move: the matcher keeps a code unit of 128 or
    more whenever its upper case would fall below 128, and no member of
    the class used here is at or above 128. *)
Definition canonicalize (c : ascii) : ascii :=
  if between 97 122 c then ascii_of_nat (nat_of_ascii c - 32) else c.

(** [s.toUpperCase()] on the ASCII letters. *)
Fixpoint toUpperCase (s : string) : string :=
  match s with
  | EmptyString => EmptyString
  | String a rest => String (canonicalize a) (toUpperCase rest)
  end.

Fixpoint all_chars (p : ascii -> bool) (s : string) : bool :=
  match s with
  | EmptyString => true
  | String a rest => p a && all_chars p rest
  end.

(** Does [needle] occur in [s]? ([s.includes(needle)]) *)
Fixpoint includes (s needle : string) : bool :=
  String.prefix needle s ||
  match s with
  | EmptyString => false
  | String _ rest => includes rest needle
  end.

End JS.

(** ** Completions and the effect monad *)

Inductive completion (A : Type) : Type :=
| Normal (a : A)
| Throw (message : string).
Arguments Normal {A} a.
Arguments Throw {A} message.

(** A computation over a state [S]. *)
Definition Eff (S A : Type) : Type := S -> completion A * S.

Definition ret {S A} (a : A) : Eff S A := fun s => (Normal a, s).

Definition bind {S A B} (c : Eff S A) (k : A -> Eff S B) : Eff S B :=
  fun s =>
    match c s with
    | (Normal a, s') => k a s'
    | (Throw m, s') => (Throw m, s')
    end.

(** [throw new Error(m)] *)
Definition throw {S A} (m : string) : Eff S A := fun s => (Throw m, s).

(** [try { c } catch (error) { h error.message }] *)
Definition try_catch {S A} (c : Eff S A) (h : string -> Eff S A) : Eff S A :=
  fun s =>
    match c s with
    | (Normal a, s') => (Normal a, s')
    | (Throw m, s') => h m s'
    end.

Definition gets {S A} (f : S -> A) : Eff S A := fun s => (Normal (f s), s).

Definition modify {S} (f : S -> S) : Eff S unit := fun s => (Normal tt, f s).

Declare Scope eff_scope.
Delimit Scope eff_scope with eff.
Notation "x <- c ;; k" := (bind c (fun x => k))
  (at level 61, c at next level, right associativity) : eff_scope.
Notation "c ;;; k" := (bind c (fun _ => k))
  (at level 61, right associativity) : eff_scope.
Local Open Scope eff_scope.

(** ** What the tools exchange *)

(** An MCP tool response [{ content: [{ type: "text", text }], isError }];
    an absent [isError] is [false]. *)
Record ToolResult : Type := mkToolResult {
  text : string;
  isError : bool
}.

(** ** tools/github.js *)

Module GithubTool.

(** One entry of [this.repos].  The constructor can leave [name]
    undefined (a single [repo] without a slash). *)
Record RepoConfig : Type := mkRepo {
  name : option string;
  repo : string;
  defaultBranch : string
}.

(** The object returned by [validateBranchName]. *)
Record Validation : Type := mkValidation {
  isValid : bool;
  error : option string;
  rules : option string;
  complianceMessage : option string
}.

(** [rules.prefixes] *)
Definition prefixes : list string :=
  ["feature/"; "fix/"; "enhancement/"; "hotfix/"; "bugfix/"; "feat/";
   "chore/"; "docs/"; "style/"; "refactor/"; "test/"].

(** [rules.maxLength] *)
Definition maxLength : nat := 50.

(** One member of the class [[a-z0-9\/\-_]]. *)
Definition in_class (c : ascii) : bool :=
  JS.between 97 122 c || JS.between 48 57 c ||
  Ascii.eqb c "/" || Ascii.eqb c "-" || Ascii.eqb c "_".

(** The class under the [i] flag: [c] matches when its canonical form is
    the canonical form of a member, that is [A]-[Z], a digit or one of
    the three signs. *)
Definition in_class_i (c : ascii) : bool :=
  JS.between 65 90 (JS.canonicalize c) || JS.between 48 57 (JS.canonicalize c) ||
  Ascii.eqb (JS.canonicalize c) "/" || Ascii.eqb (JS.canonicalize c) "-" ||
  Ascii.eqb (JS.canonicalize c) "_".

(** [rules.allowedChars.test(s)] for [/^[a-z0-9\/\-_]+$/i]: one or more
    members of the class, from the first code unit to the last. *)
Definition allowedChars_test (s : string) : bool :=
  negb (s =? "") && JS.all_chars in_class_i s.

Definition hasValidPrefix (branchName : string) : bool :=
  existsb (fun prefix => JS.startsWith branchName prefix) prefixes.

Definition validateBranchName (branchName : string) : Validation :=
  if negb (hasValidPrefix branchName) then
    {| isValid := false;
       error := Some ("Branch name must start with one of: " ++ JS.join ", " prefixes);
       rules := Some ("📋 Git Best Practice Rules:" ++ JS.nl ++
                      "• Use descriptive prefixes (feature/, fix/, enhancement/, etc.)" ++ JS.nl ++
                      "• Keep names under " ++ JS.show_nat maxLength ++ " characters" ++ JS.nl ++
                      "• Use lowercase with hyphens or underscores" ++ JS.nl ++
                      "• Example: feature/user-authentication or fix/login-bug");
       complianceMessage := None |}
  else if (maxLength <? String.length branchName)%nat then
    {| isValid := false;
       error := Some ("Branch name too long (" ++ JS.show_nat (String.length branchName) ++
                      "/" ++ JS.show_nat maxLength ++ " chars)");
       rules := Some ("📋 Git Best Practice Rules:" ++ JS.nl ++
                      "• Keep branch names under " ++ JS.show_nat maxLength ++ " characters" ++ JS.nl ++
                      "• Use concise but descriptive names");
       complianceMessage := None |}
  else if negb (allowedChars_test branchName) then
    {| isValid := false;
       error := Some "Branch name contains invalid characters";
       rules := Some ("📋 Git Best Practice Rules:" ++ JS.nl ++
                      "• Use only letters, numbers, hyphens, underscores, and forward slashes" ++ JS.nl ++
                      "• No spaces or special characters");
       complianceMessage := None |}
  else
    {| isValid := true;
       error := None;
       rules := None;
       complianceMessage := Some "✅ Branch name follows company Git best practices" |}.

(** The response of [createBranch] for a name the policy rejects. *)
Definition rejection (branchName : string) : ToolResult :=
  {| text := "❌ Branch name validation failed: " ++
             JS.show (error (validateBranchName branchName)) ++ JS.nl ++ JS.nl ++
             "📋 Company Rules:" ++ JS.nl ++ JS.show (rules (validateBranchName branchName));
     isError := true |}.

(** [generatePRBody(title, headBranch, baseBranch)] *)
Definition generatePRBody (title : option string) (headBranch baseBranch : string) : string :=
  "## Description" ++ JS.nl ++
  JS.show title ++ JS.nl ++
  JS.nl ++
  "## Type of Change" ++ JS.nl ++
  "- [ ] Bug fix (non-breaking change which fixes an issue)" ++ JS.nl ++
  "- [ ] New feature (non-breaking change which adds functionality)" ++ JS.nl ++
  "- [ ] Breaking change (fix or feature that would cause existing functionality to not work as expected)" ++ JS.nl ++
  "- [ ] Documentation update" ++ JS.nl ++
  "- [ ] Code refactoring" ++ JS.nl ++
  "- [ ] Performance improvement" ++ JS.nl ++
  JS.nl ++
  "## Testing" ++ JS.nl ++
  "- [ ] I have tested these changes locally" ++ JS.nl ++
  "- [ ] I have added tests that prove my fix is effective or that my feature works" ++ JS.nl ++
  "- [ ] New and existing unit tests pass locally with my changes" ++ JS.nl ++
  JS.nl ++
  "## Checklist" ++ JS.nl ++
  "- [ ] My code follows the company coding standards" ++ JS.nl ++
  "- [ ] I have performed a self-review of my own code" ++ JS.nl ++
  "- [ ] I have commented my code, particularly in hard-to-understand areas" ++ JS.nl ++
  "- [ ] I have made corresponding changes to the documentation" ++ JS.nl ++
  "- [ ] My changes generate no new warnings" ++ JS.nl ++
  "- [ ] Any dependent changes have been merged and published" ++ JS.nl ++
  JS.nl ++
  "## Branch: " ++ JS.bq ++ headBranch ++ JS.bq ++ " → " ++ JS.bq ++ baseBranch ++ JS.bq ++ JS.nl ++
  JS.nl ++
  "**Created by:** GitHub MCP Server" ++ JS.nl ++
  "**Note:** Please ensure this PR follows all company guidelines before merging.".

(** [getPRGuidelines()] *)
Definition getPRGuidelines : string :=
  "📋 **Next Steps - Company PR Guidelines:**" ++ JS.nl ++
  "• Add reviewers from your team" ++ JS.nl ++
  "• Link related issues using " ++ JS.dq ++ "Closes #123" ++ JS.dq ++
    " or " ++ JS.dq ++ "Fixes #123" ++ JS.dq ++ JS.nl ++
  "• Ensure all CI checks pass" ++ JS.nl ++
  "• Update documentation if needed" ++ JS.nl ++
  "• Test thoroughly before requesting review" ++ JS.nl ++
  "• Use " ++ JS.dq ++ "Squash and merge" ++ JS.dq ++ " for feature branches".

(** *** The remote client and the runtime *)

Record BranchInfo : Type := mkBranchInfo {
  branch_name : string;
  protected : bool
}.

Record PullInfo : Type := mkPullInfo {
  number : nat;
  title : string;
  head_ref : string;
  base_ref : string;
  html_url : string
}.

(** The [data] of an answer of [getContent]; [content] is absent in the
    answer for a directory, a symbolic link or a submodule. *)
Record FileInfo : Type := mkFileInfo {
  content : option string;
  sha : string
}.

(** The object that [JSON.parse(updateInfo)] is destructured into. *)
Record UpdateInfo : Type := mkUpdateInfo {
  filepath : option string;
  new_content : option string;
  commit_message : option string
}.

(** [this.octokit.rest]: the remote calls the tool makes, over the state
    [R] of the remote services.  Each can throw. *)
Record Octokit (R : Type) : Type := mkOctokit {
  repos_listBranches : option string -> option string -> Eff R (list BranchInfo);
  git_getRef : option string -> option string -> string -> Eff R string;
  git_createRef : option string -> option string -> string -> string -> Eff R unit;
  pulls_create : option string -> option string -> option string -> string -> string ->
                 string -> Eff R PullInfo;
  pulls_list : option string -> option string -> Eff R (list PullInfo);
  repos_getContent : option string -> option string -> option string -> string -> Eff R FileInfo;
  repos_createOrUpdateFileContents :
    option string -> option string -> option string -> string -> string -> string ->
    string -> Eff R unit
}.
Arguments repos_listBranches {R}.
Arguments git_getRef {R}.
Arguments git_createRef {R}.
Arguments pulls_create {R}.
Arguments pulls_list {R}.
Arguments repos_getContent {R}.
Arguments repos_createOrUpdateFileContents {R}.

(** What the tool uses of the JavaScript runtime: the clock (a read
      that may advance the state),
    [Buffer.from(s, 'base64').toString('utf-8')] and
    [Buffer.from(s).toString('base64')] (each a throw when [s] is not a
    string) and [JSON.parse] followed by the destructuring of its value
    (a throw on a syntax error or on [null]). *)
Record Runtime (R : Type) : Type := mkRuntime {
  Date_now : R -> nat * R;
  decode_base64 : option string -> completion string;
  encode_base64 : option string -> completion string;
  JSON_parse : option string -> completion UpdateInfo
}.
Arguments Date_now {R}.
Arguments decode_base64 {R}.
Arguments encode_base64 {R}.
Arguments JSON_parse {R}.

(** The argument of [run]. *)
Record Args : Type := mkArgs {
  repoName : option string;
  taskBranch : option string;
  taskDescription : option string;
  action : option string
}.

(** The constructor: [this.repos] from [repos], or from the single [repo]
    (with [defaultBranch = "develop"] when absent); [None] is [undefined]. *)
Definition new_repos (repos : option (list RepoConfig)) (single : option string)
    (default : option string) : option (list RepoConfig) :=
  match repos with
  | Some rs => Some rs
  | None =>
      if JS.truthy single then
        Some [ {| name := nth_error (JS.split "/" (JS.show single)) 1;
                  repo := JS.show single;
                  defaultBranch := match default with Some d => d | None => "develop" end |} ]
      else None
  end.

(** [x === y] on values that are strings or [undefined]. *)
Definition strict_eq (x y : option string) : bool :=
  match x, y with
  | Some a, Some b => a =? b
  | None, None => true
  | _, _ => false
  end.

(** An array element as [join] prints it: [undefined] is the empty string. *)
Definition join_item (x : option string) : string :=
  match x with Some s => s | None => "" end.

Definition lift {S A : Type} (c : completion A) : Eff S A := fun s => (c, s).

(** The [case] labels of the [switch] of [run]. *)
Definition actions : list string :=
  ["list_repos"; "list_branches"; "create_branch"; "create_pr"; "list_prs";
   "get_file"; "update_file"].

Definition known_action (act : string) : bool := existsb (String.eqb act) actions.

(** [this.repos.find(r => r.name === repoName || r.repo === repoName)] *)
Definition find_repo (rs : list RepoConfig) (repoName : option string) : option RepoConfig :=
  find (fun r => strict_eq (name r) repoName || strict_eq (Some (repo r)) repoName) rs.

Section Methods.

Context {R : Type}.
Variable octokit : Octokit R.
Variable runtime : Runtime R.
Variable this_repos : option (list RepoConfig).

(** [Date.now()] *)
Definition clock : Eff R nat :=
  fun w => let (now, w') := Date_now runtime w in (Normal now, w').

Definition listBranches (owner repository : option string) : Eff R ToolResult :=
  branches <- repos_listBranches octokit owner repository ;;
  ret {| text := "📋 Branches in " ++ JS.show owner ++ "/" ++ JS.show repository ++ ":" ++ JS.nl ++
                 JS.join JS.nl
                   (map (fun b => "• " ++ branch_name b ++
                                  (if protected b then " (protected)" else "")) branches);
         isError := false |}.

Definition createBranch (owner repository : option string) (branchName baseBranch : string)
    (description : option string) : Eff R ToolResult :=
  let validation := validateBranchName branchName in
  if negb (isValid validation) then ret (rejection branchName)
  else
    baseRef <- git_getRef octokit owner repository ("heads/" ++ baseBranch) ;;
    git_createRef octokit owner repository ("refs/heads/" ++ branchName) baseRef ;;;
    ret {| text := "✅ Created branch '" ++ branchName ++ "' from '" ++ baseBranch ++ "' in " ++
                   JS.show owner ++ "/" ++ JS.show repository ++ JS.nl ++
                   "📝 Description: " ++ JS.show description ++ JS.nl ++ JS.nl ++
                   JS.show (complianceMessage validation);
           isError := false |}.

Definition createPullRequest (owner repository : option string) (headBranch baseBranch : string)
    (title : option string) : Eff R ToolResult :=
  let prBody := generatePRBody title headBranch baseBranch in
  pr <- pulls_create octokit owner repository title headBranch baseBranch prBody ;;
  let guidelines := getPRGuidelines in
  ret {| text := "✅ Created PR #" ++ JS.show_nat (number pr) ++ ": " ++ html_url pr ++ JS.nl ++
                 "📋 " ++ headBranch ++ " → " ++ baseBranch ++ JS.nl ++ JS.nl ++ guidelines;
         isError := false |}.

Definition listPullRequests (owner repository : option string) : Eff R ToolResult :=
  prs <- pulls_list octokit owner repository ;;
  ret {| text := "📋 Open Pull Requests in " ++ JS.show owner ++ "/" ++ JS.show repository ++ ":" ++
                 JS.nl ++
                 JS.join (JS.nl ++ JS.nl)
                   (map (fun pr => "• #" ++ JS.show_nat (number pr) ++ ": " ++ title pr ++ JS.nl ++
                                   "  " ++ head_ref pr ++ " → " ++ base_ref pr ++
                                   " (" ++ html_url pr ++ ")") prs);
         isError := false |}.

(** [async getFileContent(owner, repo, filepath, branch = 'develop')]: the
    read and the decoding of what was read are both inside the [try]. *)
Definition getFileContent (owner repository : option string) (path : option string)
    (ref : option string) : Eff R ToolResult :=
  let branch := match ref with Some b => b | None => "develop" end in
  try_catch
    (file <- repos_getContent octokit owner repository path branch ;;
     decoded <- lift (decode_base64 runtime (content file)) ;;
     ret {| text := "📄 File: " ++ JS.show path ++ " (" ++ branch ++ ")" ++ JS.nl ++
                    JS.bq ++ JS.bq ++ JS.bq ++ JS.nl ++ decoded ++ JS.nl ++ JS.bq ++ JS.bq ++ JS.bq;
            isError := false |})
    (fun _ =>
     ret {| text := "❌ File not found: " ++ JS.show path ++ " in " ++ JS.show owner ++ "/" ++
                    JS.show repository ++ ":" ++ branch;
            isError := true |}).

Definition updateFile (owner repository : option string) (updateInfo : option string)
    (branch : string) : Eff R ToolResult :=
  info <- lift (JSON_parse runtime updateInfo) ;;
  try_catch
    (currentFile <- repos_getContent octokit owner repository (filepath info) branch ;;
     encoded <- lift (encode_base64 runtime (new_content info)) ;;
     repos_createOrUpdateFileContents octokit owner repository (filepath info)
       (JS.or_else (commit_message info) ("Update " ++ JS.show (filepath info)))
       encoded (sha currentFile) branch ;;;
     ret {| text := "✅ Updated " ++ JS.show (filepath info) ++ " in branch '" ++ branch ++
                    "' of " ++ JS.show owner ++ "/" ++ JS.show repository;
            isError := false |})
    (fun message =>
     ret {| text := "❌ Failed to update " ++ JS.show (filepath info) ++ ": " ++ message;
            isError := true |}).

Definition listRepositoriesFormatted (rs : list RepoConfig) : ToolResult :=
  {| text := "📋 Configured Repositories:" ++ JS.nl ++
             JS.join (JS.nl ++ JS.nl)
               (map (fun r => "• " ++ JS.show (name r) ++ JS.nl ++
                              "  GitHub: " ++ repo r ++ JS.nl ++
                              "  Default Branch: " ++ defaultBranch r) rs);
     isError := false |}.

(** The value [run] returns when its [try] block throws. *)
Definition caught (m : string) : ToolResult :=
  {| text := "❌ Error: " ++ m; isError := true |}.

(** The body of the [try] block of [run]. *)
Definition run_body (a : Args) : Eff R ToolResult :=
  rs <- match this_repos with
        | Some rs => ret rs
        | None => throw "Cannot read properties of undefined (reading 'find')"
        end ;;
  match find_repo rs (repoName a) with
  | None =>
      throw ("Repository '" ++ JS.show (repoName a) ++ "' not found. Available repos: " ++
             JS.join ", " (map (fun r => join_item (name r)) rs))
  | Some targetRepo =>
      let pieces := JS.split "/" (repo targetRepo) in
      let owner := nth_error pieces 0 in
      let repository := nth_error pieces 1 in
      branchName <- (if JS.truthy (taskBranch a) then ret (JS.show (taskBranch a))
                     else now <- clock ;; ret ("task-" ++ JS.show_nat now)) ;;
      let act := match action a with Some x => x | None => "create_branch" end in
      if act =? "list_repos" then ret (listRepositoriesFormatted rs)
      else if act =? "list_branches" then listBranches owner repository
      else if act =? "create_branch" then
        createBranch owner repository branchName (defaultBranch targetRepo) (taskDescription a)
      else if act =? "create_pr" then
        createPullRequest owner repository branchName (defaultBranch targetRepo) (taskDescription a)
      else if act =? "list_prs" then listPullRequests owner repository
      else if act =? "get_file" then
        getFileContent owner repository (taskDescription a) (Some (defaultBranch targetRepo))
      else if act =? "update_file" then
        updateFile owner repository (taskDescription a) branchName
      else throw ("Unknown action: " ++ act)
  end.

(** [async run({ repoName, taskBranch, taskDescription, action })] once
    its parameter has been destructured into [a]. *)
Definition run (a : Args) : Eff R ToolResult :=
  try_catch (run_body a) (fun message => ret (caught message)).

(** [run(args)] as a caller invokes it.  The parameter is destructured in
    the signature, before the [try]: when [args] is [undefined] the call
    throws the [TypeError] of the runtime, whose message is [type_error],
    and nothing of [run] catches it. *)
Definition call (type_error : string) (args : option Args) : Eff R ToolResult :=
  match args with
  | Some a => run a
  | None => throw type_error
  end.

End Methods.

End GithubTool.

(** ** tools/trello.js *)

Module TrelloTool.

Record Board : Type := mkBoard {
  board_id : string;
  board_name : string;
  board_url : string;
  board_closed : bool
}.

(** A list of a board; [pos] is a number, kept as the text it prints to. *)
Record BoardList : Type := mkBoardList {
  list_id : string;
  list_name : string;
  list_closed : bool;
  pos : string
}.

(** A card as the service returns it; [labels] holds the label names and
    [card_list] the name of [data.list] when present. *)
Record Card : Type := mkCard {
  card_id : string;
  card_name : string;
  desc : option string;
  url : string;
  due : option string;
  card_closed : bool;
  labels : option (list string);
  card_list : option string
}.

Record Comment : Type := mkComment {
  comment_text : string;
  fullName : string;
  date : string
}.

(** [cardData] of [createCard]. *)
Record CardData : Type := mkCardData {
  cd_name : option string;
  cd_desc : string;
  cd_idList : string;
  cd_due : option string;
  cd_idLabels : option (list string);
  cd_idMembers : option (list string)
}.

(** The body of a [PUT /1/cards/:id]: [updateData] of [updateCard], or
    [{ idList }] of [moveCard]. *)
Record CardUpdate : Type := mkCardUpdate {
  u_name : option string;
  u_desc : option string;
  u_due : option string;
  u_closed : option bool;
  u_idList : option string
}.

(** [this.trello]: the requests the tool sends.  A callback error is a
    throw of the rejected promise. *)
Record Client (R : Type) : Type := mkClient {
  get_boards : Eff R (list Board);
  get_lists : string -> Eff R (list BoardList);
  post_card : CardData -> Eff R Card;
  get_cards : string -> Eff R (list Card);
  put_card : string -> CardUpdate -> Eff R Card;
  post_comment : string -> string -> Eff R Comment;
  toLocaleString : string -> string
}.
Arguments get_boards {R}.
Arguments get_lists {R}.
Arguments post_card {R}.
Arguments get_cards {R}.
Arguments put_card {R}.
Arguments post_comment {R}.
Arguments toLocaleString {R}.

(** The argument of [run]: [action] and the rest. *)
Record Args : Type := mkArgs {
  action : option string;
  title : option string;
  description : option string;
  listId : option string;
  boardId : option string;
  arg_labels : option (list string);
  dueDate : option string;
  members : option (list string);
  cardId : option string;
  closed : option bool;
  comment : option string
}.

Definition no_args : Args :=
  {| action := None; title := None; description := None; listId := None;
     boardId := None; arg_labels := None; dueDate := None; members := None;
     cardId := None; closed := None; comment := None |}.

Section Methods.

Context {R : Type}.
Variable trello : Client R.
Variable defaultBoardId : option string.
Variable defaultListId : option string.

Definition listBoards : Eff R ToolResult :=
  data <- get_boards trello ;;
  ret {| text := "📋 **Trello Boards:**" ++ JS.nl ++ JS.nl ++
                 JS.join (JS.nl ++ JS.nl)
                   (map (fun board => "• **" ++ board_name board ++ "** (ID: " ++ board_id board ++ ")" ++
                                      JS.nl ++ "  URL: " ++ board_url board ++ JS.nl ++
                                      "  Status: " ++ (if board_closed board then "Closed" else "Open"))
                        data);
         isError := false |}.

Definition listLists (board : option string) : Eff R ToolResult :=
  let targetBoardId := JS.or_opt board defaultBoardId in
  if negb (JS.truthy targetBoardId) then
    throw "Board ID is required. Use list_boards to find board IDs."
  else
    data <- get_lists trello (JS.show targetBoardId) ;;
    ret {| text := "📝 **Lists in Board:**" ++ JS.nl ++ JS.nl ++
                   JS.join (JS.nl ++ JS.nl)
                     (map (fun l => "• **" ++ list_name l ++ "** (ID: " ++ list_id l ++ ")" ++ JS.nl ++
                                    "  Status: " ++ (if list_closed l then "Closed" else "Open") ++ JS.nl ++
                                    "  Position: " ++ pos l) data);
           isError := false |}.

Definition createCard (a : Args) : Eff R ToolResult :=
  let targetListId := JS.or_opt (listId a) defaultListId in
  if negb (JS.truthy targetListId) then
    throw "List ID is required. Use list_lists to find list IDs."
  else
    let cardData :=
      {| cd_name := title a;
         cd_desc := JS.or_else (description a) "";
         cd_idList := JS.show targetListId;
         cd_due := if JS.truthy (dueDate a) then dueDate a else None;
         cd_idLabels := arg_labels a;
         cd_idMembers := members a |} in
    data <- post_card trello cardData ;;
    ret {| text := "✅ **Trello Card Created Successfully!**" ++ JS.nl ++ JS.nl ++
                   "📌 **Title:** " ++ card_name data ++ JS.nl ++
                   "📝 **Description:** " ++ JS.or_else (desc data) "No description" ++ JS.nl ++
                   "🔗 **URL:** " ++ url data ++ JS.nl ++
                   "📅 **Due Date:** " ++ JS.or_else (due data) "Not set" ++ JS.nl ++
                   "🏷️ **Labels:** " ++
                   JS.or_else (option_map (JS.join ", ") (labels data)) "None";
           isError := false |}.

Definition listCards (list : option string) : Eff R ToolResult :=
  let targetListId := JS.or_opt list defaultListId in
  if negb (JS.truthy targetListId) then
    throw "List ID is required. Use list_lists to find list IDs."
  else
    data <- get_cards trello (JS.show targetListId) ;;
    ret {| text := "🃏 **Cards in List:**" ++ JS.nl ++ JS.nl ++
                   JS.join (JS.nl ++ JS.nl)
                     (map (fun card =>
                             "• **" ++ card_name card ++ "** (ID: " ++ card_id card ++ ")" ++ JS.nl ++
                             "  Description: " ++ JS.or_else (desc card) "No description" ++ JS.nl ++
                             "  Due: " ++ JS.or_else (due card) "Not set" ++ JS.nl ++
                             "  Labels: " ++
                             JS.or_else (option_map (JS.join ", ") (labels card)) "None" ++ JS.nl ++
                             "  Status: " ++ (if card_closed card then "Closed" else "Open") ++ JS.nl ++
                             "  URL: " ++ url card) data);
           isError := false |}.

Definition updateCard (a : Args) : Eff R ToolResult :=
  if negb (JS.truthy (cardId a)) then throw "Card ID is required for updating."
  else
    let updateData :=
      {| u_name := title a; u_desc := description a; u_due := dueDate a;
         u_closed := closed a; u_idList := None |} in
    data <- put_card trello (JS.show (cardId a)) updateData ;;
    ret {| text := "✅ **Card Updated Successfully!**" ++ JS.nl ++ JS.nl ++
                   "📌 **Title:** " ++ card_name data ++ JS.nl ++
                   "📝 **Description:** " ++ JS.or_else (desc data) "No description" ++ JS.nl ++
                   "🔗 **URL:** " ++ url data ++ JS.nl ++
                   "📅 **Due Date:** " ++ JS.or_else (due data) "Not set";
           isError := false |}.

Definition moveCard (a : Args) : Eff R ToolResult :=
  if negb (JS.truthy (cardId a)) || negb (JS.truthy (listId a)) then
    throw "Both Card ID and List ID are required for moving."
  else
    data <- put_card trello (JS.show (cardId a))
              {| u_name := None; u_desc := None; u_due := None; u_closed := None;
                 u_idList := listId a |} ;;
    ret {| text := "✅ **Card Moved Successfully!**" ++ JS.nl ++ JS.nl ++
                   "📌 **Card:** " ++ card_name data ++ JS.nl ++
                   "📝 **New List:** " ++ JS.or_else (card_list data) "Unknown" ++ JS.nl ++
                   "🔗 **URL:** " ++ url data;
           isError := false |}.

Definition addComment (a : Args) : Eff R ToolResult :=
  if negb (JS.truthy (cardId a)) || negb (JS.truthy (comment a)) then
    throw "Both Card ID and comment text are required."
  else
    data <- post_comment trello (JS.show (cardId a)) (JS.show (comment a)) ;;
    ret {| text := "💬 **Comment Added Successfully!**" ++ JS.nl ++ JS.nl ++
                   "📝 **Comment:** " ++ comment_text data ++ JS.nl ++
                   "👤 **Author:** " ++ fullName data ++ JS.nl ++
                   "📅 **Date:** " ++ toLocaleString trello (date data);
           isError := false |}.

(** The [switch] of [run]. *)
Definition run_body (a : Args) : Eff R ToolResult :=
  match action a with
  | None => throw ("Unknown Trello action: " ++ JS.show (action a))
  | Some act =>
      if act =? "list_boards" then listBoards
      else if act =? "list_lists" then listLists (boardId a)
      else if act =? "create_card" then createCard a
      else if act =? "list_cards" then listCards (listId a)
      else if act =? "update_card" then updateCard a
      else if act =? "move_card" then moveCard a
      else if act =? "add_comment" then addComment a
      else throw ("Unknown Trello action: " ++ act)
  end.

(** [async run({ action, ...args })] once its parameter has been
    destructured into [a]: every failure of the [try] block is thrown
    again, its message prefixed. *)
Definition run (a : Args) : Eff R ToolResult :=
  try_catch (run_body a)
    (fun message => throw ("Trello operation failed: " ++ message)).

(** [run(args)] as a caller invokes it.  The parameter is destructured in
    the signature, before the [try]: when [args] is [undefined] the call
    throws the [TypeError] of the runtime, whose message is [type_error],
    without the prefix. *)
Definition call (type_error : string) (args : option Args) : Eff R ToolResult :=
  match args with
  | Some a => run a
  | None => throw type_error
  end.

End Methods.

End TrelloTool.

(** ** tools/workflow.js *)

Module Workflow.

(** A call of one of the two injected tools. *)
Inductive Call : Type :=
| GithubRun (a : GithubTool.Args)
| TrelloRun (a : TrelloTool.Args).

(** One element of [results]. *)
Record Entry : Type := mkEntry {
  type : string;
  action : string;
  result : ToolResult
}.

(** The object a workflow method resolves to. *)
Record Outcome : Type := mkOutcome {
  success : bool;
  message : string;
  results : list Entry
}.

(** The object the methods destructure; a field that is not passed is
    [None]. *)
Record Params : Type := mkParams {
  repoName : option string;
  branchName : option string;
  taskTitle : option string;
  taskDescription : option string;
  trelloListId : option string;
  dueDate : option string;
  prTitle : option string;
  prDescription : option string;
  cardId : option string;
  reviewListId : option string;
  deleteBranch : option bool
}.

(** The state of a run: the remote services, the local array [results]
    ([ledger]) and, as a ghost field, the tool calls made so far, oldest
    first. *)
Record Run (R : Type) : Type := mkRun {
  remote : R;
  calls : list Call;
  ledger : list Entry
}.
Arguments mkRun {R}.
Arguments remote {R}.
Arguments calls {R}.
Arguments ledger {R}.

Definition start {R : Type} (w : R) : Run R :=
  {| remote := w; calls := []; ledger := [] |}.

(** *** The argument objects of the seven tool calls *)

(** [{ repoName, action: 'create_branch', taskBranch: branchName,
      taskDescription: taskTitle }] *)
Definition create_branch_args (p : Params) : GithubTool.Args :=
  {| GithubTool.repoName := repoName p;
     GithubTool.action := Some "create_branch";
     GithubTool.taskBranch := branchName p;
     GithubTool.taskDescription := taskTitle p |}.

Definition cardDescription (p : Params) : string :=
  JS.show (taskDescription p) ++ JS.nl ++ JS.nl ++
  "🔗 **GitHub Branch:** " ++ JS.show (branchName p) ++ JS.nl ++
  "📁 **Repository:** " ++ JS.show (repoName p).

(** [{ action: 'create_card', title: taskTitle, description:
      cardDescription, listId: trelloListId, dueDate }] *)
Definition create_card_args (p : Params) : TrelloTool.Args :=
  {| TrelloTool.action := Some "create_card";
     TrelloTool.title := taskTitle p;
     TrelloTool.description := Some (cardDescription p);
     TrelloTool.listId := trelloListId p;
     TrelloTool.dueDate := dueDate p;
     TrelloTool.boardId := None; TrelloTool.arg_labels := None;
     TrelloTool.members := None; TrelloTool.cardId := None;
     TrelloTool.closed := None; TrelloTool.comment := None |}.

(** [{ repoName, action: 'create_pr', taskBranch: branchName,
      taskDescription: prTitle }] *)
Definition create_pr_args (p : Params) : GithubTool.Args :=
  {| GithubTool.repoName := repoName p;
     GithubTool.action := Some "create_pr";
     GithubTool.taskBranch := branchName p;
     GithubTool.taskDescription := prTitle p |}.

(** [{ action: 'move_card', cardId, listId: reviewListId }] *)
Definition move_card_args (p : Params) : TrelloTool.Args :=
  {| TrelloTool.action := Some "move_card";
     TrelloTool.cardId := cardId p;
     TrelloTool.listId := reviewListId p;
     TrelloTool.title := None; TrelloTool.description := None;
     TrelloTool.boardId := None; TrelloTool.arg_labels := None;
     TrelloTool.dueDate := None; TrelloTool.members := None;
     TrelloTool.closed := None; TrelloTool.comment := None |}.

(** [{ action: 'add_comment', cardId, comment: ... }] of the review
    workflow. *)
Definition pr_comment_args (p : Params) : TrelloTool.Args :=
  {| TrelloTool.action := Some "add_comment";
     TrelloTool.cardId := cardId p;
     TrelloTool.comment := Some
       ("🔍 **Pull Request Created!**" ++ JS.nl ++ JS.nl ++
        "📝 **Title:** " ++ JS.show (prTitle p) ++ JS.nl ++
        "🌿 **Branch:** " ++ JS.show (branchName p) ++ JS.nl ++
        "📁 **Repository:** " ++ JS.show (repoName p) ++ JS.nl ++ JS.nl ++
        "Ready for code review! 🚀");
     TrelloTool.title := None; TrelloTool.description := None;
     TrelloTool.listId := None; TrelloTool.boardId := None;
     TrelloTool.arg_labels := None; TrelloTool.dueDate := None;
     TrelloTool.members := None; TrelloTool.closed := None |}.

(** [{ action: 'update_card', cardId, closed: true }] *)
Definition update_card_args (p : Params) : TrelloTool.Args :=
  {| TrelloTool.action := Some "update_card";
     TrelloTool.cardId := cardId p;
     TrelloTool.closed := Some true;
     TrelloTool.title := None; TrelloTool.description := None;
     TrelloTool.listId := None; TrelloTool.boardId := None;
     TrelloTool.arg_labels := None; TrelloTool.dueDate := None;
     TrelloTool.members := None; TrelloTool.comment := None |}.

(** [{ action: 'add_comment', cardId, comment: ... }] of the completion
    workflow. *)
Definition completion_comment_args (p : Params) : TrelloTool.Args :=
  {| TrelloTool.action := Some "add_comment";
     TrelloTool.cardId := cardId p;
     TrelloTool.comment := Some
       ("✅ **Task Completed!**" ++ JS.nl ++ JS.nl ++
        "🎉 This task has been successfully completed and the card is now closed." ++ JS.nl ++
        "📁 Repository: " ++ JS.show (repoName p) ++ JS.nl ++
        "🌿 Branch: " ++ JS.show (branchName p));
     TrelloTool.title := None; TrelloTool.description := None;
     TrelloTool.listId := None; TrelloTool.boardId := None;
     TrelloTool.arg_labels := None; TrelloTool.dueDate := None;
     TrelloTool.members := None; TrelloTool.closed := None |}.

Section Methods.

Context {R : Type}.

(** [this.github.run] and [this.trello.run], set by the constructor. *)
Variable this_github_run : GithubTool.Args -> Eff R ToolResult.
Variable this_trello_run : TrelloTool.Args -> Eff R ToolResult.

Definition tool_run (c : Call) : Eff R ToolResult :=
  match c with
  | GithubRun a => this_github_run a
  | TrelloRun a => this_trello_run a
  end.

(** [await this.<tool>.run(args)]: the call is noted, then made on the
    remote state. *)
Definition invoke (c : Call) : Eff (Run R) ToolResult :=
  fun s =>
    let (r, w) := tool_run c (remote s) in
    (r, {| remote := w; calls := calls s ++ [c]; ledger := ledger s |}).

(** [const results = []] *)
Definition new_results : Eff (Run R) unit :=
  modify (fun s => {| remote := remote s; calls := calls s; ledger := [] |}).

(** [results.push(e)] *)
Definition push (e : Entry) : Eff (Run R) unit :=
  modify (fun s => {| remote := remote s; calls := calls s; ledger := ledger s ++ [e] |}).

(** [return { success: true, message, results }] *)
Definition succeed (m : string) : Eff (Run R) Outcome :=
  rs <- gets ledger ;;
  ret {| success := true; message := m; results := rs |}.

(** [catch (error) { return { success: false,
      message: `<prefix>${error.message}`, results } }] *)
Definition failed (prefix error_message : string) : Eff (Run R) Outcome :=
  rs <- gets ledger ;;
  ret {| success := false; message := prefix ++ error_message; results := rs |}.

Definition createTaskWithCard (p : Params) : Eff (Run R) Outcome :=
  new_results ;;;
  try_catch
    (branchResult <- invoke (GithubRun (create_branch_args p)) ;;
     push {| type := "github"; action := "branch_created"; result := branchResult |} ;;;
     cardResult <- invoke (TrelloRun (create_card_args p)) ;;
     push {| type := "trello"; action := "card_created"; result := cardResult |} ;;;
     succeed "Task workflow completed successfully!")
    (failed "Workflow failed: ").

Definition createPRAndUpdateCard (p : Params) : Eff (Run R) Outcome :=
  new_results ;;;
  try_catch
    (prResult <- invoke (GithubRun (create_pr_args p)) ;;
     push {| type := "github"; action := "pr_created"; result := prResult |} ;;;
     (if JS.truthy (cardId p) && JS.truthy (reviewListId p) then
        moveResult <- invoke (TrelloRun (move_card_args p)) ;;
        push {| type := "trello"; action := "card_moved"; result := moveResult |} ;;;
        commentResult <- invoke (TrelloRun (pr_comment_args p)) ;;
        push {| type := "trello"; action := "comment_added"; result := commentResult |}
      else ret tt) ;;;
     succeed "PR workflow completed successfully!")
    (failed "PR workflow failed: ").

(** [deleteBranch] is destructured (default [false]) and never read. *)
Definition completeTask (p : Params) : Eff (Run R) Outcome :=
  new_results ;;;
  try_catch
    (updateResult <- invoke (TrelloRun (update_card_args p)) ;;
     push {| type := "trello"; action := "card_completed"; result := updateResult |} ;;;
     commentResult <- invoke (TrelloRun (completion_comment_args p)) ;;
     push {| type := "trello"; action := "completion_comment_added";
             result := commentResult |} ;;;
     succeed "Task completion workflow finished!")
    (failed "Completion workflow failed: ").

End Methods.

(** *** The three workflows as step lists

    Which calls a method schedules depends on [params] only, never on
    what a tool answered; [steps] lists them with the tags of the ledger
    entry each one records. *)

Inductive WorkflowKind : Type :=
| TaskCreation
| ReviewTransition
| Completion.

Record Step : Type := mkStep {
  call : Call;
  tag_type : string;
  tag_action : string
}.

Definition steps (k : WorkflowKind) (p : Params) : list Step :=
  match k with
  | TaskCreation =>
      [ {| call := GithubRun (create_branch_args p);
           tag_type := "github"; tag_action := "branch_created" |};
        {| call := TrelloRun (create_card_args p);
           tag_type := "trello"; tag_action := "card_created" |} ]
  | ReviewTransition =>
      {| call := GithubRun (create_pr_args p);
         tag_type := "github"; tag_action := "pr_created" |} ::
      (if JS.truthy (cardId p) && JS.truthy (reviewListId p) then
         [ {| call := TrelloRun (move_card_args p);
              tag_type := "trello"; tag_action := "card_moved" |};
           {| call := TrelloRun (pr_comment_args p);
              tag_type := "trello"; tag_action := "comment_added" |} ]
       else [])
  | Completion =>
      [ {| call := TrelloRun (update_card_args p);
           tag_type := "trello"; tag_action := "card_completed" |};
        {| call := TrelloRun (completion_comment_args p);
           tag_type := "trello"; tag_action := "completion_comment_added" |} ]
  end.

Definition success_message (k : WorkflowKind) : string :=
  match k with
  | TaskCreation => "Task workflow completed successfully!"
  | ReviewTransition => "PR workflow completed successfully!"
  | Completion => "Task completion workflow finished!"
  end.

Definition failure_prefix (k : WorkflowKind) : string :=
  match k with
  | TaskCreation => "Workflow failed: "
  | ReviewTransition => "PR workflow failed: "
  | Completion => "Completion workflow failed: "
  end.

(** [params] with another value of [deleteBranch]. *)
Definition with_deleteBranch (b : option bool) (p : Params) : Params :=
  {| repoName := repoName p; branchName := branchName p; taskTitle := taskTitle p;
     taskDescription := taskDescription p; trelloListId := trelloListId p;
     dueDate := dueDate p; prTitle := prTitle p; prDescription := prDescription p;
     cardId := cardId p; reviewListId := reviewListId p; deleteBranch := b |}.

Section Runs.

Context {R : Type}.
Variable this_github_run : GithubTool.Args -> Eff R ToolResult.
Variable this_trello_run : TrelloTool.Args -> Eff R ToolResult.

(** The method of each workflow kind. *)
Definition run (k : WorkflowKind) (p : Params) : Eff (Run R) Outcome :=
  match k with
  | TaskCreation => createTaskWithCard this_github_run this_trello_run p
  | ReviewTransition => createPRAndUpdateCard this_github_run this_trello_run p
  | Completion => completeTask this_github_run this_trello_run p
  end.

(** Steps run one after the other; each records its entry when its call
    returns. *)
Fixpoint exec (todo : list Step) : Eff (Run R) unit :=
  match todo with
  | [] => ret tt
  | st :: rest =>
      r <- invoke this_github_run this_trello_run (call st) ;;
      push {| type := tag_type st; action := tag_action st; result := r |} ;;;
      exec rest
  end.

Definition run_steps (k : WorkflowKind) (p : Params) : Eff (Run R) Outcome :=
  new_results ;;;
  try_catch (exec (steps k p) ;;; succeed (success_message k))
            (failed (failure_prefix k)).

End Runs.

End Workflow.

(** ** The server entry point: wiring and [handleWorkflow] *)

Module Server.

Import Workflow.

Section Wiring.

Context {R : Type}.
Variable octokit : GithubTool.Octokit R.
Variable runtime : GithubTool.Runtime R.
Variable trello : TrelloTool.Client R.

(** The value of [loadRepositories()] and the two optional defaults read
    from the environment. *)
Variable repositories : option (list GithubTool.RepoConfig).
Variable TRELLO_BOARD_ID : option string.
Variable TRELLO_LIST_ID : option string.

(** [new GithubTool({ repos: repositories, token, documentationTool })] *)
Definition githubTool_run : GithubTool.Args -> Eff R ToolResult :=
  GithubTool.run octokit runtime (GithubTool.new_repos repositories None None).

(** [new TrelloTool({ apiKey, token, boardId, listId })] *)
Definition trelloTool_run : TrelloTool.Args -> Eff R ToolResult :=
  TrelloTool.run trello TRELLO_BOARD_ID TRELLO_LIST_ID.

(** [new WorkflowIntegration(githubTool, trelloTool)] *)
Definition workflowTool (k : WorkflowKind) (p : Params) : Eff (Run R) Outcome :=
  Workflow.run githubTool_run trelloTool_run k p.

Definition kind_of_action (action : option string) : option WorkflowKind :=
  match action with
  | None => None
  | Some a =>
      if a =? "create_task_with_card" then Some TaskCreation
      else if a =? "create_pr_and_update_card" then Some ReviewTransition
      else if a =? "complete_task" then Some Completion
      else None
  end.

(** The text of a successful outcome. *)
Definition render_entry (r : Entry) : string :=
  "**" ++ JS.toUpperCase (type r) ++ " - " ++ Workflow.action r ++ ":**" ++ JS.nl ++
  JS.or_else (Some (text (result r))) "Completed".

(** [handleWorkflow(workflowTool, { action, ...params })] *)
Definition handleWorkflow (action : option string) (p : Params) : Eff (Run R) ToolResult :=
  try_catch
    (res <- match kind_of_action action with
            | Some k => workflowTool k p
            | None => throw ("Unknown workflow action: " ++ JS.show action)
            end ;;
     let responseText :=
       if success res then
         "✅ " ++ message res ++ JS.nl ++ JS.nl ++
         JS.join (JS.nl ++ JS.nl) (map render_entry (results res))
       else "❌ " ++ message res in
     ret {| text := responseText; isError := negb (success res) |})
    (fun error_message =>
     ret {| text := "❌ Workflow error: " ++ error_message; isError := true |}).

End Wiring.

End Server.

(** ** Reading a run *)

Module Trace.

Import Workflow.

(** The service and the action of a tool call. *)
Definition is_call (service act : string) (c : Call) : bool :=
  match c with
  | GithubRun a => (service =? "github") && GithubTool.strict_eq (GithubTool.action a) (Some act)
  | TrelloRun a => (service =? "trello") && GithubTool.strict_eq (TrelloTool.action a) (Some act)
  end.

(** Was the action attempted in this list of calls? *)
Definition attempted (service act : string) (cs : list Call) : bool :=
  existsb (is_call service act) cs.

Definition is_github (c : Call) : bool :=
  match c with GithubRun _ => true | TrelloRun _ => false end.

(** The tags of a ledger entry and of a step. *)
Definition entry_tags (e : Entry) : string * string := (type e, Workflow.action e).
Definition step_tags (st : Step) : string * string := (tag_type st, tag_action st).

Section Replay.

Context {R : Type}.
Variable this_github_run : GithubTool.Args -> Eff R ToolResult.
Variable this_trello_run : TrelloTool.Args -> Eff R ToolResult.

(** The remote state after the calls [cs], made in this order from [w]. *)
Fixpoint replay (cs : list Call) (w : R) : R :=
  match cs with
  | [] => w
  | c :: rest => replay rest (snd (tool_run this_github_run this_trello_run c w))
  end.

(** Every call of [cs], made in this order from [w], returns. *)
Fixpoint all_return (cs : list Call) (w : R) : Prop :=
  match cs with
  | [] => True
  | c :: rest =>
      (exists r, fst (tool_run this_github_run this_trello_run c w) = Normal r) /\
      all_return rest (snd (tool_run this_github_run this_trello_run c w))
  end.

(** The call [c], made after the calls [cs], throws [m]. *)
Definition throws_after (cs : list Call) (c : Call) (m : string) (w : R) : Prop :=
  fst (tool_run this_github_run this_trello_run c (replay cs w)) = Throw m.

End Replay.

(** Two tools answer alike on states related by [sim], and keep them
    related. *)
Definition responds_alike {R1 R2 A : Type} (sim : R1 -> R2 -> Prop)
    (f1 : A -> Eff R1 ToolResult) (f2 : A -> Eff R2 ToolResult) : Prop :=
  forall a w1 w2, sim w1 w2 ->
    fst (f1 a w1) = fst (f2 a w2) /\ sim (snd (f1 a w1)) (snd (f2 a w2)).

(** Two run states with related remote states, the same calls and the
    same ledger. *)
Definition alike {R1 R2 : Type} (sim : R1 -> R2 -> Prop) (s1 : Run R1) (s2 : Run R2) : Prop :=
  sim (remote s1) (remote s2) /\ calls s1 = calls s2 /\ ledger s1 = ledger s2.

End Trace.

(** ** The policy in the words of the specification *)

Module Policy.

(** One character of [[A-Za-z0-9/_-]]. *)
Definition allowed_char (c : ascii) : bool :=
  JS.between 65 90 c || JS.between 97 122 c || JS.between 48 57 c ||
  Ascii.eqb c "/" || Ascii.eqb c "_" || Ascii.eqb c "-".

(** The candidate starts with a prefix of the whitelist. *)
Definition allowed_prefix (s : string) : Prop :=
  exists pre rest, In pre GithubTool.prefixes /\ s = pre ++ rest.

(** The explanation of the prefix rule, with the whitelist spelled out. *)
Definition prefix_explanation : string :=
  "Branch name must start with one of: feature/, fix/, enhancement/, hotfix/, bugfix/, feat/, chore/, docs/, style/, refactor/, test/".

(** Sixty times the letter a. *)
Definition sixty_a : string :=
  "aaaaaaaaaaaaaaaaaaaaaaaaaaaaaaaaaaaaaaaaaaaaaaaaaaaaaaaaaaaa".

End Policy.

(** ** Test doubles

    Remote services whose state is the list of requests they received,
    oldest first.  A service that is [up] answers every request; one that
    is not refuses every request with a fixed error. *)

Module Mock.

Definition World : Type := list string.

Definition answer {A : Type} (up : bool) (request refusal : string) (a : A) : Eff World A :=
  fun w => (if up then Normal a else Throw refusal, (w ++ [request])%list).

Definition octokit (up : bool) : GithubTool.Octokit World :=
  {| GithubTool.repos_listBranches := fun _ _ =>
       answer up "listBranches" "Bad credentials"
         [ {| GithubTool.branch_name := "main"; GithubTool.protected := true |} ];
     GithubTool.git_getRef := fun _ _ ref =>
       answer up ("getRef " ++ ref) "Bad credentials" "0a1b2c3d";
     GithubTool.git_createRef := fun _ _ ref _ =>
       answer up ("createRef " ++ ref) "Bad credentials" tt;
     GithubTool.pulls_create := fun _ _ t head base _ =>
       answer up ("createPull " ++ head) "Bad credentials"
         {| GithubTool.number := 7; GithubTool.title := JS.show t;
            GithubTool.head_ref := head; GithubTool.base_ref := base;
            GithubTool.html_url := "https://github.com/owner/repository/pull/7" |};
     GithubTool.pulls_list := fun _ _ => answer up "listPulls" "Bad credentials" [];
     GithubTool.repos_getContent := fun _ _ path _ =>
       answer up ("getContent " ++ JS.show path) "Not Found"
         {| GithubTool.content :=
              if JS.show path =? "docs" then None else Some "aGVsbG8=";
            GithubTool.sha := "9f8e7d" |};
     GithubTool.repos_createOrUpdateFileContents := fun _ _ path _ _ _ _ =>
       answer up ("updateContent " ++ JS.show path) "Bad credentials" tt |}.

(** The message of the [TypeError] for a parameter that cannot be
    destructured. *)
Definition type_error : string :=
  "Cannot destructure property 'repoName' of 'undefined' as it is undefined.".

Definition runtime : GithubTool.Runtime World :=
  {| GithubTool.Date_now := fun w => (1700, w);
     GithubTool.decode_base64 := fun x =>
       match x with
       | Some s => Normal s
       | None => Throw "The first argument must be of type string"
       end;
     GithubTool.encode_base64 := fun x =>
       match x with
       | Some s => Normal s
       | None => Throw "The first argument must be of type string"
       end;
     GithubTool.JSON_parse := fun _ => Throw "Unexpected end of JSON input" |}.

Definition a_card (title : string) : TrelloTool.Card :=
  {| TrelloTool.card_id := "c1"; TrelloTool.card_name := title;
     TrelloTool.desc := None; TrelloTool.url := "https://trello.com/c/c1";
     TrelloTool.due := None; TrelloTool.card_closed := false;
     TrelloTool.labels := None; TrelloTool.card_list := None |}.

Definition trello (up : bool) : TrelloTool.Client World :=
  {| TrelloTool.get_boards := answer up "boards" "invalid token" [];
     TrelloTool.get_lists := fun b => answer up ("lists " ++ b) "invalid token" [];
     TrelloTool.post_card := fun d =>
       answer up ("card in " ++ TrelloTool.cd_idList d) "invalid token"
         (a_card (JS.show (TrelloTool.cd_name d)));
     TrelloTool.get_cards := fun l => answer up ("cards " ++ l) "invalid token" [];
     TrelloTool.put_card := fun c _ => answer up ("put " ++ c) "invalid token" (a_card "task");
     TrelloTool.post_comment := fun c t =>
       answer up ("comment " ++ c) "invalid token"
         {| TrelloTool.comment_text := t; TrelloTool.fullName := "Dev";
            TrelloTool.date := "2024-01-01T00:00:00.000Z" |};
     TrelloTool.toLocaleString := fun d => d |}.

(** The fallback configuration of [loadRepositories]. *)
Definition repositories : option (list GithubTool.RepoConfig) :=
  Some [ {| GithubTool.name := Some "example-repo";
            GithubTool.repo := "owner/repository";
            GithubTool.defaultBranch := "main" |} ].

Definition github_run (up : bool) : GithubTool.Args -> Eff World ToolResult :=
  Server.githubTool_run (octokit up) runtime repositories.

Definition trello_run (up : bool) : TrelloTool.Args -> Eff World ToolResult :=
  Server.trelloTool_run (trello up) None None.

(** A tool over a state that also counts the calls it served. *)
Definition counting {A : Type} (f : A -> Eff World ToolResult) :
    A -> Eff (nat * World) ToolResult :=
  fun a s => let (r, w) := f a (snd s) in (r, (S (fst s), w)).

Definition same_requests (w : World) (s : nat * World) : Prop := w = snd s.

Definition no_params : Workflow.Params :=
  {| Workflow.repoName := None; Workflow.branchName := None; Workflow.taskTitle := None;
     Workflow.taskDescription := None; Workflow.trelloListId := None;
     Workflow.dueDate := None; Workflow.prTitle := None; Workflow.prDescription := None;
     Workflow.cardId := None; Workflow.reviewListId := None; Workflow.deleteBranch := None |}.

(** A task on the configured repository, with the given branch name. *)
Definition task (branch : string) : Workflow.Params :=
  {| Workflow.repoName := Some "example-repo"; Workflow.branchName := Some branch;
     Workflow.taskTitle := Some "Login fix"; Workflow.taskDescription := Some "Fix the login";
     Workflow.trelloListId := Some "list1";
     Workflow.dueDate := None; Workflow.prTitle := Some "Login fix";
     Workflow.prDescription := None;
     Workflow.cardId := None; Workflow.reviewListId := None; Workflow.deleteBranch := None |}.

(** The same task with a card to move to a review list. *)
Definition task_with_card (branch card list : string) : Workflow.Params :=
  {| Workflow.repoName := Some "example-repo"; Workflow.branchName := Some branch;
     Workflow.taskTitle := Some "Login fix"; Workflow.taskDescription := Some "Fix the login";
     Workflow.trelloListId := Some "list1";
     Workflow.dueDate := None; Workflow.prTitle := Some "Login fix";
     Workflow.prDescription := None;
     Workflow.cardId := Some card; Workflow.reviewListId := Some list;
     Workflow.deleteBranch := Some true |}.

(** A pull request asked for a repository that is not configured. *)
Definition review_of_unknown_repo : Workflow.Params :=
  {| Workflow.repoName := Some "missing"; Workflow.branchName := Some "feature/login-fix";
     Workflow.taskTitle := None; Workflow.taskDescription := None;
     Workflow.trelloListId := None; Workflow.dueDate := None;
     Workflow.prTitle := Some "Login fix"; Workflow.prDescription := None;
     Workflow.cardId := None; Workflow.reviewListId := None; Workflow.deleteBranch := None |}.

End Mock.

(** ** The actions of the task-board tool *)

Module Cases.

(** The [case] labels of the [switch] of [TrelloTool.run]. *)
Definition trello_actions : list string :=
  ["list_boards"; "list_lists"; "create_card"; "list_cards"; "update_card";
   "move_card"; "add_comment"].

Definition known_trello_action (act : string) : bool :=
  existsb (String.eqb act) trello_actions.

(** A configured repository answers to the name [x]. *)
Definition answers_to (r : GithubTool.RepoConfig) (x : option string) : Prop :=
  GithubTool.name r = x \/ Some (GithubTool.repo r) = x.

(** The value of [taskBranch || `task-${Date.now()}`] in [run], and the
    remote state once it is evaluated: the clock is read only when
    [taskBranch] is missing or empty. *)
Definition branch_of {R : Type} (runtime : GithubTool.Runtime R) (a : GithubTool.Args)
    (w : R) : string :=
  if JS.truthy (GithubTool.taskBranch a) then JS.show (GithubTool.taskBranch a)
  else "task-" ++ JS.show_nat (fst (GithubTool.Date_now runtime w)).

Definition state_of {R : Type} (runtime : GithubTool.Runtime R) (a : GithubTool.Args)
    (w : R) : R :=
  if JS.truthy (GithubTool.taskBranch a) then w
  else snd (GithubTool.Date_now runtime w).

(** No slash occurs in [s]. *)
Definition no_slash (s : string) : Prop :=
  JS.all_chars (fun c => negb (Ascii.eqb c "/")) s = true.

End Cases.

(** ** More test data *)

Module Fixtures.

(** The single entry of [Mock.repositories]. *)
Definition example_repo : GithubTool.RepoConfig :=
  {| GithubTool.name := Some "example-repo";
     GithubTool.repo := "owner/repository";
     GithubTool.defaultBranch := "main" |}.

(** A call of the version-control tool on the configured repository. *)
Definition github_call (action : string) (branch description : option string) :
    GithubTool.Args :=
  {| GithubTool.repoName := Some "example-repo";
     GithubTool.taskBranch := branch;
     GithubTool.taskDescription := description;
     GithubTool.action := Some action |}.

(** A runtime whose parser knows one update description. *)
Definition runtime : GithubTool.Runtime Mock.World :=
  {| GithubTool.Date_now := fun w => (1700, w);
     GithubTool.decode_base64 := fun x =>
       match x with
       | Some s => Normal s
       | None => Throw "The first argument must be of type string"
       end;
     GithubTool.encode_base64 := fun x =>
       match x with
       | Some s => Normal s
       | None => Throw "The first argument must be of type string"
       end;
     GithubTool.JSON_parse := fun x =>
       match x with
       | Some "{}" =>
           Normal {| GithubTool.filepath := None; GithubTool.new_content := None;
                     GithubTool.commit_message := None |}
       | Some "readme" =>
           Normal {| GithubTool.filepath := Some "README.md";
                     GithubTool.new_content := Some "hello";
                     GithubTool.commit_message := None |}
       | _ => Throw "Unexpected end of JSON input"
       end |}.

(** A call of the task-board tool with the given action and nothing else. *)
Definition trello_call (action : string) : TrelloTool.Args :=
  {| TrelloTool.action := Some action; TrelloTool.title := None;
     TrelloTool.description := None; TrelloTool.listId := None;
     TrelloTool.boardId := None; TrelloTool.arg_labels := None;
     TrelloTool.dueDate := None; TrelloTool.members := None;
     TrelloTool.cardId := None; TrelloTool.closed := None;
     TrelloTool.comment := None |}.

End Fixtures.

(** ** tools/wpcli.js *)

Module WpCliTool.

(** What the callback of [exec] receives: [err.message] when the command
    failed, and the two output streams. *)
Record ExecOutput : Type := mkExecOutput {
  err : option string;
  stdout : string;
  stderr : string
}.

(** [child_process.exec(commandLine, { cwd }, callback)] over the state
    [R] of the machine. *)
Definition Shell (R : Type) : Type := string -> string -> R -> ExecOutput * R.

Section Methods.

Context {R : Type}.
Variable exec : Shell R.
Variable workingDir : string.

(** [async run({ command })]: the promise is always resolved. *)
Definition run (command : option string) : Eff R ToolResult :=
  fun w =>
    let (out, w') := exec ("wp " ++ JS.show command) workingDir w in
    match err out with
    | Some message =>
        (Normal {| text := "❌ WP-CLI Error: " ++ JS.or_else (Some (stderr out)) message;
                   isError := true |}, w')
    | None =>
        (Normal {| text := "✅ WP-CLI Result:" ++ JS.nl ++ stdout out; isError := false |}, w')
    end.

End Methods.

End WpCliTool.

(** ** tools/documentation.js

    The methods that answer a request, over the document cache that
    [loadDocuments] built.  Texts are UTF-8 byte strings here;
    [toLowerCase] and [trim] belong to the runtime, as do the members every
    object inherits from [Object.prototype]. *)

Module DocumentationTool.

(** One value of [this.documentCache]. *)
Record Doc : Type := mkDoc {
  filename : string;
  content : string;
  title : string;
  summary : string
}.

(** [this.documentCache]: the entries in insertion order. *)
Definition Cache : Type := list (string * Doc).

Record Runtime : Type := mkRuntime {
  toLowerCase : string -> string;
  trim : string -> string;
  (** [Object.prototype[key]] as a template prints it, for the keys that
      every object inherits ([constructor], [toString], [__proto__], ...). *)
  Object_prototype : string -> option string
}.

(** The argument of [run]. *)
Record Args : Type := mkArgs {
  action : option string;
  document : option string;
  query : option string
}.

(** What [docName] can hold in [getDocument]: a string, [undefined], or an
    inherited member (given by its printed form). *)
Inductive Name : Type :=
| Str (s : string)
| Undefined
| Inherited (printed : string).

Definition name_of (x : option string) : Name :=
  match x with Some s => Str s | None => Undefined end.

(** [map.get(key)] and [obj[key]] on own keys. *)
Fixpoint lookup {A : Type} (key : string) (m : list (string * A)) : option A :=
  match m with
  | [] => None
  | (k, v) :: rest => if k =? key then Some v else lookup key rest
  end.

(** [const rulesMap = { ... }] *)
Definition rulesMap : list (string * string) :=
  [ ("git", "git-best-practices");
    ("coding", "coding-best-practices");
    ("review", "code-review-best-practices");
    ("pr", "how-to-make-github-prs");
    ("github", "how-to-make-github-prs") ].

Record Guideline : Type := mkGuideline {
  rules : list string;
  guideline_summary : string
}.

(** [const guidelines = { ... }] *)
Definition guidelines : list (string * Guideline) :=
  [ ("create_branch",
     {| rules := ["git-best-practices"];
        guideline_summary :=
          "Follow Git branching strategy: feature/fix/enhancement prefixes" |});
    ("create_pr",
     {| rules := ["how-to-make-github-prs"; "code-review-best-practices"];
        guideline_summary :=
          "Use proper PR templates, clear descriptions, and link issues" |});
    ("code_review",
     {| rules := ["code-review-best-practices"; "coding-best-practices"];
        guideline_summary :=
          "Check functionality, security, performance, and maintainability" |});
    ("coding",
     {| rules := ["coding-best-practices"];
        guideline_summary :=
          "Follow DRY, KISS, SOLID principles with proper naming and documentation" |}) ].

(** One match of a search. *)
Record Hit : Type := mkHit {
  hit_document : string;
  hit_title : string;
  matches : list string
}.

Section Methods.

Variable runtime : Runtime.
Variable documentCache : Cache.

Definition plain (t : string) : ToolResult := {| text := t; isError := false |}.

Definition listDocuments : ToolResult :=
  plain ("📚 Available Company Documentation:" ++ JS.nl ++ JS.nl ++
         JS.join JS.nl
           (map (fun entry =>
                   "📄 **" ++ title (snd entry) ++ "**" ++ JS.nl ++
                   "   File: " ++ filename (snd entry) ++ JS.nl ++
                   "   " ++ summary (snd entry) ++ JS.nl) documentCache) ++
         JS.nl ++ JS.nl ++
         "💡 Use action 'get' with document name to read full content").

(** The error of [getDocument] for a name that is not in the cache. *)
Definition not_found (printed : string) : string :=
  "Document '" ++ printed ++ "' not found. Available: " ++
  JS.join ", " (map fst documentCache).

Definition getDocument (docName : Name) : completion ToolResult :=
  match docName with
  | Undefined => Normal listDocuments
  | Str s =>
      if s =? "" then Normal listDocuments
      else match lookup s documentCache with
           | None => Throw (not_found s)
           | Some doc => Normal (plain ("📄 **" ++ title doc ++ "**" ++ JS.nl ++ JS.nl ++
                                        content doc))
           end
  | Inherited printed => Throw (not_found printed)
  end.

(** The lines of a document that contain the search term. *)
Definition matching_lines (searchTerm : string) (doc : Doc) : list string :=
  filter (fun line => JS.includes (toLowerCase runtime line) searchTerm)
         (JS.split "010" (content doc)).

(** The [results] array that the [forEach] of [searchDocuments] builds. *)
Definition search_hits (searchTerm : string) : list Hit :=
  flat_map (fun entry =>
              if JS.includes (toLowerCase runtime (content (snd entry))) searchTerm then
                [ {| hit_document := fst entry;
                     hit_title := title (snd entry);
                     matches := firstn 5 (matching_lines searchTerm (snd entry)) |} ]
              else []) documentCache.

Definition searchDocuments (q : option string) : completion ToolResult :=
  if negb (JS.truthy q) then Throw "Search query is required"
  else
    let results := search_hits (toLowerCase runtime (JS.show q)) in
    match results with
    | [] =>
        Normal (plain ("🔍 No results found for: " ++ JS.dq ++ JS.show q ++ JS.dq ++
                       JS.nl ++ JS.nl ++
                       "📚 Try searching for: git, coding, review, PR, best practices, security, etc."))
    | _ :: _ =>
        Normal (plain ("🔍 Search results for " ++ JS.dq ++ JS.show q ++ JS.dq ++ ":" ++
                       JS.nl ++ JS.nl ++
                       JS.join JS.nl
                         (map (fun result =>
                                 "📄 **" ++ hit_title result ++ "** (" ++
                                 hit_document result ++ ")" ++ JS.nl ++
                                 JS.join JS.nl
                                   (map (fun m => "   • " ++ trim runtime m) (matches result)) ++
                                 JS.nl) results)))
    end.

(** [rulesMap[category?.toLowerCase()] || category] *)
Definition rule_document (category : option string) : Name :=
  let key := match category with
             | Some c => toLowerCase runtime c
             | None => "undefined"
             end in
  match lookup key rulesMap with
  | Some docName => Str docName
  | None =>
      match Object_prototype runtime key with
      | Some printed => Inherited printed
      | None => name_of category
      end
  end.

Definition getCompanyRules (category : option string) : completion ToolResult :=
  match rule_document category with
  | Undefined | Str "" =>
      Normal (plain ("📋 Company Rules Categories:" ++ JS.nl ++ JS.nl ++
                     JS.join JS.nl
                       (map (fun kv => "• **" ++ fst kv ++ "** - " ++ snd kv) rulesMap) ++
                     JS.nl ++ JS.nl ++
                     "💡 Use: action='rules', document='git' (or coding, review, pr)"))
  | docName => getDocument docName
  end.

(** The first twenty lines of a document, as [getGuidelines] quotes it. *)
Definition excerpt (doc : Doc) : string :=
  "📄 **" ++ title doc ++ "**" ++ JS.nl ++
  JS.join JS.nl (firstn 20 (JS.split "010" (content doc))) ++ "..." ++ JS.nl.

Definition guideline_list : ToolResult :=
  plain ("📋 Available Action Guidelines:" ++ JS.nl ++ JS.nl ++
         JS.join JS.nl
           (map (fun kv => "• **" ++ fst kv ++ "** - " ++ guideline_summary (snd kv))
                guidelines) ++
         JS.nl ++ JS.nl ++
         "💡 Use: action='guidelines', document='create_branch' (or create_pr, code_review, coding)").

Definition getGuidelines (actionType : option string) : completion ToolResult :=
  if negb (JS.truthy actionType) then Normal guideline_list
  else
    match lookup (JS.show actionType) guidelines with
    | Some guideline =>
        let relevantDocs :=
          JS.join JS.nl
            (map (fun ruleName =>
                    match lookup ruleName documentCache with
                    | Some doc => excerpt doc
                    | None => ""
                    end) (rules guideline)) in
        Normal (plain ("📋 Guidelines for " ++ JS.show actionType ++ ":" ++ JS.nl ++ JS.nl ++
                       guideline_summary guideline ++ JS.nl ++ JS.nl ++ relevantDocs))
    | None =>
        match Object_prototype runtime (JS.show actionType) with
        | Some _ => Throw "Cannot read properties of undefined (reading 'map')"
        | None => Normal guideline_list
        end
    end.

(** The [switch] of [run]. *)
Definition run_body (a : Args) : completion ToolResult :=
  match action a with
  | None => Throw ("Unknown action: " ++ JS.show (action a))
  | Some act =>
      if act =? "list" then Normal listDocuments
      else if act =? "get" then getDocument (name_of (document a))
      else if act =? "search" then searchDocuments (query a)
      else if act =? "rules" then getCompanyRules (document a)
      else if act =? "guidelines" then getGuidelines (document a)
      else Throw ("Unknown action: " ++ act)
  end.

(** [async run({ action, document, query })] *)
Definition run (a : Args) : completion ToolResult :=
  match run_body a with
  | Normal r => Normal r
  | Throw message =>
      Normal {| text := "❌ Documentation Error: " ++ message; isError := true |}
  end.

End Methods.

End DocumentationTool.

(** ** The server entry point: configuration and tool calls *)

Module Config.

(** What [loadRepositories] reads: the environment variable, whether
    [config/repos.json] exists, its text (a throw when it cannot be read),
    and [JSON.parse] seen through its two uses: the value of the variable
    as a list of repositories, and the [repositories] member of the parsed
    file.  [None] is [null] or [undefined]; a parse that fails, or a member
    read on [null], is a throw.  Values that are neither a list nor
    [null] are outside this model. *)
Record Env : Type := mkEnv {
  GITHUB_REPOS : option string;
  existsSync : bool;
  readFileSync : completion string;
  parse_repositories : string -> completion (option (list GithubTool.RepoConfig));
  parse_config : string -> completion (option (list GithubTool.RepoConfig))
}.

(** The configuration returned when nothing is configured or when loading
    fails; [branch] is ["main"] in the server with the task-board tools and
    ["develop"] in the one without. *)
Definition fallback (branch : string) : option (list GithubTool.RepoConfig) :=
  Some [ {| GithubTool.name := Some "example-repo";
            GithubTool.repo := "owner/repository";
            GithubTool.defaultBranch := branch |} ].

(** The [try] block of [loadRepositories]. *)
Definition load_body (env : Env) (branch : string) :
    completion (option (list GithubTool.RepoConfig)) :=
  if JS.truthy (GITHUB_REPOS env) then parse_repositories env (JS.show (GITHUB_REPOS env))
  else if existsSync env then
    match readFileSync env with
    | Normal configFile => parse_config env configFile
    | Throw m => Throw m
    end
  else Normal (fallback branch).

Definition loadRepositories (env : Env) (branch : string) :
    option (list GithubTool.RepoConfig) :=
  match load_body env branch with
  | Normal repositories => repositories
  | Throw _ => fallback branch
  end.

End Config.

Module Dispatch.

(** [request.params.arguments]: one object, which each tool destructures
    in its own way. *)
Record Arguments : Type := mkArguments {
  command : option string;
  repoName : option string;
  taskBranch : option string;
  taskDescription : option string;
  action : option string;
  document : option string;
  query : option string;
  title : option string;
  description : option string;
  listId : option string;
  boardId : option string;
  labels : option (list string);
  dueDate : option string;
  members : option (list string);
  cardId : option string;
  closed : option bool;
  comment : option string;
  branchName : option string;
  taskTitle : option string;
  trelloListId : option string;
  prTitle : option string;
  prDescription : option string;
  reviewListId : option string;
  deleteBranch : option bool
}.

(** [{ repoName, taskBranch, taskDescription, action }] *)
Definition github_args (a : Arguments) : GithubTool.Args :=
  {| GithubTool.repoName := repoName a; GithubTool.taskBranch := taskBranch a;
     GithubTool.taskDescription := taskDescription a; GithubTool.action := action a |}.

(** [{ action, document, query }] *)
Definition docs_args (a : Arguments) : DocumentationTool.Args :=
  {| DocumentationTool.action := action a; DocumentationTool.document := document a;
     DocumentationTool.query := query a |}.

(** [{ action, ...args }] of the task-board tool. *)
Definition trello_args (a : Arguments) : TrelloTool.Args :=
  {| TrelloTool.action := action a; TrelloTool.title := title a;
     TrelloTool.description := description a; TrelloTool.listId := listId a;
     TrelloTool.boardId := boardId a; TrelloTool.arg_labels := labels a;
     TrelloTool.dueDate := dueDate a; TrelloTool.members := members a;
     TrelloTool.cardId := cardId a; TrelloTool.closed := closed a;
     TrelloTool.comment := comment a |}.

(** [{ action, ...params }] of [handleWorkflow]. *)
Definition workflow_params (a : Arguments) : Workflow.Params :=
  {| Workflow.repoName := repoName a; Workflow.branchName := branchName a;
     Workflow.taskTitle := taskTitle a; Workflow.taskDescription := taskDescription a;
     Workflow.trelloListId := trelloListId a; Workflow.dueDate := dueDate a;
     Workflow.prTitle := prTitle a; Workflow.prDescription := prDescription a;
     Workflow.cardId := cardId a; Workflow.reviewListId := reviewListId a;
     Workflow.deleteBranch := deleteBranch a |}.

(** The response of the handler for a failure with message [m]. *)
Definition refused (name m : string) : ToolResult :=
  {| text := "Error executing " ++ name ++ ": " ++ m; isError := true |}.

Section Handler.

Context {R : Type}.
Variable exec : WpCliTool.Shell R.
Variable octokit : GithubTool.Octokit R.
Variable runtime : GithubTool.Runtime R.
Variable trello : TrelloTool.Client R.
Variable docs_runtime : DocumentationTool.Runtime.
Variable documentCache : DocumentationTool.Cache.
Variable repositories : option (list GithubTool.RepoConfig).

(** Whether [TRELLO_API_KEY] and [TRELLO_TOKEN] are both set, and the two
    optional defaults. *)
Variable trello_configured : bool.
Variable TRELLO_BOARD_ID : option string.
Variable TRELLO_LIST_ID : option string.

(** The message of the [TypeError] raised when a tool destructures
    arguments that are [undefined], by tool name. *)
Variable cannot_destructure : string -> string.

(** A tool that destructures its parameter, called with the arguments of
    the request: destructuring [undefined] throws.  [GithubTool.call] and
    [TrelloTool.call] are the same step for the two tools that have it in
    their own module. *)
Definition with_arguments (name : string) (args : option Arguments)
    (tool : Arguments -> Eff R ToolResult) : Eff R ToolResult :=
  match args with
  | Some a => tool a
  | None => throw (cannot_destructure name)
  end.

(** [handleWorkflow] between two remote states: the ledger and the record
    of calls live for one run. *)
Definition workflow_request (a : Arguments) : Eff R ToolResult :=
  fun w =>
    let (r, s) :=
      Server.handleWorkflow octokit runtime trello repositories TRELLO_BOARD_ID TRELLO_LIST_ID
        (action a) (workflow_params a) (Workflow.start w) in
    (r, Workflow.remote s).

(** [wpCliTool], as the server constructs it. *)
Definition workingDir : string := "/Users/macbookair/Local Sites/lms/app/public".

(** The [switch] of the [CallToolRequestSchema] handler. *)
Definition call_body (name : string) (args : option Arguments) : Eff R ToolResult :=
  if name =? "wpcli" then
    with_arguments name args (fun a => WpCliTool.run exec workingDir (command a))
  else if name =? "github" then
    GithubTool.call octokit runtime (GithubTool.new_repos repositories None None)
      (cannot_destructure name) (option_map github_args args)
  else if name =? "docs" then
    with_arguments name args
      (fun a => GithubTool.lift (DocumentationTool.run docs_runtime documentCache (docs_args a)))
  else if name =? "trello" then
    if negb trello_configured then
      throw "Trello integration not available. Please set TRELLO_API_KEY and TRELLO_TOKEN environment variables."
    else
      TrelloTool.call trello TRELLO_BOARD_ID TRELLO_LIST_ID
        (cannot_destructure name) (option_map trello_args args)
  else if name =? "workflow" then
    if negb trello_configured then
      throw "Workflow integration not available. Please set up both GitHub and Trello integrations."
    else with_arguments name args workflow_request
  else throw ("Unknown tool: " ++ name).

(** The handler of a tool call: [{ name, arguments }] of the request. *)
Definition callTool (name : string) (args : option Arguments) : Eff R ToolResult :=
  try_catch (call_body name args) (fun message => ret (refused name message)).

End Handler.

(** The names of the [switch]. *)
Definition tools : list string := ["wpcli"; "github"; "docs"; "trello"; "workflow"].

Definition known_tool (name : string) : bool := existsb (String.eqb name) tools.

End Dispatch.

(** ** tools/documentation.js: loading the cache *)

Module DocumentLoader.

Import DocumentationTool.

(** [s.endsWith(suffix)] *)
Definition endsWith (s suffix : string) : bool :=
  (String.length suffix <=? String.length s)%nat &&
  (substring (String.length s - String.length suffix) (String.length suffix) s =? suffix).

(** [s] without its first [n] code units. *)
Fixpoint drop (n : nat) (s : string) : string :=
  match n, s with
  | O, _ => s
  | S n', String _ rest => drop n' rest
  | S _, EmptyString => EmptyString
  end.

(** [s.replace(pattern, replacement)] for a string pattern: the first
    occurrence only. *)
Fixpoint replace_first (pattern replacement s : string) : string :=
  if String.prefix pattern s then replacement ++ drop (String.length pattern) s
  else match s with
       | EmptyString => EmptyString
       | String c rest => String c (replace_first pattern replacement rest)
       end.

(** [map.set(key, value)]: an existing key keeps its place. *)
Fixpoint set {A : Type} (key : string) (value : A) (m : list (string * A)) :
    list (string * A) :=
  match m with
  | [] => [(key, value)]
  | (k, v) :: rest =>
      if k =? key then (k, value) :: rest else (k, v) :: set key value rest
  end.

(** The file system as [loadDocuments] sees it, under [this.docsPath], and
    the match of [/^#\s+(.+)$/m] (its first group), which belongs to the
    regular-expression engine. *)
Record Files : Type := mkFiles {
  existsSync : bool;
  readdirSync : completion (list string);
  readFileSync : string -> completion string;
  title_match : string -> option string
}.

Section Methods.

Variable runtime : Runtime.
Variable fs : Files.

(** [extractTitle(content)] *)
Definition extractTitle (content : string) : string :=
  match title_match fs content with
  | Some t => t
  | None => "Untitled Document"
  end.

(** [line.replace(/^\*\*|^\>/, '')] *)
Definition strip_mark (line : string) : string :=
  if String.prefix "**" line then drop 2 line
  else if String.prefix ">" line then drop 1 line
  else line.

(** The [for] loop of [extractSummary] over the lines after the title;
    [summaryLines] holds the lines kept so far. *)
Fixpoint collect (lines : list string) (summaryLines : list string) : list string :=
  match lines with
  | [] => summaryLines
  | raw :: rest =>
      if (length summaryLines <? 3)%nat then
        let line := trim runtime raw in
        if negb (line =? "") && negb (JS.startsWith line "#") &&
           negb (JS.startsWith line ">") && negb (JS.startsWith line "---")
        then collect rest (summaryLines ++ [trim runtime (strip_mark line)])
        else collect rest summaryLines
      else summaryLines
  end.

(** The lines after the first one that starts with [# ], if any. *)
Fixpoint after_title (lines : list string) : option (list string) :=
  match lines with
  | [] => None
  | line :: rest => if JS.startsWith line "# " then Some rest else after_title rest
  end.

(** [extractSummary(content)] *)
Definition extractSummary (content : string) : string :=
  match after_title (JS.split "010" content) with
  | None => "No summary available"
  | Some rest => JS.or_else (Some (JS.join " " (collect rest []))) "No summary available"
  end.

(** The [forEach] of [loadDocuments]: a file that cannot be read throws,
    and the [catch] leaves the cache as it is then. *)
Fixpoint load (mdFiles : list string) (cache : Cache) : Cache :=
  match mdFiles with
  | [] => cache
  | file :: rest =>
      match readFileSync fs file with
      | Normal content =>
          load rest
            (set (replace_first ".md" "" file)
                 {| filename := file; content := content;
                    title := extractTitle content;
                    summary := extractSummary content |} cache)
      | Throw _ => cache
      end
  end.

(** [this.documentCache] after the constructor. *)
Definition loadDocuments : Cache :=
  if existsSync fs then
    match readdirSync fs with
    | Normal files => load (filter (fun file => endsWith file ".md") files) []
    | Throw _ => []
    end
  else [].

(** An entry that comes from a Markdown file that was read. *)
Definition from_file (entry : string * Doc) : Prop :=
  fst entry = replace_first ".md" "" (filename (snd entry)) /\
  endsWith (filename (snd entry)) ".md" = true /\
  readFileSync fs (filename (snd entry)) = Normal (content (snd entry)).

(** Every file of the list can be read. *)
Definition readable (files : list string) : Prop :=
  forall file, In file files -> exists content, readFileSync fs file = Normal content.

End Methods.

End DocumentLoader.

(** ** Test data for the documentation tool and the server *)

Module DocFixtures.

Definition lower_char (c : ascii) : ascii :=
  if JS.between 65 90 c then ascii_of_nat (nat_of_ascii c + 32) else c.

(** Lower case on the ASCII letters. *)
Fixpoint lower (s : string) : string :=
  match s with
  | EmptyString => EmptyString
  | String c rest => String (lower_char c) (lower rest)
  end.

Definition runtime : DocumentationTool.Runtime :=
  {| DocumentationTool.toLowerCase := lower;
     DocumentationTool.trim := fun s => s;
     DocumentationTool.Object_prototype := fun key =>
       if key =? "constructor" then Some "function Object() { [native code] }"
       else if key =? "__proto__" then Some "[object Object]"
       else None |}.

Definition git_doc : DocumentationTool.Doc :=
  {| DocumentationTool.filename := "git-best-practices.md";
     DocumentationTool.content :=
       "# Git Best Practices" ++ JS.nl ++ "Use Feature branches" ++ JS.nl ++
       "Keep commits small";
     DocumentationTool.title := "Git Best Practices";
     DocumentationTool.summary := "Use Feature branches Keep commits small" |}.

Definition pr_doc : DocumentationTool.Doc :=
  {| DocumentationTool.filename := "how-to-make-github-prs.md";
     DocumentationTool.content :=
       "# How to make PRs" ++ JS.nl ++ "Link the issue" ++ JS.nl ++ "Ask for a review";
     DocumentationTool.title := "How to make PRs";
     DocumentationTool.summary := "Link the issue Ask for a review" |}.

Definition cache : DocumentationTool.Cache :=
  [ ("git-best-practices", git_doc); ("how-to-make-github-prs", pr_doc) ].

Definition request (action : string) (document query : option string) :
    DocumentationTool.Args :=
  {| DocumentationTool.action := Some action;
     DocumentationTool.document := document;
     DocumentationTool.query := query |}.

(** A shell on the test world: the command line is noted; a command line
    that mentions [fail] fails. *)
Definition shell : WpCliTool.Shell Mock.World :=
  fun commandLine _ w =>
    (if JS.includes commandLine "fail"
     then {| WpCliTool.err := Some ("Command failed: " ++ commandLine);
             WpCliTool.stdout := ""; WpCliTool.stderr := "" |}
     else {| WpCliTool.err := None; WpCliTool.stdout := "Success"; WpCliTool.stderr := "" |},
     (w ++ [commandLine])%list).

Definition no_arguments : Dispatch.Arguments :=
  {| Dispatch.command := None; Dispatch.repoName := None; Dispatch.taskBranch := None;
     Dispatch.taskDescription := None; Dispatch.action := None; Dispatch.document := None;
     Dispatch.query := None; Dispatch.title := None; Dispatch.description := None;
     Dispatch.listId := None; Dispatch.boardId := None; Dispatch.labels := None;
     Dispatch.dueDate := None; Dispatch.members := None; Dispatch.cardId := None;
     Dispatch.closed := None; Dispatch.comment := None; Dispatch.branchName := None;
     Dispatch.taskTitle := None; Dispatch.trelloListId := None; Dispatch.prTitle := None;
     Dispatch.prDescription := None; Dispatch.reviewListId := None;
     Dispatch.deleteBranch := None |}.

(** Arguments that hold an action and a card identifier only. *)
Definition card_request (action card : string) : Dispatch.Arguments :=
  {| Dispatch.command := None; Dispatch.repoName := None; Dispatch.taskBranch := None;
     Dispatch.taskDescription := None; Dispatch.action := Some action;
     Dispatch.document := None;
     Dispatch.query := None; Dispatch.title := None; Dispatch.description := None;
     Dispatch.listId := None; Dispatch.boardId := None; Dispatch.labels := None;
     Dispatch.dueDate := None; Dispatch.members := None; Dispatch.cardId := Some card;
     Dispatch.closed := None; Dispatch.comment := None; Dispatch.branchName := None;
     Dispatch.taskTitle := None; Dispatch.trelloListId := None; Dispatch.prTitle := None;
     Dispatch.prDescription := None; Dispatch.reviewListId := None;
     Dispatch.deleteBranch := None |}.

Definition cannot_destructure (name : string) : string :=
  "Cannot destructure the arguments of " ++ name ++ " as they are undefined.".

(** An environment with a variable that does not parse and a config file
    that does. *)
Definition env : Config.Env :=
  {| Config.GITHUB_REPOS := Some "[oops";
     Config.existsSync := true;
     Config.readFileSync := Normal "{ repositories }";
     Config.parse_repositories := fun _ => Throw "Unexpected token o in JSON";
     Config.parse_config := fun _ => Normal Mock.repositories |}.

(** A docs directory with one file that cannot be read. *)
Definition docs_dir : DocumentLoader.Files :=
  {| DocumentLoader.existsSync := true;
     DocumentLoader.readdirSync := Normal ["git.md"; "notes.txt"; "broken.md"; "pr.md"];
     DocumentLoader.readFileSync := fun file =>
       if file =? "broken.md" then Throw "EACCES: permission denied"
       else Normal ("# " ++ file ++ JS.nl ++ "**First line" ++ JS.nl ++ "> quoted" ++ JS.nl ++
                    "Second line");
     DocumentLoader.title_match := fun _ => None |}.

End DocFixtures.

(** * Properties *)

(** ** The branch-name validator *)

Section Validator.

Import GithubTool.
Import Policy.

Lemma prefix_append (p r : string) : String.prefix p (p ++ r) = true.
Proof.
  induction p as [|a p IH]; simpl.
  - destruct r; reflexivity.
  - destruct (ascii_dec a a) as [_|Hne]; [exact IH | now elim Hne].
Qed.

Lemma allowed_prefix_found (s : string) :
  Policy.allowed_prefix s -> hasValidPrefix s = true.
Proof.
  intros (pre & rest & Hin & ->).
  unfold hasValidPrefix. apply existsb_exists.
  exists pre. split; [exact Hin|]. apply prefix_append.
Qed.

Lemma allowed_prefix_nonempty (s : string) :
  Policy.allowed_prefix s -> (s =? "") = false.
Proof.
  intros (pre & rest & Hin & ->).
  unfold prefixes in Hin. simpl in Hin.
  repeat (destruct Hin as [<-|Hin]; [reflexivity|]).
  contradiction.
Qed.

(** Under the [i] flag the class is the one the specification writes. *)
Lemma in_class_i_allowed (c : ascii) : in_class_i c = Policy.allowed_char c.
Proof. destruct c as [[] [] [] [] [] [] [] []]; reflexivity. Qed.

(** A member of the written class matches itself under the [i] flag. *)
Lemma in_class_matches (m : ascii) : in_class m = true -> in_class_i m = true.
Proof. destruct m as [[] [] [] [] [] [] [] []]; simpl; intros H; (reflexivity || discriminate H). Qed.

(** What matches under the [i] flag has the canonical form of a member. *)
Lemma in_class_i_member (c : ascii) :
  in_class_i c = true ->
  exists m, in_class m = true /\ JS.canonicalize m = JS.canonicalize c.
Proof.
  intros H.
  exists (if JS.between 65 90 c then ascii_of_nat (nat_of_ascii c + 32) else c).
  revert H.
  destruct c as [[] [] [] [] [] [] [] []]; simpl; intros H;
    (discriminate H || (split; reflexivity)).
Qed.

Lemma all_chars_ext (p q : ascii -> bool) (s : string) :
  (forall c, p c = q c) -> JS.all_chars p s = JS.all_chars q s.
Proof.
  intros Hpq. induction s as [|a s IH]; simpl; [reflexivity|].
  now rewrite Hpq, IH.
Qed.

Lemma allowedChars_test_policy (s : string) :
  allowedChars_test s = negb (s =? "") && JS.all_chars Policy.allowed_char s.
Proof.
  unfold allowedChars_test. f_equal. apply all_chars_ext, in_class_i_allowed.
Qed.

(** C6. A candidate that starts with a prefix of the whitelist, is at most
    50 long and is made of characters of [[A-Za-z0-9/_-]] only is valid,
    and the verdict carries the compliance confirmation text. *)
Theorem validateBranchName_accepts (s : string) :
  Policy.allowed_prefix s ->
  String.length s <= 50 ->
  JS.all_chars Policy.allowed_char s = true ->
  validateBranchName s =
    {| isValid := true; error := None; rules := None;
       complianceMessage := Some "✅ Branch name follows company Git best practices" |}.
Proof.
  intros Hpre Hlen Hchars.
  unfold validateBranchName.
  rewrite (allowed_prefix_found s Hpre). simpl negb. cbv iota.
  replace (maxLength <? String.length s)%nat with false
    by (symmetry; apply Nat.ltb_ge; exact Hlen).
  rewrite allowedChars_test_policy, (allowed_prefix_nonempty s Hpre), Hchars.
  reflexivity.
Qed.

Lemma validateBranchName_accepts_witness :
  isValid (validateBranchName "feature/login-fix") = true /\
  complianceMessage (validateBranchName "feature/login-fix") =
    Some "✅ Branch name follows company Git best practices".
Proof.
  rewrite (validateBranchName_accepts "feature/login-fix").
  - split; reflexivity.
  - exists "feature/", "login-fix". split; [simpl; auto | reflexivity].
  - simpl. lia.
  - reflexivity.
Defined.

(** C7. The rules are tried in the order prefix, length, character set
    and the first one that fails gives the verdict: without an allowed
    prefix the verdict is the prefix one whatever the length and the
    characters, and its explanation lists the whitelist; with an allowed
    prefix and more than 50 code units it is the length one whatever the
    characters; otherwise a character outside the class gives the
    character-set one.  The three examples of the specification follow. *)
Theorem validateBranchName_rule_order :
  (forall s, hasValidPrefix s = false ->
     isValid (validateBranchName s) = false /\
     error (validateBranchName s) = Some prefix_explanation) /\
  (forall s, hasValidPrefix s = true -> 50 < String.length s ->
     isValid (validateBranchName s) = false /\
     error (validateBranchName s) =
       Some ("Branch name too long (" ++ JS.show_nat (String.length s) ++ "/50 chars)")) /\
  (forall s, hasValidPrefix s = true -> String.length s <= 50 ->
     allowedChars_test s = false ->
     isValid (validateBranchName s) = false /\
     error (validateBranchName s) = Some "Branch name contains invalid characters") /\
  forallb (JS.includes prefix_explanation) prefixes = true /\
  error (validateBranchName "xyz-thing") = Some prefix_explanation /\
  error (validateBranchName ("feature/" ++ sixty_a)) =
    Some "Branch name too long (68/50 chars)" /\
  error (validateBranchName "feature/bad char") =
    Some "Branch name contains invalid characters".
Proof.
  split; [|split; [|split]].
  - intros s Hp. unfold validateBranchName. rewrite Hp. split; reflexivity.
  - intros s Hp Hlen. unfold validateBranchName. rewrite Hp. simpl negb. cbv iota.
    replace (maxLength <? String.length s)%nat with true
      by (symmetry; apply Nat.ltb_lt; exact Hlen).
    split; reflexivity.
  - intros s Hp Hlen Hc. unfold validateBranchName. rewrite Hp. simpl negb. cbv iota.
    replace (maxLength <? String.length s)%nat with false
      by (symmetry; apply Nat.ltb_ge; exact Hlen).
    rewrite Hc. split; reflexivity.
  - repeat split; vm_compute; reflexivity.
Qed.

(** A name that breaks all three rules gets the prefix verdict, and one
    that breaks the last two gets the length verdict. *)
Lemma validateBranchName_rule_order_witness :
  error (validateBranchName ("no prefix " ++ sixty_a)) = Some prefix_explanation /\
  error (validateBranchName ("fix/ " ++ sixty_a)) =
    Some "Branch name too long (65/50 chars)".
Proof.
  destruct validateBranchName_rule_order as (Hprefix & Hlength & _).
  split.
  - apply Hprefix. reflexivity.
  - apply (Hlength ("fix/ " ++ sixty_a)); [reflexivity | simpl; lia].
Defined.

End Validator.

(** ** The effect monad *)

Section Effects.

Context {S A : Type}.

Lemma try_catch_cases (c : Eff S A) (h : string -> Eff S A) (s : S) :
  match c s with
  | (Normal a, s') => try_catch c h s = (Normal a, s')
  | (Throw m, s') => try_catch c h s = h m s'
  end.
Proof. unfold try_catch. destruct (c s) as [[a|m] s']; reflexivity. Qed.

(** A [try] whose handler returns cannot throw. *)
Lemma try_catch_returns (c : Eff S A) (h : string -> Eff S A) (s : S) :
  (forall m s1, exists a s2, h m s1 = (Normal a, s2)) ->
  exists a s', try_catch c h s = (Normal a, s').
Proof.
  intros Hh. unfold try_catch.
  destruct (c s) as [[a|m] s']; [now exists a, s' | apply Hh].
Qed.

End Effects.

(** ** The version-control tool *)

Section Github.

Import GithubTool.

Context {R : Type}.
Variable octokit : Octokit R.
Variable runtime : Runtime R.
Variable this_repos : option (list RepoConfig).

Lemma run_catches (a : Args) (w : R) :
  match run_body octokit runtime this_repos a w with
  | (Normal r, w') => run octokit runtime this_repos a w = (Normal r, w')
  | (Throw m, w') => run octokit runtime this_repos a w = (Normal (caught m), w')
  end.
Proof. exact (try_catch_cases (run_body octokit runtime this_repos a) _ w). Qed.

Lemma run_returns (a : Args) (w : R) :
  exists r w', run octokit runtime this_repos a w = (Normal r, w').
Proof.
  apply try_catch_returns. intros m s1. now exists (caught m), s1.
Qed.

Lemma known_action_false (act : string) :
  known_action act = false ->
  (act =? "list_repos") = false /\ (act =? "list_branches") = false /\
  (act =? "create_branch") = false /\ (act =? "create_pr") = false /\
  (act =? "list_prs") = false /\ (act =? "get_file") = false /\
  (act =? "update_file") = false.
Proof.
  unfold known_action, actions. simpl. intros H.
  repeat (apply orb_false_elim in H; destruct H as [? H]).
  repeat split; assumption.
Qed.

(** The text of a rejected branch name. *)
Lemma createBranch_rejected (owner repository : option string) (branch base : string)
    (d : option string) (w : R) :
  isValid (validateBranchName branch) = false ->
  createBranch octokit owner repository branch base d w = (Normal (rejection branch), w).
Proof. intros H. unfold createBranch. rewrite H. reflexivity. Qed.

(** C9, for argument objects. Called with an argument object, whatever
    fields it has, [run] never throws: it returns a value in every remote state, and
    a failure is a value with [isError = true].  This holds for whatever
    the [try] block throws, and in particular for an unknown repository,
    for an unknown action, for a branch name the policy rejects (nothing
    is sent to the remote service then) and for a remote call that fails
    while a branch or a pull request is created.  Called with [undefined]
    in place of the object, [run] throws the [TypeError] of the
    destructuring of its parameter, which happens before the [try]. *)
Theorem GithubTool_run_never_throws (type_error : string) (a : Args) (w : R) :
  (exists r w', call octokit runtime this_repos type_error (Some a) w = (Normal r, w')) /\
  (forall m w', run_body octokit runtime this_repos a w = (Throw m, w') ->
     call octokit runtime this_repos type_error (Some a) w = (Normal (caught m), w')) /\
  (forall rs, this_repos = Some rs -> find_repo rs (repoName a) = None ->
     exists t, call octokit runtime this_repos type_error (Some a) w =
               (Normal {| text := t; isError := true |}, w)) /\
  (forall rs target act, this_repos = Some rs ->
     find_repo rs (repoName a) = Some target ->
     action a = Some act -> known_action act = false ->
     exists w', call octokit runtime this_repos type_error (Some a) w =
                (Normal (caught ("Unknown action: " ++ act)), w')) /\
  (forall rs target branch, this_repos = Some rs ->
     find_repo rs (repoName a) = Some target ->
     action a = Some "create_branch" \/ action a = None ->
     taskBranch a = Some branch -> branch <> "" ->
     isValid (validateBranchName branch) = false ->
     exists t, call octokit runtime this_repos type_error (Some a) w =
               (Normal {| text := t; isError := true |}, w)) /\
  (forall rs target branch m w1, this_repos = Some rs ->
     find_repo rs (repoName a) = Some target ->
     action a = Some "create_branch" ->
     taskBranch a = Some branch -> branch <> "" ->
     isValid (validateBranchName branch) = true ->
     git_getRef octokit (nth_error (JS.split "/" (repo target)) 0)
       (nth_error (JS.split "/" (repo target)) 1)
       ("heads/" ++ defaultBranch target) w = (Throw m, w1) ->
     call octokit runtime this_repos type_error (Some a) w = (Normal (caught m), w1)) /\
  (forall rs target branch m w1, this_repos = Some rs ->
     find_repo rs (repoName a) = Some target ->
     action a = Some "create_pr" ->
     taskBranch a = Some branch -> branch <> "" ->
     pulls_create octokit (nth_error (JS.split "/" (repo target)) 0)
       (nth_error (JS.split "/" (repo target)) 1)
       (taskDescription a) branch (defaultBranch target)
       (generatePRBody (taskDescription a) branch (defaultBranch target)) w = (Throw m, w1) ->
     call octokit runtime this_repos type_error (Some a) w = (Normal (caught m), w1)) /\
  call octokit runtime this_repos type_error None w = (Throw type_error, w).
Proof.
  cbn [call].
  split; [apply run_returns|].
  split.
  { intros m w' Hb. pose proof (run_catches a w) as Hc. now rewrite Hb in Hc. }
  destruct a as [rn tb td act0]; simpl.
  split.
  { intros rs -> Hfind. eexists.
    unfold run, try_catch, run_body, bind, ret, throw. simpl. rewrite Hfind.
    reflexivity. }
  split.
  { intros rs target act -> Hfind -> Hk.
    apply known_action_false in Hk.
    destruct Hk as (H1 & H2 & H3 & H4 & H5 & H6 & H7).
    unfold run, try_catch, run_body, bind, ret, throw, clock. simpl. rewrite Hfind.
    destruct (JS.truthy tb).
    - rewrite H1, H2, H3, H4, H5, H6, H7. now eexists.
    - destruct (Date_now runtime w) as [now w1].
      rewrite H1, H2, H3, H4, H5, H6, H7. now eexists. }
  split.
  { intros rs target branch -> Hfind Hact -> Hne Hbad.
    apply String.eqb_neq in Hne.
    eexists.
    unfold run, try_catch, run_body, bind, ret, throw. simpl. rewrite Hfind, Hne. simpl.
    destruct Hact as [-> | ->]; simpl;
      rewrite (createBranch_rejected _ _ _ _ _ _ Hbad); reflexivity. }
  split.
  { intros rs target branch m w1 -> Hfind -> -> Hne Hok Hget.
    apply String.eqb_neq in Hne.
    unfold run, try_catch, run_body, bind, ret, throw. simpl. rewrite Hfind, Hne. simpl.
    unfold createBranch, bind. rewrite Hok. simpl. rewrite Hget. reflexivity. }
  split.
  { intros rs target branch m w1 -> Hfind -> -> Hne Hpull.
    apply String.eqb_neq in Hne.
    unfold run, try_catch, run_body, bind, ret, throw. simpl. rewrite Hfind, Hne. simpl.
    unfold createPullRequest, bind. rewrite Hpull. reflexivity. }
  reflexivity.
Qed.

End Github.

Lemma GithubTool_run_never_throws_witness :
  GithubTool.call (Mock.octokit false) Mock.runtime Mock.repositories Mock.type_error
    (Some (Workflow.create_branch_args (Mock.task "feature/login-fix"))) [] =
    (Normal (GithubTool.caught "Bad credentials"), ["getRef heads/main"]) /\
  (exists t, GithubTool.call (Mock.octokit true) Mock.runtime Mock.repositories Mock.type_error
    (Some (Workflow.create_branch_args (Mock.task "xyz-thing"))) [] =
    (Normal {| text := t; isError := true |}, [])).
Proof.
  split.
  - destruct (GithubTool_run_never_throws (Mock.octokit false) Mock.runtime Mock.repositories
                Mock.type_error
                (Workflow.create_branch_args (Mock.task "feature/login-fix")) [])
      as (_ & _ & _ & _ & _ & Hget & _).
    eapply Hget; try reflexivity. discriminate.
  - destruct (GithubTool_run_never_throws (Mock.octokit true) Mock.runtime Mock.repositories
                Mock.type_error
                (Workflow.create_branch_args (Mock.task "xyz-thing")) [])
      as (_ & _ & _ & _ & Hpolicy & _).
    eapply Hpolicy; try reflexivity; [now left | discriminate].
Defined.

(** C9 does not hold for every input: [run] called without an argument
    object throws, so not every call returns. *)
Lemma GithubTool_run_throws_on_undefined :
  GithubTool.call (Mock.octokit true) Mock.runtime Mock.repositories Mock.type_error
    None [] = (Throw Mock.type_error, []) /\
  ~ (forall args : option GithubTool.Args,
       exists r w',
         GithubTool.call (Mock.octokit true) Mock.runtime Mock.repositories Mock.type_error
           args [] = (Normal r, w')).
Proof.
  split; [reflexivity|].
  intros H. destruct (H None) as (r & w' & Hcall). discriminate Hcall.
Qed.

(** ** The workflows *)

Section Workflows.

Import Workflow.
Import Trace.

Context {R : Type}.
Variable g : GithubTool.Args -> Eff R ToolResult.
Variable t : TrelloTool.Args -> Eff R ToolResult.

(** Case analysis on the completion of every tool call of the goal. *)
Ltac run_calls :=
  repeat match goal with
         | |- context [g ?a ?w] => destruct (g a w) as [[?|?] ?]; simpl
         | |- context [t ?a ?w] => destruct (t a w) as [[?|?] ?]; simpl
         end.

(** Each method runs its step list. *)
Lemma run_as_steps (k : WorkflowKind) (p : Params) (s : Run R) :
  run g t k p s = run_steps g t k p s.
Proof.
  destruct k; unfold run, run_steps, createTaskWithCard, createPRAndUpdateCard, completeTask,
    steps, new_results, succeed, failed, try_catch, bind, modify, gets, ret, push; simpl.
  - unfold bind, invoke, push, modify, ret; simpl. run_calls; reflexivity.
  - destruct (JS.truthy (cardId p) && JS.truthy (reviewListId p));
      unfold exec, bind, invoke, push, modify, ret; simpl; run_calls; reflexivity.
  - unfold bind, invoke, push, modify, ret; simpl. run_calls; reflexivity.
Qed.

Local Open Scope list_scope.

Lemma invoke_cases (c : Call) (s : Run R) :
  invoke g t c s =
    (fst (tool_run g t c (remote s)),
     {| remote := snd (tool_run g t c (remote s));
        calls := calls s ++ [c]; ledger := ledger s |}).
Proof. unfold invoke. now destruct (tool_run g t c (remote s)). Qed.

(** One step: a throw stops the list, a return records the entry. *)
Lemma exec_cons (st : Step) (rest : list Step) (s : Run R) :
  exec g t (st :: rest) s =
    match tool_run g t (call st) (remote s) with
    | (Normal r, w) =>
        exec g t rest
          {| remote := w; calls := calls s ++ [call st];
             ledger := ledger s ++ [ {| type := tag_type st; action := tag_action st;
                                        result := r |} ] |}
    | (Throw m, w) =>
        (Throw m, {| remote := w; calls := calls s ++ [call st]; ledger := ledger s |})
    end.
Proof.
  cbn [exec]. unfold bind at 1. rewrite invoke_cases.
  destruct (tool_run g t (call st) (remote s)) as [[r|m] w]; reflexivity.
Qed.

(** What a step list does: either every call returns, or a first call
    throws after all the earlier ones returned, and nothing follows it. *)
Lemma exec_trace (todo : list Step) : forall s : Run R,
  match exec g t todo s with
  | (Normal _, s') =>
      all_return g t (map call todo) (remote s) /\
      calls s' = calls s ++ map call todo /\
      remote s' = replay g t (map call todo) (remote s) /\
      map entry_tags (ledger s') = map entry_tags (ledger s) ++ map step_tags todo
  | (Throw m, s') =>
      exists n st,
        nth_error todo n = Some st /\
        all_return g t (map call (firstn n todo)) (remote s) /\
        throws_after g t (map call (firstn n todo)) (call st) m (remote s) /\
        calls s' = calls s ++ map call (firstn (S n) todo) /\
        remote s' = replay g t (map call (firstn (S n) todo)) (remote s) /\
        map entry_tags (ledger s') =
          map entry_tags (ledger s) ++ map step_tags (firstn n todo)
  end.
Proof.
  induction todo as [|st rest IH]; intros s.
  - simpl. rewrite !app_nil_r. auto.
  - cbn [exec]. unfold bind at 1. rewrite invoke_cases.
    destruct (tool_run g t (call st) (remote s)) as [[r|m] w1] eqn:Hcall; cbn [fst snd].
    + unfold bind at 1, push at 1, modify at 1.
      match goal with |- context [exec g t rest ?s2] => specialize (IH s2) end.
      destruct (exec g t rest _) as [[u|m] s'].
      * cbn [remote calls ledger] in IH. destruct IH as (Hall & Hcalls & Hrem & Hled).
        cbn [map all_return replay]. rewrite Hcall. cbn [fst snd].
        repeat split.
        -- now exists r.
        -- exact Hall.
        -- now rewrite Hcalls, <- app_assoc.
        -- exact Hrem.
        -- now rewrite Hled, map_app, <- app_assoc.
      * cbn [remote calls ledger] in IH.
        destruct IH as (n & st' & Hnth & Hall & Hthrow & Hcalls & Hrem & Hled).
        exists (S n), st'.
        cbn [nth_error firstn map all_return replay]. unfold throws_after in *.
        cbn [replay]. rewrite Hcall. cbn [fst snd].
        repeat split; try assumption.
        -- now exists r.
        -- now rewrite Hcalls, <- app_assoc.
        -- now rewrite Hled, map_app, <- app_assoc.
    + exists 0, st. cbn [nth_error firstn map all_return replay]. unfold throws_after.
      cbn [replay]. rewrite Hcall. cbn [fst snd remote calls ledger].
      rewrite app_nil_r. repeat split.
Qed.

Lemma run_steps_from_start (k : WorkflowKind) (p : Params) (w : R) :
  run_steps g t k p (start w) =
    match exec g t (steps k p) (start w) with
    | (Normal _, s') =>
        (Normal {| success := true; message := success_message k; results := ledger s' |}, s')
    | (Throw m, s') =>
        (Normal {| success := false; message := (failure_prefix k ++ m)%string;
                   results := ledger s' |}, s')
    end.
Proof.
  unfold run_steps, new_results, try_catch, succeed, failed, bind, modify, gets, ret, start.
  cbn [remote calls ledger].
  destruct (exec g t (steps k p) _) as [[u|m] s']; reflexivity.
Qed.

(** C3. The first call that throws ends the run: every earlier step
    returned and has its ledger entry, the throwing call is the last call
    made (no later step, no compensating call), the remote state is the
    one that call left, and the outcome is a failure carrying the thrown
    message.  For the task-creation workflow: when the branch step
    returns and the card step throws, the outcome is a failure whose
    ledger is the single entry github/branch_created, and the remote state
    is the one reached after the branch step and the failed card request. *)
Theorem first_throw_aborts :
  (forall (k : WorkflowKind) (p : Params) (w : R),
     exists o s',
       run g t k p (start w) = (Normal o, s') /\
       remote s' = replay g t (calls s') w /\
       ((success o = true /\
         all_return g t (map call (steps k p)) w /\
         calls s' = map call (steps k p) /\
         map entry_tags (results o) = map step_tags (steps k p))
        \/
        (success o = false /\
         exists n st m,
           nth_error (steps k p) n = Some st /\
           all_return g t (map call (firstn n (steps k p))) w /\
           throws_after g t (map call (firstn n (steps k p))) (call st) m w /\
           calls s' = map call (firstn (S n) (steps k p)) /\
           map entry_tags (results o) = map step_tags (firstn n (steps k p)) /\
           message o = (failure_prefix k ++ m)%string))) /\
  (forall (p : Params) (w w1 w2 : R) (branchResult : ToolResult) (m : string),
     g (create_branch_args p) w = (Normal branchResult, w1) ->
     t (create_card_args p) w1 = (Throw m, w2) ->
     createTaskWithCard g t p (start w) =
       (Normal {| success := false;
                  message := ("Workflow failed: " ++ m)%string;
                  results := [ {| type := "github"; action := "branch_created";
                                  result := branchResult |} ] |},
        {| remote := w2;
           calls := [GithubRun (create_branch_args p); TrelloRun (create_card_args p)];
           ledger := [ {| type := "github"; action := "branch_created";
                          result := branchResult |} ] |})).
Proof.
  split.
  - intros k p w. rewrite run_as_steps, run_steps_from_start.
    pose proof (exec_trace (steps k p) (start w)) as H.
    destruct (exec g t (steps k p) (start w)) as [[u|m] s']; cbn [start remote calls ledger] in H.
    + destruct H as (Hall & Hcalls & Hrem & Hled). simpl in Hcalls, Hled.
      do 2 eexists. split; [reflexivity|]. split; [now rewrite Hcalls|].
      left. cbn [success results]. auto.
    + destruct H as (n & st & Hnth & Hall & Hthrow & Hcalls & Hrem & Hled).
      simpl in Hcalls, Hled.
      do 2 eexists. split; [reflexivity|]. split; [now rewrite Hcalls|].
      right. cbn [success results message]. split; [reflexivity|].
      exists n, st, m. auto 10.
  - intros p w w1 w2 branchResult m Hg Ht.
    unfold createTaskWithCard, new_results, try_catch, failed, bind, modify, gets, ret,
      push, invoke, start. simpl. rewrite Hg. simpl. rewrite Ht. reflexivity.
Qed.

(** C4. A workflow method never throws: from every state, for every
    parameter object and whatever the two tools do, it returns an
    outcome.  The outcome lists the ledger as it stands; it is either the
    success outcome or [{ success: false, message: prefix + thrown
    message, results }], the latter exactly when the [try] block threw. *)
Theorem workflow_never_throws (k : WorkflowKind) (p : Params) (s : Run R) :
  exists o s',
    run g t k p s = (Normal o, s') /\
    results o = ledger s' /\
    match (new_results ;;; exec g t (steps k p)) s with
    | (Normal _, s1) => s' = s1 /\ success o = true /\ message o = success_message k
    | (Throw m, s1) =>
        s' = s1 /\ success o = false /\ message o = (failure_prefix k ++ m)%string
    end.
Proof.
  rewrite run_as_steps.
  unfold run_steps, new_results, try_catch, succeed, failed, bind, modify, gets, ret.
  destruct (exec g t (steps k p) _) as [[u|m] s']; do 2 eexists; repeat split.
Qed.

(** C10. The completion workflow calls the task-board tool only: first
    [update_card] with [closed = true], then, when that call returned,
    [add_comment]; no call of the version-control tool is made, whatever
    [deleteBranch] is.  The run is the same for every version-control tool
    and for every value of [deleteBranch]. *)
Theorem completeTask_leaves_github_alone (p : Params) (w : R) :
  existsb is_github (calls (snd (completeTask g t p (start w)))) = false /\
  calls (snd (completeTask g t p (start w))) =
    TrelloRun (update_card_args p) ::
    match fst (t (update_card_args p) w) with
    | Normal _ => [TrelloRun (completion_comment_args p)]
    | Throw _ => []
    end /\
  TrelloTool.action (update_card_args p) = Some "update_card"%string /\
  TrelloTool.closed (update_card_args p) = Some true /\
  TrelloTool.action (completion_comment_args p) = Some "add_comment"%string /\
  (forall g' : GithubTool.Args -> Eff R ToolResult,
     completeTask g' t p (start w) = completeTask g t p (start w)) /\
  (forall b : option bool,
     completeTask g t (with_deleteBranch b p) (start w) = completeTask g t p (start w)).
Proof.
  assert (Hcalls :
    calls (snd (completeTask g t p (start w))) =
      TrelloRun (update_card_args p) ::
      match fst (t (update_card_args p) w) with
      | Normal _ => [TrelloRun (completion_comment_args p)]
      | Throw _ => []
      end).
  { unfold completeTask, new_results, try_catch, succeed, failed, bind, modify, gets, ret,
      push, invoke, start. simpl.
    destruct (t (update_card_args p) w) as [[r|m] w1]; simpl;
      [destruct (t (completion_comment_args p) w1) as [[r2|m2] w2]; simpl|];
      reflexivity. }
  split.
  { rewrite Hcalls. simpl. now destruct (fst (t (update_card_args p) w)). }
  split; [exact Hcalls|].
  repeat split; reflexivity.
Qed.

End Workflows.

Lemma first_throw_aborts_witness :
  exists branchResult,
    isError branchResult = false /\
    Workflow.run (Mock.github_run true) (Mock.trello_run false) Workflow.TaskCreation
      (Mock.task "feature/login-fix") (Workflow.start []) =
    (Normal
       {| Workflow.success := false;
          Workflow.message := "Workflow failed: Trello operation failed: invalid token";
          Workflow.results :=
            [ {| Workflow.type := "github"; Workflow.action := "branch_created";
                 Workflow.result := branchResult |} ] |},
     {| Workflow.remote :=
          ["getRef heads/main"; "createRef refs/heads/feature/login-fix"; "card in list1"];
        Workflow.calls :=
          [ Workflow.GithubRun (Workflow.create_branch_args (Mock.task "feature/login-fix"));
            Workflow.TrelloRun (Workflow.create_card_args (Mock.task "feature/login-fix")) ];
        Workflow.ledger :=
          [ {| Workflow.type := "github"; Workflow.action := "branch_created";
               Workflow.result := branchResult |} ] |}).
Proof.
  eexists. split; cycle 1.
  - eapply (proj2 (first_throw_aborts (Mock.github_run true) (Mock.trello_run false))
              (Mock.task "feature/login-fix") []);
      reflexivity.
  - reflexivity.
Defined.

(** ** Determinism of the orchestration *)

Section Determinism.

Import Workflow.
Import Trace.

Context {R1 R2 : Type}.
Variable sim : R1 -> R2 -> Prop.
Variable g1 : GithubTool.Args -> Eff R1 ToolResult.
Variable t1 : TrelloTool.Args -> Eff R1 ToolResult.
Variable g2 : GithubTool.Args -> Eff R2 ToolResult.
Variable t2 : TrelloTool.Args -> Eff R2 ToolResult.

Lemma tool_run_alike (c : Call) (w1 : R1) (w2 : R2) :
  responds_alike sim g1 g2 -> responds_alike sim t1 t2 -> sim w1 w2 ->
  fst (tool_run g1 t1 c w1) = fst (tool_run g2 t2 c w2) /\
  sim (snd (tool_run g1 t1 c w1)) (snd (tool_run g2 t2 c w2)).
Proof.
  intros Hg Ht Hw. destruct c as [a|a]; simpl; [apply Hg | apply Ht]; exact Hw.
Qed.

Lemma exec_alike (todo : list Step) :
  responds_alike sim g1 g2 -> responds_alike sim t1 t2 ->
  forall s1 s2, alike sim s1 s2 ->
    fst (exec g1 t1 todo s1) = fst (exec g2 t2 todo s2) /\
    alike sim (snd (exec g1 t1 todo s1)) (snd (exec g2 t2 todo s2)).
Proof.
  intros Hg Ht.
  induction todo as [|st rest IH]; intros s1 s2 (Hsim & Hcalls & Hledger).
  - simpl. repeat split; assumption.
  - rewrite !exec_cons.
    destruct (tool_run_alike (call st) _ _ Hg Ht Hsim) as (Hres & Hsim').
    rewrite Hcalls, Hledger.
    destruct (tool_run g1 t1 (call st) (remote s1)) as [[r|m] w1];
      destruct (tool_run g2 t2 (call st) (remote s2)) as [[r'|m'] w2];
      simpl in Hres, Hsim'; try discriminate Hres; injection Hres as <-.
    + apply IH. repeat split; assumption.
    + repeat split; assumption.
Qed.

(** C8. The outcome of a workflow is a function of the parameters and of
    what the tools answer: two runs of the same workflow with the same
    parameters, against tools that answer alike from related states,
    return the same outcome, make the same calls and build the same
    ledger. *)
Theorem workflow_deterministic (k : WorkflowKind) (p : Params) (w1 : R1) (w2 : R2) :
  responds_alike sim g1 g2 -> responds_alike sim t1 t2 -> sim w1 w2 ->
  fst (run g1 t1 k p (start w1)) = fst (run g2 t2 k p (start w2)) /\
  alike sim (snd (run g1 t1 k p (start w1))) (snd (run g2 t2 k p (start w2))).
Proof.
  intros Hg Ht Hw.
  rewrite !run_as_steps, !run_steps_from_start.
  assert (Hstart : alike sim (start w1) (start w2)) by (repeat split; exact Hw).
  destruct (exec_alike (steps k p) Hg Ht _ _ Hstart) as (Hres & Halike).
  destruct (exec g1 t1 (steps k p) (start w1)) as [[u|m] s1];
    destruct (exec g2 t2 (steps k p) (start w2)) as [[u'|m'] s2];
    simpl in Hres, Halike; try discriminate Hres; cbn [fst snd].
  - destruct Halike as (? & ? & Hl). rewrite Hl. repeat split; assumption.
  - injection Hres as <-. destruct Halike as (? & ? & Hl). rewrite Hl.
    repeat split; assumption.
Qed.

End Determinism.

Lemma counting_alike {A : Type} (f : A -> Eff Mock.World ToolResult) :
  Trace.responds_alike Mock.same_requests f (Mock.counting f).
Proof.
  intros a w1 [n w2] Hw. unfold Mock.same_requests in *. simpl in Hw. subst w1.
  unfold Mock.counting. simpl. destruct (f a w2) as [r w']. split; reflexivity.
Defined.

Lemma workflow_deterministic_witness :
  fst (Workflow.run (Mock.github_run true) (Mock.trello_run false) Workflow.TaskCreation
         (Mock.task "feature/login-fix") (Workflow.start [])) =
  fst (Workflow.run (Mock.counting (Mock.github_run true)) (Mock.counting (Mock.trello_run false))
         Workflow.TaskCreation (Mock.task "feature/login-fix") (Workflow.start (0, []))).
Proof.
  apply (workflow_deterministic Mock.same_requests
           (Mock.github_run true) (Mock.trello_run false)
           (Mock.counting (Mock.github_run true)) (Mock.counting (Mock.trello_run false))
           Workflow.TaskCreation (Mock.task "feature/login-fix") [] (0, [])).
  - apply counting_alike.
  - apply counting_alike.
  - reflexivity.
Defined.

(** ** The workflows over the two tools of the repository *)

Section Wired.

Import Workflow.
Import Trace.
Import Server.

Context {R : Type}.
Variable octokit : GithubTool.Octokit R.
Variable runtime : GithubTool.Runtime R.
Variable trello : TrelloTool.Client R.
Variable repositories : option (list GithubTool.RepoConfig).
Variable defaultBoard : option string.
Variable defaultList : option string.

Lemma githubTool_run_returns (a : GithubTool.Args) (w : R) :
  exists r w', githubTool_run octokit runtime repositories a w = (Normal r, w').
Proof. apply run_returns. Qed.

(** The dispatcher of the server returns a tool response on every input,
    an unknown action included. *)
Lemma handleWorkflow_returns (action : option string) (p : Params) (s : Run R) :
  exists r s',
    handleWorkflow octokit runtime trello repositories defaultBoard defaultList action p s = (Normal r, s').
Proof.
  apply try_catch_returns. intros m s1. now do 2 eexists.
Qed.

(** C5. In the review workflow over the two tools of the repository, the
    move-card step is attempted exactly when [cardId] and [reviewListId]
    are both supplied (non-empty, as the test [cardId && reviewListId]
    reads them); the add-comment step is attempted exactly when moreover
    the move-card call returned; and when they are not both supplied the
    outcome is a success whose ledger is the single entry
    github/pr_created, the only call made being the pull-request one. *)
Theorem review_transition_gating (p : Params) (w : R) :
  let out := workflowTool octokit runtime trello repositories defaultBoard defaultList ReviewTransition p
               (start w) in
  let w1 := snd (githubTool_run octokit runtime repositories (create_pr_args p) w) in
  attempted "trello" "move_card" (calls (snd out)) =
    JS.truthy (cardId p) && JS.truthy (reviewListId p) /\
  (attempted "trello" "add_comment" (calls (snd out)) = true <->
     JS.truthy (cardId p) && JS.truthy (reviewListId p) = true /\
     exists r w2, trelloTool_run trello defaultBoard defaultList (move_card_args p) w1 = (Normal r, w2)) /\
  (JS.truthy (cardId p) && JS.truthy (reviewListId p) = false ->
     exists prResult,
       githubTool_run octokit runtime repositories (create_pr_args p) w = (Normal prResult, w1) /\
       out =
         (Normal {| success := true;
                    message := "PR workflow completed successfully!";
                    results := [ {| type := "github"; action := "pr_created";
                                    result := prResult |} ] |},
          {| remote := w1;
             calls := [GithubRun (create_pr_args p)];
             ledger := [ {| type := "github"; action := "pr_created";
                            result := prResult |} ] |})).
Proof.
  destruct (githubTool_run_returns (create_pr_args p) w) as (prResult & w1 & Hpr).
  unfold workflowTool, run, createPRAndUpdateCard, new_results, try_catch, succeed, failed,
    bind, modify, gets, ret, push, invoke, start. simpl.
  rewrite Hpr. simpl.
  destruct (JS.truthy (cardId p) && JS.truthy (reviewListId p)); simpl.
  - destruct (trelloTool_run trello defaultBoard defaultList (move_card_args p) w1) as [[r|m] w2]; simpl.
    + destruct (trelloTool_run trello defaultBoard defaultList (pr_comment_args p) w2) as [[r2|m2] w3]; simpl;
        (split; [reflexivity|]); (split; [|discriminate]);
        (split; [intros _; split; [reflexivity | now exists r, w2] | reflexivity]).
    + split; [reflexivity|]. split; [|discriminate].
      split; [discriminate|]. intros (_ & r & w3 & H). discriminate H.
  - split; [reflexivity|]. split.
    + split; [discriminate | intros (H & _); discriminate H].
    + intros _. now exists prResult.
Qed.

(** The value the version-control tool returns for a rejected name. *)
Lemma githubTool_run_rejects (rs : list GithubTool.RepoConfig) (target : GithubTool.RepoConfig)
    (b : string) (p : Params) (w : R) :
  repositories = Some rs ->
  GithubTool.find_repo rs (repoName p) = Some target ->
  branchName p = Some b -> b <> "" ->
  GithubTool.isValid (GithubTool.validateBranchName b) = false ->
  githubTool_run octokit runtime repositories (create_branch_args p) w =
    (Normal (GithubTool.rejection b), w).
Proof.
  intros -> Hfind Hb Hne Hbad.
  apply String.eqb_neq in Hne.
  unfold githubTool_run, GithubTool.run, GithubTool.run_body, try_catch, bind, ret, throw.
  simpl. rewrite Hfind, Hb. simpl. rewrite Hne. simpl.
  now rewrite (createBranch_rejected _ _ _ _ _ _ _ Hbad).
Qed.

(** C1 (what the code does on a rejected branch name).  For a configured
    repository and a branch name the policy rejects, whatever the remote
    services do: the version-control tool returns the rejection as a
    value with [isError = true], without touching the remote state; the
    workflow records it under github/branch_created and goes on to call
    [create_card]; when that call returns, the outcome is a success with
    two entries, and when it throws, a failure with one entry. *)
Theorem rejected_branch_still_creates_card (rs : list GithubTool.RepoConfig)
    (target : GithubTool.RepoConfig) (b : string) (p : Params) (w : R) :
  repositories = Some rs ->
  GithubTool.find_repo rs (repoName p) = Some target ->
  branchName p = Some b -> b <> "" ->
  GithubTool.isValid (GithubTool.validateBranchName b) = false ->
  let out := workflowTool octokit runtime trello repositories defaultBoard defaultList
               TaskCreation p (start w) in
  isError (GithubTool.rejection b) = true /\
  calls (snd out) = [GithubRun (create_branch_args p); TrelloRun (create_card_args p)] /\
  attempted "trello" "create_card" (calls (snd out)) = true /\
  match trelloTool_run trello defaultBoard defaultList (create_card_args p) w with
  | (Normal cardResult, _) =>
      fst out =
        Normal {| success := true;
                  message := "Task workflow completed successfully!";
                  results := [ {| type := "github"; action := "branch_created";
                                  result := GithubTool.rejection b |};
                               {| type := "trello"; action := "card_created";
                                  result := cardResult |} ] |}
  | (Throw m, _) =>
      fst out =
        Normal {| success := false;
                  message := "Workflow failed: " ++ m;
                  results := [ {| type := "github"; action := "branch_created";
                                  result := GithubTool.rejection b |} ] |}
  end.
Proof.
  intros Hrs Hfind Hb Hne Hbad out. subst out.
  pose proof (githubTool_run_rejects rs target b p w Hrs Hfind Hb Hne Hbad) as Hg.
  unfold workflowTool, run, createTaskWithCard, new_results, try_catch, succeed, failed,
    bind, modify, gets, ret, push, invoke, start. simpl.
  rewrite Hg. simpl.
  destruct (trelloTool_run trello defaultBoard defaultList (create_card_args p) w)
    as [[cardResult|m] w2]; simpl; repeat split.
Qed.

(** C2 (what the code does when the pull-request step fails).  For a
    repository that is not configured, whatever the remote services do:
    the version-control tool returns the error as a value with
    [isError = true], and the review workflow records it under
    github/pr_created; with no card to move, the outcome is a success
    whose ledger is that entry. *)
Theorem failed_pr_step_is_recorded (rs : list GithubTool.RepoConfig) (p : Params) (w : R) :
  repositories = Some rs ->
  GithubTool.find_repo rs (repoName p) = None ->
  JS.truthy (cardId p) && JS.truthy (reviewListId p) = false ->
  let failure :=
    GithubTool.caught ("Repository '" ++ JS.show (repoName p) ++ "' not found. Available repos: " ++
                       JS.join ", " (map (fun r => GithubTool.join_item (GithubTool.name r)) rs)) in
  isError failure = true /\
  workflowTool octokit runtime trello repositories defaultBoard defaultList
    ReviewTransition p (start w) =
  (Normal
     {| success := true;
        message := "PR workflow completed successfully!";
        results := [ {| type := "github"; action := "pr_created"; result := failure |} ] |},
   {| remote := w;
      calls := [GithubRun (create_pr_args p)];
      ledger := [ {| type := "github"; action := "pr_created"; result := failure |} ] |}).
Proof.
  intros -> Hfind Hcard failure. split; [reflexivity|].
  unfold workflowTool, run, createPRAndUpdateCard, new_results, try_catch, succeed, failed,
    bind, modify, gets, ret, push, invoke, start. simpl.
  unfold githubTool_run, GithubTool.run, GithubTool.run_body, try_catch, bind, ret, throw.
  simpl. rewrite Hfind. simpl. rewrite Hcard. reflexivity.
Qed.

End Wired.

Lemma review_transition_gating_witness :
  exists prResult,
    fst (Server.workflowTool (Mock.octokit true) Mock.runtime (Mock.trello true)
           Mock.repositories None None Workflow.ReviewTransition
           (Mock.task "feature/login-fix") (Workflow.start [])) =
    Normal {| Workflow.success := true;
              Workflow.message := "PR workflow completed successfully!";
              Workflow.results :=
                [ {| Workflow.type := "github"; Workflow.action := "pr_created";
                     Workflow.result := prResult |} ] |}.
Proof.
  destruct (review_transition_gating (Mock.octokit true) Mock.runtime (Mock.trello true)
              Mock.repositories None None (Mock.task "feature/login-fix") [])
    as (_ & _ & Hnone).
  destruct (Hnone eq_refl) as (prResult & _ & Hout).
  exists prResult. exact (f_equal fst Hout).
Defined.

Lemma rejected_branch_still_creates_card_witness :
  exists cardResult,
    fst (Server.workflowTool (Mock.octokit true) Mock.runtime (Mock.trello true)
           Mock.repositories None None Workflow.TaskCreation
           (Mock.task "xyz-thing") (Workflow.start [])) =
    Normal {| Workflow.success := true;
              Workflow.message := "Task workflow completed successfully!";
              Workflow.results :=
                [ {| Workflow.type := "github"; Workflow.action := "branch_created";
                     Workflow.result := GithubTool.rejection "xyz-thing" |};
                  {| Workflow.type := "trello"; Workflow.action := "card_created";
                     Workflow.result := cardResult |} ] |}.
Proof.
  eexists.
  refine (proj2 (proj2 (proj2
    (rejected_branch_still_creates_card (Mock.octokit true) Mock.runtime (Mock.trello true)
       Mock.repositories None None _ _ "xyz-thing" (Mock.task "xyz-thing") []
       eq_refl eq_refl eq_refl _ eq_refl)))).
  discriminate.
Defined.

Lemma failed_pr_step_is_recorded_witness :
  fst (Server.workflowTool (Mock.octokit true) Mock.runtime (Mock.trello true)
         Mock.repositories None None Workflow.ReviewTransition
         Mock.review_of_unknown_repo (Workflow.start [])) =
  Normal {| Workflow.success := true;
            Workflow.message := "PR workflow completed successfully!";
            Workflow.results :=
              [ {| Workflow.type := "github"; Workflow.action := "pr_created";
                   Workflow.result :=
                     {| text := "❌ Error: Repository 'missing' not found. Available repos: example-repo";
                        isError := true |} |} ] |}.
Proof.
  exact (f_equal fst
           (proj2 (failed_pr_step_is_recorded (Mock.octokit true) Mock.runtime (Mock.trello true)
                     Mock.repositories None None _ Mock.review_of_unknown_repo []
                     eq_refl eq_refl eq_refl))).
Defined.

(** * Further properties of the tools *)

(** ** Branch names *)

Section Names.

Import GithubTool.

Lemma prefix_split (p s : string) :
  String.prefix p s = true -> exists rest, s = p ++ rest.
Proof.
  revert s. induction p as [|a p IH]; intros s H.
  - now exists s.
  - destruct s as [|b s]; simpl in H; [discriminate|].
    destruct (ascii_dec a b) as [<-|]; [|discriminate].
    destruct (IH s H) as (rest & ->). now exists rest.
Qed.

Lemma found_prefix_allowed (s : string) :
  hasValidPrefix s = true -> Policy.allowed_prefix s.
Proof.
  unfold hasValidPrefix. intros H. apply existsb_exists in H.
  destruct H as (pre & Hin & Hpre).
  destruct (prefix_split pre s Hpre) as (rest & ->).
  now exists pre, rest.
Qed.

(** X1. A name that [validateBranchName] accepts starts with a prefix of
    the whitelist, has at most 50 code units and is made of characters of
    [[A-Za-z0-9/_-]] only. *)
Theorem validateBranchName_sound (s : string) :
  isValid (validateBranchName s) = true ->
  Policy.allowed_prefix s /\
  String.length s <= 50 /\
  JS.all_chars Policy.allowed_char s = true.
Proof.
  unfold validateBranchName.
  destruct (hasValidPrefix s) eqn:Hp; simpl; [|discriminate].
  destruct (maxLength <? String.length s)%nat eqn:Hl; simpl; [discriminate|].
  destruct (allowedChars_test s) eqn:Hc; simpl; [|discriminate].
  intros _. split; [now apply found_prefix_allowed|].
  split; [now apply Nat.ltb_ge in Hl|].
  rewrite allowedChars_test_policy in Hc. now apply andb_true_iff in Hc.
Qed.

Lemma validateBranchName_sound_witness :
  Policy.allowed_prefix "fix/Login_2" /\
  String.length "fix/Login_2" <= 50 /\
  JS.all_chars Policy.allowed_char "fix/Login_2" = true.
Proof. apply validateBranchName_sound. reflexivity. Defined.

Lemma generated_name_has_no_prefix (x : string) : hasValidPrefix ("task-" ++ x) = false.
Proof. reflexivity. Qed.

Lemma strict_eq_true (x y : option string) : strict_eq x y = true <-> x = y.
Proof.
  destruct x as [a|], y as [b|]; simpl; try (split; (discriminate || reflexivity)).
  rewrite String.eqb_eq. split; [now intros -> | now intros [= ->]].
Qed.

Lemma append_nil_r (s : string) : s ++ "" = s.
Proof. induction s as [|a s IH]; simpl; [reflexivity | now rewrite IH]. Qed.

Lemma append_assoc (s1 s2 s3 : string) : (s1 ++ s2) ++ s3 = s1 ++ s2 ++ s3.
Proof. induction s1 as [|a s1 IH]; simpl; [reflexivity | now rewrite IH]. Qed.

(** A string without the separator is a single piece. *)
Lemma split_from_piece (acc s : string) :
  Cases.no_slash s -> JS.split_from "/" acc s = [acc ++ s].
Proof.
  unfold Cases.no_slash. revert acc.
  induction s as [|a s IH]; intros acc H; simpl in *.
  - now rewrite append_nil_r.
  - apply andb_true_iff in H. destruct H as (Ha & Hs).
    apply negb_true_iff in Ha. rewrite Ha, (IH _ Hs), append_assoc. reflexivity.
Qed.

(** The first piece ends at the first separator. *)
Lemma split_from_first (acc o rest : string) :
  Cases.no_slash o ->
  JS.split_from "/" acc (o ++ "/" ++ rest) = (acc ++ o) :: JS.split_from "/" "" rest.
Proof.
  unfold Cases.no_slash. revert acc.
  induction o as [|a o IH]; intros acc H; simpl in *.
  - now rewrite append_nil_r.
  - apply andb_true_iff in H. destruct H as (Ha & Ho).
    apply negb_true_iff in Ha. rewrite Ha.
    change (String a o ++ "/" ++ rest) with (String a (o ++ "/" ++ rest)).
    rewrite (IH _ Ho), append_assoc. reflexivity.
Qed.

(** [owner/name] splits into its two segments. *)
Lemma split_owner_name (o n : string) :
  Cases.no_slash o -> Cases.no_slash n -> JS.split "/" (o ++ "/" ++ n) = [o; n].
Proof.
  intros Ho Hn. unfold JS.split.
  now rewrite (split_from_first "" o n Ho), (split_from_piece "" n Hn).
Qed.

End Names.

(** ** The version-control tool, action by action *)

(** The string tests of the [switch] on a literal action compute. *)
Ltac pick_action :=
  repeat match goal with
         | |- context [String.eqb ?x ?y] =>
             let b := eval vm_compute in (String.eqb x y) in
             change (String.eqb x y) with b
         end;
  cbv iota.


Section GithubActions.

Import GithubTool.

Context {R : Type}.
Variable octokit : Octokit R.
Variable runtime : Runtime R.

(** X2. Without a branch name, [create_branch] never creates a branch: the
    generated name [task-<clock>] has no whitelisted prefix, so the tool
    reads the clock, sends nothing to the remote service and returns the
    rejection with [isError = true]. *)
Theorem create_branch_without_name_is_rejected (rs : list RepoConfig) (target : RepoConfig)
    (a : Args) (w : R) :
  find_repo rs (repoName a) = Some target ->
  JS.truthy (taskBranch a) = false ->
  action a = Some "create_branch" \/ action a = None ->
  run octokit runtime (Some rs) a w =
    (Normal (rejection ("task-" ++ JS.show_nat (fst (Date_now runtime w)))),
     snd (Date_now runtime w)) /\
  isError (rejection ("task-" ++ JS.show_nat (fst (Date_now runtime w)))) = true /\
  error (validateBranchName ("task-" ++ JS.show_nat (fst (Date_now runtime w)))) =
    Some Policy.prefix_explanation.
Proof.
  intros Hfind Hname Hact.
  split; [|split; reflexivity].
  destruct a as [rn tb td act]; simpl in *.
  unfold run, try_catch, run_body, bind, ret, throw, clock. simpl.
  rewrite Hfind, Hname. destruct (Date_now runtime w) as [now w']. simpl.
  destruct Hact as [-> | ->]; reflexivity.
Qed.

(** X3. The repository of a call is looked up by its short name or by its
    full [owner/name] path: the lookup fails exactly when no configured
    repository answers to the given name, and then [run] returns the
    not-found error, listing the configured names, without touching the
    remote state; a repository that is found is a configured one that
    answers to the name. *)
Theorem repository_lookup (rs : list RepoConfig) (a : Args) (w : R) :
  (find_repo rs (repoName a) = None <->
   forall r, In r rs -> ~ Cases.answers_to r (repoName a)) /\
  (forall r, find_repo rs (repoName a) = Some r ->
     In r rs /\ Cases.answers_to r (repoName a)) /\
  (find_repo rs (repoName a) = None ->
   run octokit runtime (Some rs) a w =
     (Normal (caught ("Repository '" ++ JS.show (repoName a) ++
                      "' not found. Available repos: " ++
                      JS.join ", " (map (fun r => join_item (name r)) rs))), w)).
Proof.
  assert (Hmatch : forall r,
            strict_eq (name r) (repoName a) || strict_eq (Some (repo r)) (repoName a) = true <->
            Cases.answers_to r (repoName a)).
  { intros r. unfold Cases.answers_to.
    rewrite orb_true_iff, !strict_eq_true. reflexivity. }
  split; [|split].
  - unfold find_repo. split.
    + intros Hnone r Hin Hans.
      pose proof (find_none _ _ Hnone r Hin) as Hf. cbv beta in Hf.
      apply Hmatch in Hans. congruence.
    + intros Hno.
      destruct (find _ rs) as [r|] eqn:Hf; [|reflexivity].
      apply find_some in Hf. destruct Hf as (Hin & Hm).
      apply Hmatch in Hm. now elim (Hno r Hin).
  - intros r Hf. unfold find_repo in Hf. apply find_some in Hf.
    destruct Hf as (Hin & Hm). split; [exact Hin | now apply Hmatch].
  - intros Hnone. unfold run, try_catch, run_body, bind, ret, throw. simpl.
    now rewrite Hnone.
Qed.

(** [run] on a known repository: the [switch], tried from the state in
    which the branch name is evaluated. *)
Lemma run_on (rs : list RepoConfig) (target : RepoConfig) (a : Args) (w : R) :
  find_repo rs (repoName a) = Some target ->
  run octokit runtime (Some rs) a w =
    try_catch
      (let owner := nth_error (JS.split "/" (repo target)) 0 in
       let repository := nth_error (JS.split "/" (repo target)) 1 in
       let act := match action a with Some x => x | None => "create_branch" end in
       let branchName := Cases.branch_of runtime a w in
       if act =? "list_repos" then ret (listRepositoriesFormatted rs)
       else if act =? "list_branches" then listBranches octokit owner repository
       else if act =? "create_branch" then
         createBranch octokit owner repository branchName (defaultBranch target)
           (taskDescription a)
       else if act =? "create_pr" then
         createPullRequest octokit owner repository branchName (defaultBranch target)
           (taskDescription a)
       else if act =? "list_prs" then listPullRequests octokit owner repository
       else if act =? "get_file" then
         getFileContent octokit runtime owner repository (taskDescription a)
           (Some (defaultBranch target))
       else if act =? "update_file" then
         updateFile octokit runtime owner repository (taskDescription a) branchName
       else throw ("Unknown action: " ++ act))
      (fun message => ret (caught message)) (Cases.state_of runtime a w).
Proof.
  intros Hfind.
  unfold run, try_catch, run_body, bind, ret, clock, Cases.branch_of, Cases.state_of.
  cbv zeta. rewrite Hfind.
  destruct (JS.truthy (taskBranch a)); [reflexivity|].
  now destruct (Date_now runtime w).
Qed.

(** X4. [get_file] reports every failure inside its [try] as "file not
    found".  Whether the remote read throws, or the read returns an
    answer whose content cannot be decoded (an answer without a string
    content, as for a directory), the response is the same
    [isError = true] text naming the path, the repository and the default
    branch, and the cause is dropped.  Only when the read returns and its
    content decodes does the response show the decoded content, and it is
    then not an error. *)
Theorem get_file_hides_the_cause (rs : list RepoConfig) (target : RepoConfig)
    (a : Args) (w : R) :
  find_repo rs (repoName a) = Some target ->
  action a = Some "get_file" ->
  let owner := nth_error (JS.split "/" (repo target)) 0 in
  let repository := nth_error (JS.split "/" (repo target)) 1 in
  let not_found :=
    {| text := "❌ File not found: " ++ JS.show (taskDescription a) ++ " in " ++
               JS.show owner ++ "/" ++ JS.show repository ++ ":" ++ defaultBranch target;
       isError := true |} in
  match repos_getContent octokit owner repository (taskDescription a)
          (defaultBranch target) (Cases.state_of runtime a w) with
  | (Throw _, w1) => run octokit runtime (Some rs) a w = (Normal not_found, w1)
  | (Normal file, w1) =>
      match decode_base64 runtime (content file) with
      | Throw _ => run octokit runtime (Some rs) a w = (Normal not_found, w1)
      | Normal decoded =>
          run octokit runtime (Some rs) a w =
            (Normal {| text := "📄 File: " ++ JS.show (taskDescription a) ++
                               " (" ++ defaultBranch target ++ ")" ++ JS.nl ++
                               JS.bq ++ JS.bq ++ JS.bq ++ JS.nl ++
                               decoded ++ JS.nl ++
                               JS.bq ++ JS.bq ++ JS.bq;
                       isError := false |}, w1)
      end
  end.
Proof.
  intros Hfind Hact.
  rewrite (run_on rs target a w Hfind), Hact. cbv zeta. pick_action.
  unfold try_catch, getFileContent, try_catch, bind, ret, lift.
  match goal with
  | |- context [repos_getContent ?o ?x ?y ?p ?b ?u] =>
      destruct (repos_getContent o x y p b u) as [[file|m] w1]
  end; [|reflexivity].
  destruct (decode_base64 runtime (content file)); reflexivity.
Qed.

(** X5. [update_file] has two kinds of failure.  A description that does
    not parse is caught by [run]: the response is [❌ Error: <cause>] and
    nothing is sent.  After that, a failure of the read, of the encoding
    or of the write gives [❌ Failed to update <path>: <cause>]; the write
    is sent only when the read and the encoding succeeded, on the task
    branch and with the sha that the read returned. *)
Theorem update_file_failures (rs : list RepoConfig) (target : RepoConfig)
    (a : Args) (w : R) :
  find_repo rs (repoName a) = Some target ->
  action a = Some "update_file" ->
  let owner := nth_error (JS.split "/" (repo target)) 0 in
  let repository := nth_error (JS.split "/" (repo target)) 1 in
  let branch := Cases.branch_of runtime a w in
  let failure := fun (info : UpdateInfo) (m : string) =>
    {| text := "❌ Failed to update " ++ JS.show (filepath info) ++ ": " ++ m;
       isError := true |} in
  match JSON_parse runtime (taskDescription a) with
  | Throw m =>
      run octokit runtime (Some rs) a w = (Normal (caught m), Cases.state_of runtime a w)
  | Normal info =>
      match repos_getContent octokit owner repository (filepath info) branch
              (Cases.state_of runtime a w) with
      | (Throw m, w1) => run octokit runtime (Some rs) a w = (Normal (failure info m), w1)
      | (Normal currentFile, w1) =>
          match encode_base64 runtime (new_content info) with
          | Throw m => run octokit runtime (Some rs) a w = (Normal (failure info m), w1)
          | Normal encoded =>
              match repos_createOrUpdateFileContents octokit owner repository (filepath info)
                      (JS.or_else (commit_message info)
                         ("Update " ++ JS.show (filepath info)))
                      encoded (sha currentFile) branch w1 with
              | (Throw m, w2) =>
                  run octokit runtime (Some rs) a w = (Normal (failure info m), w2)
              | (Normal _, w2) =>
                  run octokit runtime (Some rs) a w =
                    (Normal {| text := "✅ Updated " ++ JS.show (filepath info) ++
                                       " in branch '" ++ branch ++ "' of " ++
                                       JS.show owner ++ "/" ++ JS.show repository;
                               isError := false |}, w2)
              end
          end
      end
  end.
Proof.
  intros Hfind Hact. cbv zeta.
  rewrite (run_on rs target a w Hfind), Hact. cbv zeta. pick_action.
  unfold try_catch at 1. unfold updateFile, bind at 1, lift.
  destruct (JSON_parse runtime (taskDescription a)) as [info|m]; [|reflexivity].
  unfold try_catch, bind, ret, lift.
  match goal with
  | |- context [repos_getContent ?o ?x ?y ?q ?b ?u] =>
      destruct (repos_getContent o x y q b u) as [[currentFile|m] w1]
  end; [|reflexivity].
  destruct (encode_base64 runtime (new_content info)) as [encoded|m]; [|reflexivity].
  match goal with
  | |- context [repos_createOrUpdateFileContents ?o ?x ?y ?q ?c ?e ?h ?b ?u] =>
      destruct (repos_createOrUpdateFileContents o x y q c e h b u) as [[[]|m] w2]
  end; reflexivity.
Qed.

(** X6. For a repository configured as [owner/name] and a branch name the
    policy accepts, [create_branch] reads the head of the default branch of
    [owner], [name] and creates [refs/heads/<branch>] at the sha it read;
    the response is not an error and ends with the compliance message. *)
Theorem create_branch_creates_the_ref (rs : list RepoConfig) (target : RepoConfig)
    (a : Args) (o n b sha : string) (w w1 w2 : R) :
  find_repo rs (repoName a) = Some target ->
  repo target = o ++ "/" ++ n -> Cases.no_slash o -> Cases.no_slash n ->
  action a = Some "create_branch" \/ action a = None ->
  taskBranch a = Some b ->
  isValid (validateBranchName b) = true ->
  git_getRef octokit (Some o) (Some n) ("heads/" ++ defaultBranch target) w = (Normal sha, w1) ->
  git_createRef octokit (Some o) (Some n) ("refs/heads/" ++ b) sha w1 = (Normal tt, w2) ->
  run octokit runtime (Some rs) a w =
    (Normal {| text := "✅ Created branch '" ++ b ++ "' from '" ++ defaultBranch target ++
                       "' in " ++ o ++ "/" ++ n ++ JS.nl ++
                       "📝 Description: " ++ JS.show (taskDescription a) ++ JS.nl ++ JS.nl ++
                       "✅ Branch name follows company Git best practices";
               isError := false |}, w2).
Proof.
  intros Hfind Hrepo Ho Hn Hact Hb Hvalid Hget Hcreate.
  assert (Htruthy : JS.truthy (taskBranch a) = true).
  { rewrite Hb. destruct b; [discriminate Hvalid | reflexivity]. }
  assert (Hmsg : complianceMessage (validateBranchName b) =
                 Some "✅ Branch name follows company Git best practices").
  { revert Hvalid. unfold validateBranchName.
    destruct (negb (hasValidPrefix b)); [discriminate|].
    destruct (maxLength <? String.length b)%nat; [discriminate|].
    destruct (negb (allowedChars_test b)); [discriminate | reflexivity]. }
  rewrite (run_on rs target a w Hfind). cbv zeta.
  unfold Cases.branch_of, Cases.state_of. rewrite Htruthy, Hb, Hrepo.
  rewrite (split_owner_name o n Ho Hn). cbn [nth_error JS.show].
  assert (Hswitch : forall act, act = "create_branch" ->
    try_catch
      (if act =? "list_repos" then ret (listRepositoriesFormatted rs)
       else if act =? "list_branches" then listBranches octokit (Some o) (Some n)
       else if act =? "create_branch" then
         createBranch octokit (Some o) (Some n) b (defaultBranch target) (taskDescription a)
       else if act =? "create_pr" then
         createPullRequest octokit (Some o) (Some n) b (defaultBranch target)
           (taskDescription a)
       else if act =? "list_prs" then listPullRequests octokit (Some o) (Some n)
       else if act =? "get_file" then
         getFileContent octokit runtime (Some o) (Some n) (taskDescription a)
           (Some (defaultBranch target))
       else if act =? "update_file" then
         updateFile octokit runtime (Some o) (Some n) (taskDescription a) b
       else throw ("Unknown action: " ++ act))
      (fun message => ret (caught message)) w =
    (Normal {| text := "✅ Created branch '" ++ b ++ "' from '" ++ defaultBranch target ++
                       "' in " ++ o ++ "/" ++ n ++ JS.nl ++
                       "📝 Description: " ++ JS.show (taskDescription a) ++ JS.nl ++ JS.nl ++
                       "✅ Branch name follows company Git best practices";
               isError := false |}, w2)).
  { intros act ->. pick_action.
    unfold try_catch, createBranch, bind, ret. rewrite Hvalid. cbn [negb].
    rewrite Hget, Hcreate, Hmsg. reflexivity. }
  destruct Hact as [-> | ->]; now apply Hswitch.
Qed.

(** X7. [create_pr] does not apply the branch-name policy: for a
    repository configured as [owner/name], whatever the branch name, the
    request is sent with the branch as head, the default branch as base,
    the description as title and the generated body; the response is an
    error exactly when the request throws. *)
Theorem create_pr_skips_the_policy (rs : list RepoConfig) (target : RepoConfig)
    (a : Args) (o n : string) (w : R) :
  find_repo rs (repoName a) = Some target ->
  repo target = o ++ "/" ++ n -> Cases.no_slash o -> Cases.no_slash n ->
  action a = Some "create_pr" ->
  let head := Cases.branch_of runtime a w in
  match pulls_create octokit (Some o) (Some n) (taskDescription a) head (defaultBranch target)
          (generatePRBody (taskDescription a) head (defaultBranch target))
          (Cases.state_of runtime a w) with
  | (Normal pr, w1) =>
      run octokit runtime (Some rs) a w =
        (Normal {| text := "✅ Created PR #" ++ JS.show_nat (number pr) ++ ": " ++
                           html_url pr ++ JS.nl ++
                           "📋 " ++ head ++ " → " ++ defaultBranch target ++ JS.nl ++ JS.nl ++
                           getPRGuidelines;
                   isError := false |}, w1)
  | (Throw m, w1) => run octokit runtime (Some rs) a w = (Normal (caught m), w1)
  end.
Proof.
  intros Hfind Hrepo Ho Hn Hact. cbv zeta.
  rewrite (run_on rs target a w Hfind), Hact, Hrepo. cbv zeta. pick_action.
  rewrite (split_owner_name o n Ho Hn). cbn [nth_error].
  unfold try_catch, createPullRequest, bind, ret.
  match goal with
  | |- context [pulls_create ?c ?x ?y ?t ?h ?b ?bd ?u] =>
      destruct (pulls_create c x y t h b bd u) as [[pr|m] w1]
  end; reflexivity.
Qed.

(** X8. [list_repos] needs the name of a configured repository although
    the listing does not depend on it: with such a name the response is
    the listing of all configured repositories, otherwise it is the
    not-found error. *)
Theorem list_repos_needs_a_repository (rs : list RepoConfig) (a : Args) (w : R) :
  action a = Some "list_repos" ->
  match find_repo rs (repoName a) with
  | Some _ =>
      run octokit runtime (Some rs) a w =
        (Normal (listRepositoriesFormatted rs), Cases.state_of runtime a w) /\
      isError (listRepositoriesFormatted rs) = false
  | None =>
      exists t, run octokit runtime (Some rs) a w =
                (Normal {| text := t; isError := true |}, w)
  end.
Proof.
  intros Hact.
  destruct (find_repo rs (repoName a)) as [target|] eqn:Hfind.
  - split; [|reflexivity].
    rewrite (run_on rs target a w Hfind), Hact. cbv zeta. pick_action. reflexivity.
  - eexists. unfold run, try_catch, run_body, bind, ret, throw. simpl.
    rewrite Hfind. reflexivity.
Qed.

End GithubActions.

Lemma create_branch_without_name_is_rejected_witness :
  exists t,
    GithubTool.run (Mock.octokit true) Mock.runtime Mock.repositories
      (Fixtures.github_call "create_branch" None (Some "Login fix")) [] =
    (Normal {| text := t; isError := true |}, []).
Proof.
  eexists.
  refine (proj1 (create_branch_without_name_is_rejected (Mock.octokit true) Mock.runtime
                   [Fixtures.example_repo] Fixtures.example_repo
                   (Fixtures.github_call "create_branch" None (Some "Login fix")) []
                   eq_refl eq_refl (or_introl eq_refl))).
Defined.

Lemma repository_lookup_witness :
  GithubTool.run (Mock.octokit true) Mock.runtime Mock.repositories
    (Workflow.create_pr_args Mock.review_of_unknown_repo) [] =
  (Normal (GithubTool.caught
             "Repository 'missing' not found. Available repos: example-repo"), []).
Proof.
  refine (proj2 (proj2 (repository_lookup (Mock.octokit true) Mock.runtime
                          [Fixtures.example_repo]
                          (Workflow.create_pr_args Mock.review_of_unknown_repo) []))
            eq_refl).
Defined.

Lemma get_file_hides_the_cause_witness :
  GithubTool.run (Mock.octokit false) Mock.runtime Mock.repositories
    (Fixtures.github_call "get_file" (Some "feature/login-fix") (Some "README.md")) [] =
  (Normal {| text := "❌ File not found: README.md in owner/repository:main";
             isError := true |}, ["getContent README.md"]) /\
  GithubTool.run (Mock.octokit true) Mock.runtime Mock.repositories
    (Fixtures.github_call "get_file" (Some "feature/login-fix") (Some "docs")) [] =
  (Normal {| text := "❌ File not found: docs in owner/repository:main";
             isError := true |}, ["getContent docs"]).
Proof.
  split.
  - exact (get_file_hides_the_cause (Mock.octokit false) Mock.runtime
             [Fixtures.example_repo] Fixtures.example_repo
             (Fixtures.github_call "get_file" (Some "feature/login-fix") (Some "README.md")) []
             eq_refl eq_refl).
  - exact (get_file_hides_the_cause (Mock.octokit true) Mock.runtime
             [Fixtures.example_repo] Fixtures.example_repo
             (Fixtures.github_call "get_file" (Some "feature/login-fix") (Some "docs")) []
             eq_refl eq_refl).
Defined.

Lemma update_file_failures_witness :
  GithubTool.run (Mock.octokit false) Fixtures.runtime Mock.repositories
    (Fixtures.github_call "update_file" (Some "feature/login-fix") (Some "readme")) [] =
  (Normal {| text := "❌ Failed to update README.md: Not Found"; isError := true |},
   ["getContent README.md"]) /\
  GithubTool.run (Mock.octokit true) Fixtures.runtime Mock.repositories
    (Fixtures.github_call "update_file" (Some "feature/login-fix") (Some "not json")) [] =
  (Normal (GithubTool.caught "Unexpected end of JSON input"), []).
Proof.
  split.
  - exact (update_file_failures (Mock.octokit false) Fixtures.runtime
             [Fixtures.example_repo] Fixtures.example_repo
             (Fixtures.github_call "update_file" (Some "feature/login-fix") (Some "readme")) []
             eq_refl eq_refl).
  - exact (update_file_failures (Mock.octokit true) Fixtures.runtime
             [Fixtures.example_repo] Fixtures.example_repo
             (Fixtures.github_call "update_file" (Some "feature/login-fix") (Some "not json")) []
             eq_refl eq_refl).
Defined.

Lemma create_branch_creates_the_ref_witness :
  exists t,
    GithubTool.run (Mock.octokit true) Mock.runtime Mock.repositories
      (Fixtures.github_call "create_branch" (Some "feature/login-fix") (Some "Login fix")) [] =
    (Normal {| text := t; isError := false |},
     ["getRef heads/main"; "createRef refs/heads/feature/login-fix"]).
Proof.
  eexists.
  refine (create_branch_creates_the_ref (Mock.octokit true) Mock.runtime
            [Fixtures.example_repo] Fixtures.example_repo
            (Fixtures.github_call "create_branch" (Some "feature/login-fix") (Some "Login fix"))
            "owner" "repository" "feature/login-fix" "0a1b2c3d" [] _ _
            eq_refl eq_refl eq_refl eq_refl (or_introl eq_refl) eq_refl eq_refl eq_refl eq_refl).
Defined.

Lemma create_pr_skips_the_policy_witness :
  GithubTool.isValid (GithubTool.validateBranchName "xyz-thing") = false /\
  exists t,
    GithubTool.run (Mock.octokit true) Mock.runtime Mock.repositories
      (Fixtures.github_call "create_pr" (Some "xyz-thing") (Some "Login fix")) [] =
    (Normal {| text := t; isError := false |}, ["createPull xyz-thing"]).
Proof.
  split; [reflexivity|]. eexists.
  refine (create_pr_skips_the_policy (Mock.octokit true) Mock.runtime
            [Fixtures.example_repo] Fixtures.example_repo
            (Fixtures.github_call "create_pr" (Some "xyz-thing") (Some "Login fix"))
            "owner" "repository" [] eq_refl eq_refl eq_refl eq_refl eq_refl).
Defined.

Lemma list_repos_needs_a_repository_witness :
  exists t,
    GithubTool.run (Mock.octokit true) Mock.runtime Mock.repositories
      {| GithubTool.repoName := None; GithubTool.taskBranch := None;
         GithubTool.taskDescription := None; GithubTool.action := Some "list_repos" |} [] =
    (Normal {| text := t; isError := true |}, []).
Proof.
  exact (list_repos_needs_a_repository (Mock.octokit true) Mock.runtime
           [Fixtures.example_repo]
           {| GithubTool.repoName := None; GithubTool.taskBranch := None;
              GithubTool.taskDescription := None; GithubTool.action := Some "list_repos" |} []
           eq_refl).
Defined.

(** ** The constructor of the version-control tool *)

Section Constructor.

Import GithubTool.

(** X9. Built from a single [owner/name], the tool has one repository,
    named [name], with default branch [develop] unless one is given, and
    it answers to [name] and to [owner/name] only.  Built from a single
    string without a slash, the repository has no name and answers to a
    call that gives no [repoName].  A list of repositories, when given,
    is used as it is. *)
Theorem single_repository_tool (o n : string) (d : option string) :
  Cases.no_slash o -> Cases.no_slash n ->
  let cfg := {| name := Some n; repo := o ++ "/" ++ n;
                defaultBranch := match d with Some x => x | None => "develop" end |} in
  new_repos None (Some (o ++ "/" ++ n)) d = Some [cfg] /\
  (forall x, find_repo [cfg] x = Some cfg <-> x = Some n \/ x = Some (o ++ "/" ++ n)) /\
  (n <> "" ->
   let bare := {| name := None; repo := n;
                  defaultBranch := match d with Some x => x | None => "develop" end |} in
   new_repos None (Some n) d = Some [bare] /\ find_repo [bare] None = Some bare) /\
  (forall rs single, new_repos (Some rs) single d = Some rs).
Proof.
  intros Ho Hn cfg. split; [|split; [|split]].
  - unfold new_repos.
    assert (Ht : JS.truthy (Some (o ++ "/" ++ n)) = true) by (now destruct o).
    rewrite Ht. cbn [JS.show]. now rewrite (split_owner_name o n Ho Hn).
  - intros x. unfold find_repo. cbn [find name repo cfg].
    destruct (strict_eq (Some n) x || strict_eq (Some (o ++ "/" ++ n)) x) eqn:Hm.
    + apply orb_true_iff in Hm. rewrite !strict_eq_true in Hm.
      split; [intros _|reflexivity]. destruct Hm as [<- | <-]; auto.
    + apply orb_false_iff in Hm. destruct Hm as (H1 & H2).
      split; [discriminate|].
      intros [-> | ->].
      * assert (strict_eq (Some n) (Some n) = true) by now apply strict_eq_true.
        congruence.
      * assert (strict_eq (Some (o ++ "/" ++ n)) (Some (o ++ "/" ++ n)) = true)
          by now apply strict_eq_true.
        congruence.
  - intros Hne bare. split; [|reflexivity].
    unfold new_repos.
    assert (Ht : JS.truthy (Some n) = true).
    { simpl. apply negb_true_iff. now apply String.eqb_neq. }
    rewrite Ht. cbn [JS.show]. unfold JS.split.
    rewrite (split_from_piece "" n Hn). reflexivity.
  - reflexivity.
Qed.

Lemma single_repository_tool_witness :
  new_repos None (Some "acme/shop") None =
    Some [ {| name := Some "shop"; repo := "acme/shop"; defaultBranch := "develop" |} ].
Proof.
  exact (proj1 (single_repository_tool "acme" "shop" None eq_refl eq_refl)).
Defined.

End Constructor.

(** ** The task-board tool *)

Section Trello.

Import TrelloTool.

Context {R : Type}.
Variable trello : Client R.
Variable defaultBoardId : option string.
Variable defaultListId : option string.

Ltac remote_call :=
  match goal with
  | |- context [get_boards trello ?w] => destruct (get_boards trello w) as [[?|?] ?]
  | |- context [get_lists trello ?b ?w] => destruct (get_lists trello b w) as [[?|?] ?]
  | |- context [post_card trello ?d ?w] => destruct (post_card trello d w) as [[?|?] ?]
  | |- context [get_cards trello ?l ?w] => destruct (get_cards trello l w) as [[?|?] ?]
  | |- context [put_card trello ?c ?u ?w] => destruct (put_card trello c u w) as [[?|?] ?]
  | |- context [post_comment trello ?c ?t ?w] =>
      destruct (post_comment trello c t w) as [[?|?] ?]
  end.

(** Every response that a method returns is a plain one. *)
Lemma run_body_plain (a : Args) (w w' : R) (r : ToolResult) :
  run_body trello defaultBoardId defaultListId a w = (Normal r, w') -> isError r = false.
Proof.
  unfold run_body. destruct (action a) as [act|]; [|discriminate].
  repeat match goal with
         | |- context [String.eqb act ?x] => destruct (String.eqb act x)
         end;
    unfold listBoards, listLists, createCard, listCards, updateCard, moveCard, addComment,
      bind, ret, throw;
    repeat match goal with
           | |- context [if ?b then _ else _] => destruct b
           end;
    try remote_call; intros H; inversion H; reflexivity.
Qed.

(** X10. The task-board tool never answers with an error response.
    Called with an argument object, [run] either returns a response with
    [isError = false] or throws, and the message of what it throws begins
    with [Trello operation failed: ].  Called with [undefined] in place of
    the object, it throws the [TypeError] of the destructuring as it is,
    without that prefix, and nothing is sent. *)
Theorem trello_run_returns_or_throws (type_error : string) (args : option Args) (w : R) :
  match call trello defaultBoardId defaultListId type_error args w with
  | (Normal r, _) => args <> None /\ isError r = false
  | (Throw m, w1) =>
      match args with
      | Some _ => JS.startsWith m "Trello operation failed: " = true
      | None => m = type_error /\ w1 = w
      end
  end.
Proof.
  destruct args as [a|]; [|now split].
  unfold call, run, try_catch, throw.
  destruct (run_body trello defaultBoardId defaultListId a w) as [[r|m] w'] eqn:Hb.
  - split; [discriminate|]. exact (run_body_plain a w w' r Hb).
  - unfold JS.startsWith. apply prefix_append.
Qed.

(** X11. A call that lacks the identifier it works on is refused before
    anything is sent: [run] throws the message of the missing identifier
    and the remote state is unchanged.  This holds for [update_card]
    without a card, for [move_card] without a card or a list, for
    [add_comment] without a card or a text, for [create_card] and
    [list_cards] with neither a list nor a default list, and for
    [list_lists] with neither a board nor a default board; an empty
    string counts as missing. *)
Theorem trello_missing_identifier (a : Args) (w : R) :
  (action a = Some "update_card" -> JS.truthy (cardId a) = false ->
   run trello defaultBoardId defaultListId a w =
     (Throw "Trello operation failed: Card ID is required for updating.", w)) /\
  (action a = Some "move_card" -> JS.truthy (cardId a) && JS.truthy (listId a) = false ->
   run trello defaultBoardId defaultListId a w =
     (Throw "Trello operation failed: Both Card ID and List ID are required for moving.", w)) /\
  (action a = Some "add_comment" -> JS.truthy (cardId a) && JS.truthy (comment a) = false ->
   run trello defaultBoardId defaultListId a w =
     (Throw "Trello operation failed: Both Card ID and comment text are required.", w)) /\
  (action a = Some "create_card" \/ action a = Some "list_cards" ->
   JS.truthy (listId a) = false -> JS.truthy defaultListId = false ->
   run trello defaultBoardId defaultListId a w =
     (Throw "Trello operation failed: List ID is required. Use list_lists to find list IDs.",
      w)) /\
  (action a = Some "list_lists" ->
   JS.truthy (boardId a) = false -> JS.truthy defaultBoardId = false ->
   run trello defaultBoardId defaultListId a w =
     (Throw "Trello operation failed: Board ID is required. Use list_boards to find board IDs.",
      w)).
Proof.
  unfold run, try_catch, run_body.
  repeat split.
  - intros -> Hc. pick_action. unfold updateCard. now rewrite Hc.
  - intros -> Hc. pick_action. unfold moveCard.
    rewrite <- negb_andb, Hc. reflexivity.
  - intros -> Hc. pick_action. unfold addComment.
    rewrite <- negb_andb, Hc. reflexivity.
  - intros [-> | ->] Hl Hd; pick_action; unfold createCard, listCards, JS.or_opt;
      rewrite Hl, Hd; reflexivity.
  - intros -> Hb Hd. pick_action. unfold listLists, JS.or_opt. rewrite Hb, Hd. reflexivity.
Qed.

(** X12. An action that is not one of the seven of the [switch], or no
    action at all, is refused with [Unknown Trello action] and nothing is
    sent. *)
Theorem trello_unknown_action (a : Args) (w : R) :
  match action a with
  | Some act => Cases.known_trello_action act = false
  | None => True
  end ->
  run trello defaultBoardId defaultListId a w =
    (Throw ("Trello operation failed: Unknown Trello action: " ++ JS.show (action a)), w).
Proof.
  unfold run, try_catch, run_body, throw.
  destruct (action a) as [act|]; [|reflexivity].
  unfold Cases.known_trello_action, Cases.trello_actions. simpl existsb. intros H.
  repeat (apply orb_false_elim in H; destruct H as [? H]).
  repeat match goal with
         | Hx : String.eqb act ?x = false |- _ => rewrite Hx; clear Hx
         end.
  reflexivity.
Qed.

(** X13. [create_card] posts the card to the list of the call and, only
    when the call names none, to the default list; a missing description
    is sent as the empty string and an empty due date is not sent.  The
    response is plain when the request returns, and a failure of the
    request is thrown again with its message prefixed. *)
Theorem create_card_target_list (a : Args) (w : R) :
  action a = Some "create_card" ->
  JS.truthy (listId a) || JS.truthy defaultListId = true ->
  let cardData :=
    {| cd_name := title a;
       cd_desc := match description a with Some d => d | None => "" end;
       cd_idList := if JS.truthy (listId a) then JS.show (listId a)
                    else JS.show defaultListId;
       cd_due := if JS.truthy (dueDate a) then dueDate a else None;
       cd_idLabels := arg_labels a;
       cd_idMembers := members a |} in
  match post_card trello cardData w with
  | (Normal data, w1) =>
      exists t, run trello defaultBoardId defaultListId a w =
                (Normal {| text := t; isError := false |}, w1)
  | (Throw m, w1) =>
      run trello defaultBoardId defaultListId a w =
        (Throw ("Trello operation failed: " ++ m), w1)
  end.
Proof.
  intros Hact Hlist cardData.
  assert (Hdesc : JS.or_else (description a) "" =
                  match description a with Some d => d | None => "" end).
  { destruct (description a) as [d|]; [|reflexivity]. simpl.
    destruct (String.eqb_spec d ""); [now subst | reflexivity]. }
  subst cardData.
  unfold run, try_catch, run_body. rewrite Hact. pick_action.
  unfold createCard, JS.or_opt, bind, ret, throw. rewrite Hdesc.
  destruct (JS.truthy (listId a)) eqn:Hl.
  - rewrite Hl. cbn [negb].
    match goal with
    | |- context [post_card trello ?d w] =>
        destruct (post_card trello d w) as [[data|m] w1]
    end; [now eexists | reflexivity].
  - simpl in Hlist. rewrite Hlist. cbn [negb].
    match goal with
    | |- context [post_card trello ?d w] =>
        destruct (post_card trello d w) as [[data|m] w1]
    end; [now eexists | reflexivity].
Qed.

End Trello.

Lemma trello_missing_identifier_witness :
  TrelloTool.run (Mock.trello true) None None (Fixtures.trello_call "update_card") [] =
    (Throw "Trello operation failed: Card ID is required for updating.", []) /\
  TrelloTool.run (Mock.trello true) None None (Fixtures.trello_call "create_card") [] =
    (Throw "Trello operation failed: List ID is required. Use list_lists to find list IDs.", []).
Proof.
  destruct (trello_missing_identifier (Mock.trello true) None None
              (Fixtures.trello_call "update_card") []) as (Hupdate & _).
  destruct (trello_missing_identifier (Mock.trello true) None None
              (Fixtures.trello_call "create_card") []) as (_ & _ & _ & Hcreate & _).
  split; [apply Hupdate | apply Hcreate]; auto.
Defined.

Lemma trello_unknown_action_witness :
  TrelloTool.run (Mock.trello true) None None (Fixtures.trello_call "delete_card") [] =
    (Throw "Trello operation failed: Unknown Trello action: delete_card", []).
Proof.
  apply (trello_unknown_action (Mock.trello true) None None
           (Fixtures.trello_call "delete_card") []).
  reflexivity.
Defined.

Lemma create_card_target_list_witness :
  exists t,
    TrelloTool.run (Mock.trello true) None (Some "inbox")
      (Workflow.create_card_args (Mock.task "feature/login-fix")) [] =
    (Normal {| text := t; isError := false |}, ["card in list1"]).
Proof.
  exact (create_card_target_list (Mock.trello true) None (Some "inbox")
           (Workflow.create_card_args (Mock.task "feature/login-fix")) [] eq_refl eq_refl).
Defined.

(** ** The workflows over the two tools, step by step *)

Section Returns.

Import Workflow.

Context {R : Type}.
Variable g : GithubTool.Args -> Eff R ToolResult.
Variable t : TrelloTool.Args -> Eff R ToolResult.

(** A method returns an outcome. *)
Lemma workflow_returns (k : WorkflowKind) (p : Params) (s : Run R) :
  exists o s', run g t k p s = (Normal o, s').
Proof.
  rewrite run_as_steps.
  unfold run_steps, new_results, try_catch, succeed, failed, bind, modify, gets, ret.
  destruct (exec g t (steps k p) _) as [[u|m] s']; now do 2 eexists.
Qed.

End Returns.

Section WiredSteps.

Import Workflow.
Import Trace.
Import Server.

Context {R : Type}.
Variable octokit : GithubTool.Octokit R.
Variable runtime : GithubTool.Runtime R.
Variable trello : TrelloTool.Client R.
Variable repositories : option (list GithubTool.RepoConfig).
Variable defaultBoard : option string.
Variable defaultList : option string.

(** X14. Without a card identifier the completion workflow fails at its
    first step and sends nothing: the outcome is a failure with an empty
    ledger and the message of the missing card, the only tool call is
    [update_card], and the remote state is unchanged. *)
Theorem completion_without_card (p : Params) (w : R) :
  JS.truthy (cardId p) = false ->
  workflowTool octokit runtime trello repositories defaultBoard defaultList Completion p
    (start w) =
  (Normal {| success := false;
             message := "Completion workflow failed: Trello operation failed: Card ID is required for updating.";
             results := [] |},
   {| remote := w; calls := [TrelloRun (update_card_args p)]; ledger := [] |}).
Proof.
  intros Hcard.
  assert (Hupdate :
    trelloTool_run trello defaultBoard defaultList (update_card_args p) w =
      (Throw "Trello operation failed: Card ID is required for updating.", w)).
  { unfold trelloTool_run, TrelloTool.run, try_catch, TrelloTool.run_body.
    cbn [TrelloTool.action update_card_args]. pick_action.
    unfold TrelloTool.updateCard. cbn [TrelloTool.cardId update_card_args].
    now rewrite Hcard. }
  unfold workflowTool, run, completeTask, new_results, try_catch, succeed, failed,
    bind, modify, gets, ret, push, invoke, start, tool_run.
  cbn [remote calls ledger]. rewrite Hupdate. reflexivity.
Qed.

(** What the move step throws is what the move request threw. *)
Lemma move_step_throws (p : Params) (w0 w2 : R) (m : string) :
  JS.truthy (cardId p) = true -> JS.truthy (reviewListId p) = true ->
  trelloTool_run trello defaultBoard defaultList (move_card_args p) w0 = (Throw m, w2) ->
  exists m0 u,
    m = "Trello operation failed: " ++ m0 /\
    TrelloTool.put_card trello (JS.show (cardId p)) u w0 = (Throw m0, w2).
Proof.
  intros Hcard Hlist.
  unfold trelloTool_run, TrelloTool.run, try_catch, TrelloTool.run_body, throw.
  cbn [TrelloTool.action move_card_args]. pick_action.
  unfold TrelloTool.moveCard, bind, ret, throw.
  cbn [TrelloTool.cardId TrelloTool.listId move_card_args].
  rewrite Hcard, Hlist. cbn [negb orb].
  match goal with
  | |- context [TrelloTool.put_card trello ?c ?u ?w] =>
      destruct (TrelloTool.put_card trello c u w) as [[moved|m0] w'] eqn:Hput
  end; intros [= <- <-].
  exists m0. eexists. split; [reflexivity | exact Hput].
Qed.

(** What the comment step throws is what the comment request threw. *)
Lemma comment_step_throws (p : Params) (w0 w2 : R) (m : string) :
  JS.truthy (cardId p) = true ->
  trelloTool_run trello defaultBoard defaultList (pr_comment_args p) w0 = (Throw m, w2) ->
  exists m0 c,
    m = "Trello operation failed: " ++ m0 /\
    TrelloTool.post_comment trello (JS.show (cardId p)) c w0 = (Throw m0, w2).
Proof.
  intros Hcard.
  unfold trelloTool_run, TrelloTool.run, try_catch, TrelloTool.run_body, throw.
  cbn [TrelloTool.action pr_comment_args]. pick_action.
  unfold TrelloTool.addComment, bind, ret, throw.
  cbn [TrelloTool.cardId TrelloTool.comment pr_comment_args].
  rewrite Hcard.
  match goal with
  | |- context [JS.truthy (Some ?c)] =>
      change (JS.truthy (Some c)) with true
  end.
  cbn [negb orb].
  match goal with
  | |- context [TrelloTool.post_comment trello ?c ?u ?w] =>
      destruct (TrelloTool.post_comment trello c u w) as [[posted|m0] w'] eqn:Hpost
  end; intros [= <- <-].
  exists m0. eexists. split; [reflexivity | exact Hpost].
Qed.

(** X15. In the review workflow the task-board steps are never refused for
    a missing identifier: when the outcome is a failure, its message is
    [PR workflow failed: Trello operation failed: ] followed by the
    message that the move request or the comment request threw. *)
Theorem review_fails_on_remote_errors_only (p : Params) (w : R) (o : Outcome) (s' : Run R) :
  workflowTool octokit runtime trello repositories defaultBoard defaultList
    ReviewTransition p (start w) = (Normal o, s') ->
  success o = false ->
  exists m,
    message o = "PR workflow failed: Trello operation failed: " ++ m /\
    ((exists u w0 w1,
        TrelloTool.put_card trello (JS.show (cardId p)) u w0 = (Throw m, w1)) \/
     (exists c w0 w1,
        TrelloTool.post_comment trello (JS.show (cardId p)) c w0 = (Throw m, w1))).
Proof.
  destruct (githubTool_run_returns octokit runtime repositories (create_pr_args p) w)
    as (prResult & w1 & Hpr).
  unfold workflowTool, run, createPRAndUpdateCard, new_results, try_catch, succeed, failed,
    bind, modify, gets, ret, push, invoke, start. simpl.
  rewrite Hpr. simpl.
  destruct (JS.truthy (cardId p) && JS.truthy (reviewListId p)) eqn:Hboth; simpl.
  2:{ intros [= <- <-]. discriminate. }
  apply andb_true_iff in Hboth. destruct Hboth as (Hcard & Hlist).
  destruct (trelloTool_run trello defaultBoard defaultList (move_card_args p) w1)
    as [[moved|m] w2] eqn:Hmove; simpl.
  - destruct (trelloTool_run trello defaultBoard defaultList (pr_comment_args p) w2)
      as [[posted|m] w3] eqn:Hcomment; simpl.
    + intros [= <- <-]. discriminate.
    + intros [= <- <-] _.
      destruct (comment_step_throws p w2 w3 m Hcard Hcomment) as (m0 & c & -> & Hpost).
      exists m0. split; [reflexivity|]. right. eauto.
  - intros [= <- <-] _.
    destruct (move_step_throws p w1 w2 m Hcard Hlist Hmove) as (m0 & u & -> & Hput).
    exists m0. split; [reflexivity|]. left. eauto.
Qed.

(** X16. [handleWorkflow] answers an action that names no workflow with
    an error response, without calling a tool or changing the state.  For
    an action that names a workflow, the response is an error exactly when
    the outcome is a failure; a failure is reported by its message alone,
    so the entries of the steps that completed are not shown, and a
    success by its message followed by one paragraph per ledger entry. *)
Theorem handleWorkflow_reports_the_outcome (action : option string) (p : Params) (s : Run R) :
  match kind_of_action action with
  | None =>
      handleWorkflow octokit runtime trello repositories defaultBoard defaultList action p s =
        (Normal {| text := "❌ Workflow error: Unknown workflow action: " ++ JS.show action;
                   isError := true |}, s)
  | Some k =>
      exists o s',
        workflowTool octokit runtime trello repositories defaultBoard defaultList k p s =
          (Normal o, s') /\
        handleWorkflow octokit runtime trello repositories defaultBoard defaultList action p s =
          (Normal {| text := if success o
                             then "✅ " ++ message o ++ JS.nl ++ JS.nl ++
                                  JS.join (JS.nl ++ JS.nl) (map render_entry (results o))
                             else "❌ " ++ message o;
                     isError := negb (success o) |}, s')
  end.
Proof.
  destruct (kind_of_action action) as [k|] eqn:Hk.
  - destruct (workflow_returns (githubTool_run octokit runtime repositories)
                (trelloTool_run trello defaultBoard defaultList) k p s) as (o & s' & Hrun).
    exists o, s'. split; [exact Hrun|].
    unfold handleWorkflow, try_catch, bind, ret. rewrite Hk.
    unfold workflowTool in Hrun |- *. now rewrite Hrun.
  - unfold handleWorkflow, try_catch, bind, throw, ret. now rewrite Hk.
Qed.

End WiredSteps.

Lemma completion_without_card_witness :
  Server.workflowTool (Mock.octokit true) Mock.runtime (Mock.trello true) Mock.repositories
    None None Workflow.Completion (Mock.task "feature/login-fix") (Workflow.start []) =
  (Normal {| Workflow.success := false;
             Workflow.message := "Completion workflow failed: Trello operation failed: Card ID is required for updating.";
             Workflow.results := [] |},
   {| Workflow.remote := [];
      Workflow.calls :=
        [Workflow.TrelloRun (Workflow.update_card_args (Mock.task "feature/login-fix"))];
      Workflow.ledger := [] |}).
Proof.
  exact (completion_without_card (Mock.octokit true) Mock.runtime (Mock.trello true)
           Mock.repositories None None (Mock.task "feature/login-fix") [] eq_refl).
Defined.

Lemma review_fails_on_remote_errors_only_witness :
  exists m : string,
    (exists u w0 w1,
       TrelloTool.put_card (Mock.trello false) "c1" u w0 = (Throw m, w1)) \/
    (exists c w0 w1,
       TrelloTool.post_comment (Mock.trello false) "c1" c w0 = (Throw m, w1)).
Proof.
  edestruct (review_fails_on_remote_errors_only (Mock.octokit true) Mock.runtime
               (Mock.trello false) Mock.repositories None None
               (Mock.task_with_card "feature/login-fix" "c1" "l2") [])
    as (m & _ & H).
  - reflexivity.
  - reflexivity.
  - exists m. exact H.
Defined.

Lemma handleWorkflow_reports_the_outcome_witness :
  Server.handleWorkflow (Mock.octokit true) Mock.runtime (Mock.trello true) Mock.repositories
    None None (Some "archive_task") (Mock.task "feature/login-fix") (Workflow.start []) =
  (Normal {| text := "❌ Workflow error: Unknown workflow action: archive_task";
             isError := true |}, Workflow.start []).
Proof.
  exact (handleWorkflow_reports_the_outcome (Mock.octokit true) Mock.runtime (Mock.trello true)
           Mock.repositories None None (Some "archive_task") (Mock.task "feature/login-fix")
           (Workflow.start [])).
Defined.

(** ** The documentation tool *)

Section Documentation.

Import DocumentationTool.

Variable runtime : Runtime.
Variable documentCache : Cache.

Lemma lookup_absent {A : Type} (key : string) (m : list (string * A)) :
  ~ In key (map fst m) -> lookup key m = None.
Proof.
  induction m as [|[k v] m IH]; simpl; intros H; [reflexivity|].
  destruct (String.eqb_spec k key) as [->|Hne]; [elim H; now left|].
  apply IH. intros Hin. apply H. now right.
Qed.

(** In a map (distinct keys), an entry is what [get] finds. *)
Lemma lookup_entry {A : Type} (key : string) (v : A) (m : list (string * A)) :
  NoDup (map fst m) -> In (key, v) m -> lookup key m = Some v.
Proof.
  induction m as [|[k v'] m IH]; simpl; intros Hnd Hin; [contradiction|].
  inversion Hnd as [|? ? Hnotin Hnd']; subst.
  destruct Hin as [[= -> ->]|Hin].
  - now rewrite String.eqb_refl.
  - destruct (String.eqb_spec k key) as [->|Hne]; [|now apply IH].
    elim Hnotin. apply (in_map fst) in Hin. exact Hin.
Qed.

Lemma in_firstn {A : Type} (n : nat) (l : list A) (x : A) : In x (firstn n l) -> In x l.
Proof.
  revert l. induction n as [|n IH]; intros [|a l]; simpl; try contradiction.
  intros [->|H]; [now left | right; now apply IH].
Qed.

(** X17. [get] reads the cache: without a document name (missing or
    empty) the response is the listing of [list]; for a name of the cache
    it is the title and the content of that document; for any other name
    it is an error response that lists the names of the cache in their
    order. *)
Theorem get_document_lookup (a : Args) :
  action a = Some "get" ->
  (JS.truthy (document a) = false ->
   run runtime documentCache a = Normal (listDocuments documentCache)) /\
  (forall s doc, document a = Some s -> s <> "" ->
     NoDup (map fst documentCache) -> In (s, doc) documentCache ->
     run runtime documentCache a =
       Normal {| text := "📄 **" ++ title doc ++ "**" ++ JS.nl ++ JS.nl ++ content doc;
                 isError := false |}) /\
  (forall s, document a = Some s -> s <> "" -> ~ In s (map fst documentCache) ->
     run runtime documentCache a =
       Normal {| text := "❌ Documentation Error: Document '" ++ s ++
                         "' not found. Available: " ++ JS.join ", " (map fst documentCache);
                 isError := true |}).
Proof.
  intros Hact. unfold run, run_body. rewrite Hact. pick_action.
  split; [|split].
  - destruct (document a) as [s|]; simpl; [|reflexivity].
    intros H. apply negb_false_iff in H. now rewrite H.
  - intros s doc -> Hne Hnd Hin. simpl. apply String.eqb_neq in Hne. rewrite Hne.
    now rewrite (lookup_entry s doc documentCache Hnd Hin).
  - intros s -> Hne Hnot. simpl. apply String.eqb_neq in Hne. rewrite Hne.
    now rewrite (lookup_absent s documentCache Hnot).
Qed.

(** X18. [rules] is [get] under another name: a category whose lower case
    is a key of the rules map answers as [get] of the mapped document (so
    [pr] and [github] give the same document), and a category that is
    neither such a key nor an inherited member answers as [get] of the
    category itself, with its case kept. *)
Theorem rules_is_get_by_alias (a : Args) (c : string) :
  action a = Some "rules" -> document a = Some c ->
  let get := fun d => {| action := Some "get"; document := Some d; query := query a |} in
  (forall d, lookup (toLowerCase runtime c) rulesMap = Some d ->
     run runtime documentCache a = run runtime documentCache (get d)) /\
  (toLowerCase runtime c = "pr" \/ toLowerCase runtime c = "github" ->
     run runtime documentCache a = run runtime documentCache (get "how-to-make-github-prs")) /\
  (lookup (toLowerCase runtime c) rulesMap = None ->
   Object_prototype runtime (toLowerCase runtime c) = None -> c <> "" ->
     run runtime documentCache a = run runtime documentCache (get c)).
Proof.
  intros Hact Hdoc get.
  assert (Hmapped : forall d, lookup (toLowerCase runtime c) rulesMap = Some d ->
            run runtime documentCache a = run runtime documentCache (get d)).
  { intros d Hd. unfold run, run_body. rewrite Hact. cbn [action get document]. pick_action.
    unfold getCompanyRules, rule_document. rewrite Hdoc, Hd.
    assert (Hne : d <> "").
    { intros ->. revert Hd. unfold rulesMap. simpl.
      repeat match goal with
             | |- context [if ?b then _ else _] => destruct b; [discriminate|]
             end.
      discriminate. }
    destruct d; [now elim Hne | reflexivity]. }
  split; [exact Hmapped|]. split.
  - intros [H|H]; apply Hmapped; rewrite H; reflexivity.
  - intros Hnone Hproto Hne.
    unfold run, run_body. rewrite Hact. cbn [action get document]. pick_action.
    unfold getCompanyRules, rule_document. rewrite Hdoc, Hnone, Hproto.
    cbn [name_of]. destruct c; [now elim Hne | reflexivity].
Qed.

(** X19. [guidelines] answers with an error only for a name that every
    object inherits: for one of its four action types it returns the
    guidelines, documents missing from the cache being left out, and for a
    missing, empty or unknown name it returns the list of action types. *)
Theorem guidelines_fail_on_inherited_names_only (a : Args) :
  action a = Some "guidelines" ->
  exists r,
    run runtime documentCache a = Normal r /\
    (isError r = true <->
     JS.truthy (document a) = true /\
     lookup (JS.show (document a)) guidelines = None /\
     Object_prototype runtime (JS.show (document a)) <> None) /\
    (JS.truthy (document a) = false \/
     (lookup (JS.show (document a)) guidelines = None /\
      Object_prototype runtime (JS.show (document a)) = None) ->
     r = guideline_list).
Proof.
  intros Hact. unfold run, run_body. rewrite Hact. pick_action.
  unfold getGuidelines.
  destruct (JS.truthy (document a)) eqn:Ht; cbn [negb].
  - destruct (lookup (JS.show (document a)) guidelines) as [gl|] eqn:Hl.
    + eexists. split; [reflexivity|]. split.
      * split; [discriminate | intros (_ & H & _); discriminate H].
      * intros [H|(H & _)]; discriminate H.
    + destruct (Object_prototype runtime (JS.show (document a))) as [printed|] eqn:Hp.
      * eexists. split; [reflexivity|]. split.
        -- split; [intros _; repeat split; discriminate | reflexivity].
        -- intros [H|(_ & H)]; discriminate H.
      * eexists. split; [reflexivity|]. split.
        -- split; [discriminate | intros (_ & _ & H); now elim H].
        -- reflexivity.
  - eexists. split; [reflexivity|]. split.
    + split; [discriminate | intros (H & _); discriminate H].
    + reflexivity.
Qed.

(** The hits of a search are made from the entries of the cache that
    contain the term, one for one and in their order. *)
Lemma search_hits_filter (term : string) :
  search_hits runtime documentCache term =
    map (fun entry =>
           {| hit_document := fst entry;
              hit_title := title (snd entry);
              matches := firstn 5 (matching_lines runtime term (snd entry)) |})
        (filter (fun entry => JS.includes (toLowerCase runtime (content (snd entry))) term)
                documentCache).
Proof.
  unfold search_hits.
  induction documentCache as [|entry rest IH]; [reflexivity|].
  cbn [flat_map filter].
  destruct (JS.includes (toLowerCase runtime (content (snd entry))) term);
    cbn [app map]; now rewrite IH.
Qed.

(** X20. [search] refuses a missing or empty query with an error
    response.  Otherwise the response is not an error and is made from
    the documents whose lower-case content contains the lower-case query:
    when there is none it is the "no results" text; when there are some it
    lists exactly those documents, in the order of the cache, each by its
    title and name followed by the first five of its lines whose lower
    case contains the query, trimmed.  So every document listed matches,
    every matching document is listed, and each comes with at most five
    lines, all of them matching lines of that document. *)
Theorem search_lists_the_matching_documents (a : Args) :
  action a = Some "search" ->
  let term := toLowerCase runtime (JS.show (query a)) in
  let found :=
    filter (fun entry => JS.includes (toLowerCase runtime (content (snd entry))) term)
           documentCache in
  let lines_of := fun doc : Doc =>
    firstn 5 (filter (fun line => JS.includes (toLowerCase runtime line) term)
                     (JS.split "010" (content doc))) in
  (JS.truthy (query a) = false ->
   run runtime documentCache a =
     Normal {| text := "❌ Documentation Error: Search query is required";
               isError := true |}) /\
  (JS.truthy (query a) = true -> found = [] ->
   run runtime documentCache a =
     Normal {| text := "🔍 No results found for: " ++ JS.dq ++ JS.show (query a) ++ JS.dq ++
                       JS.nl ++ JS.nl ++
                       "📚 Try searching for: git, coding, review, PR, best practices, security, etc.";
               isError := false |}) /\
  (JS.truthy (query a) = true -> found <> [] ->
   run runtime documentCache a =
     Normal {| text := "🔍 Search results for " ++ JS.dq ++ JS.show (query a) ++ JS.dq ++ ":" ++
                       JS.nl ++ JS.nl ++
                       JS.join JS.nl
                         (map (fun entry =>
                                 "📄 **" ++ title (snd entry) ++ "** (" ++ fst entry ++ ")" ++
                                 JS.nl ++
                                 JS.join JS.nl
                                   (map (fun m => "   • " ++ trim runtime m)
                                        (lines_of (snd entry))) ++
                                 JS.nl) found);
               isError := false |}) /\
  (forall term,
     map hit_document (search_hits runtime documentCache term) =
       map fst (filter (fun entry =>
                          JS.includes (toLowerCase runtime (content (snd entry))) term)
                       documentCache) /\
     Forall (fun h =>
               length (matches h) <= 5 /\
               exists doc, In (hit_document h, doc) documentCache /\
                 Forall (fun line =>
                           In line (JS.split "010" (content doc)) /\
                           JS.includes (toLowerCase runtime line) term = true)
                        (matches h))
            (search_hits runtime documentCache term)).
Proof.
  intros Hact term found lines_of. split; [|split; [|split]].
  - intros Hq. unfold run, run_body. rewrite Hact. pick_action.
    unfold searchDocuments. now rewrite Hq.
  - intros Hq Hnone. unfold run, run_body. rewrite Hact. pick_action.
    unfold searchDocuments. rewrite Hq. cbn [negb]. cbv zeta.
    rewrite search_hits_filter. fold term. fold found. now rewrite Hnone.
  - intros Hq Hsome. unfold run, run_body. rewrite Hact. pick_action.
    unfold searchDocuments. rewrite Hq. cbn [negb]. cbv zeta.
    rewrite search_hits_filter. fold term. fold found.
    destruct found as [|entry rest]; [now elim Hsome|].
    cbn [map]. unfold plain. rewrite map_map. reflexivity.
  - intros term'. split.
    + rewrite search_hits_filter, map_map. reflexivity.
    + unfold search_hits. apply Forall_forall. intros h Hin. apply in_flat_map in Hin.
      destruct Hin as ([k doc] & Hentry & Hh). cbn [fst snd] in Hh.
      destruct (JS.includes (toLowerCase runtime (content doc)) term'); [|contradiction].
      destruct Hh as [<-|[]]. cbn [matches hit_document]. split.
      * apply firstn_le_length.
      * exists doc. split; [exact Hentry|].
        apply Forall_forall. intros line Hline. apply in_firstn in Hline.
        unfold matching_lines in Hline. apply filter_In in Hline. exact Hline.
Qed.

End Documentation.

Lemma get_document_lookup_witness :
  DocumentationTool.run DocFixtures.runtime DocFixtures.cache
    (DocFixtures.request "get" (Some "coding-best-practices") None) =
  Normal {| text := "❌ Documentation Error: Document 'coding-best-practices' not found. Available: git-best-practices, how-to-make-github-prs";
            isError := true |}.
Proof.
  refine (proj2 (proj2 (get_document_lookup DocFixtures.runtime DocFixtures.cache
                          (DocFixtures.request "get" (Some "coding-best-practices") None)
                          eq_refl))
            "coding-best-practices" eq_refl _ _).
  - discriminate.
  - simpl. intros [H|[H|[]]]; discriminate H.
Defined.

Lemma rules_is_get_by_alias_witness :
  DocumentationTool.run DocFixtures.runtime DocFixtures.cache
    (DocFixtures.request "rules" (Some "GitHub") None) =
  DocumentationTool.run DocFixtures.runtime DocFixtures.cache
    (DocFixtures.request "get" (Some "how-to-make-github-prs") None).
Proof.
  refine (proj1 (proj2 (rules_is_get_by_alias DocFixtures.runtime DocFixtures.cache
                          (DocFixtures.request "rules" (Some "GitHub") None) "GitHub"
                          eq_refl eq_refl)) _).
  right. reflexivity.
Defined.

Lemma guidelines_fail_on_inherited_names_only_witness :
  exists r,
    DocumentationTool.run DocFixtures.runtime DocFixtures.cache
      (DocFixtures.request "guidelines" (Some "constructor") None) = Normal r /\
    isError r = true.
Proof.
  destruct (guidelines_fail_on_inherited_names_only DocFixtures.runtime DocFixtures.cache
              (DocFixtures.request "guidelines" (Some "constructor") None) eq_refl)
    as (r & Hrun & Herr & _).
  exists r. split; [exact Hrun|].
  apply Herr. repeat split; discriminate.
Defined.

Lemma search_lists_the_matching_documents_witness :
  DocumentationTool.run DocFixtures.runtime DocFixtures.cache
    (DocFixtures.request "search" None (Some "Feature")) =
  Normal {| text := "🔍 Search results for " ++ JS.dq ++ "Feature" ++ JS.dq ++ ":" ++
                    JS.nl ++ JS.nl ++
                    "📄 **Git Best Practices** (git-best-practices)" ++ JS.nl ++
                    "   • Use Feature branches" ++ JS.nl;
            isError := false |} /\
  DocumentationTool.run DocFixtures.runtime DocFixtures.cache
    (DocFixtures.request "search" None None) =
  Normal {| text := "❌ Documentation Error: Search query is required"; isError := true |}.
Proof.
  split.
  - refine (proj1 (proj2 (proj2
              (search_lists_the_matching_documents DocFixtures.runtime DocFixtures.cache
                 (DocFixtures.request "search" None (Some "Feature")) eq_refl)))
              eq_refl _).
    vm_compute. discriminate.
  - exact (proj1 (search_lists_the_matching_documents DocFixtures.runtime DocFixtures.cache
                    (DocFixtures.request "search" None None) eq_refl) eq_refl).
Defined.

(** ** Loading the repository configuration *)

Section Loading.

Import Config.

(** X21. [loadRepositories] always returns a configuration.  A
    [GITHUB_REPOS] variable that is set is the only source read: its parsed
    value is returned, and when it does not parse the result is the
    built-in fallback, without the config file being consulted.  Without
    the variable, the config file is used when it exists, and a failure
    to read or parse it gives the fallback too.  The fallback tool knows
    one placeholder repository, which answers to [example-repo] and to
    [owner/repository] only. *)
Theorem loadRepositories_falls_back (env : Env) (branch : string) :
  (JS.truthy (GITHUB_REPOS env) = true ->
   loadRepositories env branch =
     match parse_repositories env (JS.show (GITHUB_REPOS env)) with
     | Normal repositories => repositories
     | Throw _ => fallback branch
     end) /\
  (JS.truthy (GITHUB_REPOS env) = false -> existsSync env = false ->
   loadRepositories env branch = fallback branch) /\
  (JS.truthy (GITHUB_REPOS env) = false -> existsSync env = true ->
   loadRepositories env branch =
     match readFileSync env with
     | Normal configFile =>
         match parse_config env configFile with
         | Normal repositories => repositories
         | Throw _ => fallback branch
         end
     | Throw _ => fallback branch
     end) /\
  (forall rs x, fallback branch = Some rs ->
     GithubTool.find_repo rs x <> None <->
     x = Some "example-repo" \/ x = Some "owner/repository").
Proof.
  unfold loadRepositories, load_body. repeat split.
  - intros ->. reflexivity.
  - intros -> ->. reflexivity.
  - intros -> ->. now destruct (readFileSync env).
  - intros Hfound. injection H as <-. revert Hfound.
    unfold GithubTool.find_repo. cbn [find GithubTool.name GithubTool.repo].
    destruct (GithubTool.strict_eq (Some "example-repo") x) eqn:H1.
    + apply strict_eq_true in H1. auto.
    + destruct (GithubTool.strict_eq (Some "owner/repository") x) eqn:H2.
      * apply strict_eq_true in H2. auto.
      * intros Hf. now elim Hf.
  - injection H as <-.
    intros [-> | ->]; discriminate.
Qed.

Lemma loadRepositories_falls_back_witness :
  loadRepositories DocFixtures.env "main" = fallback "main".
Proof.
  exact (proj1 (loadRepositories_falls_back DocFixtures.env "main") eq_refl).
Defined.

End Loading.

(** ** The handler of tool calls *)

Section Calls.

Import Dispatch.

Context {R : Type}.
Variable exec : WpCliTool.Shell R.
Variable octokit : GithubTool.Octokit R.
Variable runtime : GithubTool.Runtime R.
Variable trello : TrelloTool.Client R.
Variable docs_runtime : DocumentationTool.Runtime.
Variable documentCache : DocumentationTool.Cache.
Variable repositories : option (list GithubTool.RepoConfig).
Variable trello_configured : bool.
Variable defaultBoard : option string.
Variable defaultList : option string.
Variable cannot_destructure : string -> string.

Lemma docs_run_returns (a : DocumentationTool.Args) :
  exists r, DocumentationTool.run docs_runtime documentCache a = Normal r.
Proof.
  unfold DocumentationTool.run.
  destruct (DocumentationTool.run_body docs_runtime documentCache a); now eexists.
Qed.

Lemma known_tool_false (name : string) :
  known_tool name = false ->
  (name =? "wpcli") = false /\ (name =? "github") = false /\ (name =? "docs") = false /\
  (name =? "trello") = false /\ (name =? "workflow") = false.
Proof.
  unfold known_tool, tools. simpl. intros H.
  repeat (apply orb_false_elim in H; destruct H as [? H]).
  repeat split; assumption.
Qed.

(** X22. The handler answers every tool call with a response: it never
    throws.  A name that is not one of the five tools, the task-board tool
    or the workflows when the task-board credentials are not set, and a
    call of a tool without arguments are each answered with an error
    response [Error executing <name>: <cause>], and nothing is sent. *)
Theorem callTool_always_answers (name : string) (args : option Arguments) (w : R) :
  (exists r w',
     callTool exec octokit runtime trello docs_runtime documentCache repositories
       trello_configured defaultBoard defaultList cannot_destructure name args w =
     (Normal r, w')) /\
  (known_tool name = false ->
   callTool exec octokit runtime trello docs_runtime documentCache repositories
     trello_configured defaultBoard defaultList cannot_destructure name args w =
   (Normal (refused name ("Unknown tool: " ++ name)), w)) /\
  (trello_configured = false -> name = "trello" ->
   callTool exec octokit runtime trello docs_runtime documentCache repositories
     trello_configured defaultBoard defaultList cannot_destructure name args w =
   (Normal (refused name "Trello integration not available. Please set TRELLO_API_KEY and TRELLO_TOKEN environment variables."), w)) /\
  (trello_configured = false -> name = "workflow" ->
   callTool exec octokit runtime trello docs_runtime documentCache repositories
     trello_configured defaultBoard defaultList cannot_destructure name args w =
   (Normal (refused name "Workflow integration not available. Please set up both GitHub and Trello integrations."), w)) /\
  (args = None -> known_tool name = true ->
   trello_configured = true \/ name = "wpcli" \/ name = "github" \/ name = "docs" ->
   callTool exec octokit runtime trello docs_runtime documentCache repositories
     trello_configured defaultBoard defaultList cannot_destructure name args w =
   (Normal (refused name (cannot_destructure name)), w)).
Proof.
  split.
  { apply try_catch_returns. intros m s1. now do 2 eexists. }
  unfold callTool, try_catch, call_body, with_arguments, throw, ret.
  repeat split.
  - intros Hk. apply known_tool_false in Hk.
    destruct Hk as (H1 & H2 & H3 & H4 & H5). now rewrite H1, H2, H3, H4, H5.
  - intros -> ->. reflexivity.
  - intros -> ->. reflexivity.
  - intros -> Hk Hconf.
    unfold known_tool, tools in Hk. simpl in Hk.
    destruct (name =? "wpcli"); [reflexivity|].
    destruct (name =? "github"); [reflexivity|].
    destruct (name =? "docs"); [reflexivity|].
    destruct (name =? "trello") eqn:Ht.
    + apply String.eqb_eq in Ht. subst name.
      destruct Hconf as [-> | [H | [H | H]]]; (reflexivity || discriminate H).
    + destruct (name =? "workflow") eqn:Hw; [|discriminate Hk].
      apply String.eqb_eq in Hw. subst name.
      destruct Hconf as [-> | [H | [H | H]]]; (reflexivity || discriminate H).
Qed.

(** X23. Through the handler, every call of the task-board tool is
    answered, and a failure becomes an error response.  When the tool
    returns, its response is passed on and is not an error.  When it
    throws, the response is [Error executing trello: <message>] with
    [isError = true], in the remote state the failed call left.  For a
    call with arguments the message begins with
    [Trello operation failed: ]; for a call without arguments it is the
    [TypeError] of the destructuring, without that prefix, and nothing
    is sent. *)
Theorem callTool_reports_trello_failures (args : option Arguments) (w : R) :
  trello_configured = true ->
  match TrelloTool.call trello defaultBoard defaultList (cannot_destructure "trello")
          (option_map trello_args args) w with
  | (Normal r, w1) =>
      callTool exec octokit runtime trello docs_runtime documentCache repositories
        trello_configured defaultBoard defaultList cannot_destructure "trello" args w =
      (Normal r, w1) /\ isError r = false /\ args <> None
  | (Throw m, w1) =>
      callTool exec octokit runtime trello docs_runtime documentCache repositories
        trello_configured defaultBoard defaultList cannot_destructure "trello" args w =
      (Normal (refused "trello" m), w1) /\
      match args with
      | Some _ => JS.startsWith m "Trello operation failed: " = true
      | None => m = cannot_destructure "trello" /\ w1 = w
      end
  end.
Proof.
  intros ->.
  unfold callTool, call_body.
  pick_action. cbn [negb].
  destruct args as [a|]; cbn [option_map TrelloTool.call];
    [|unfold try_catch, throw; now repeat split].
  destruct (TrelloTool.run trello defaultBoard defaultList (trello_args a) w)
    as [[r|m] w1] eqn:Hrun; unfold try_catch at 1; rewrite Hrun;
    (split; [reflexivity|]);
    unfold TrelloTool.run, try_catch, throw in Hrun;
    destruct (TrelloTool.run_body trello defaultBoard defaultList (trello_args a) w)
      as [[r'|m'] w'] eqn:Hb; try discriminate Hrun; injection Hrun as <- <-.
  - split; [|discriminate]. exact (run_body_plain _ _ _ _ _ _ _ Hb).
  - exact (prefix_append "Trello operation failed: " m').
Qed.

(** X24. The handler adds nothing to the tools that do not throw: called
    with arguments, the WP-CLI tool, the version-control tool and the
    documentation tool give the handler's response, and so does
    [handleWorkflow] when the task-board credentials are set.  The WP-CLI
    response is an error exactly when the command failed, and shows the
    error stream when it is not empty. *)
Theorem callTool_passes_responses_on (a : Arguments) (w : R) :
  callTool exec octokit runtime trello docs_runtime documentCache repositories
    trello_configured defaultBoard defaultList cannot_destructure "github" (Some a) w =
    GithubTool.run octokit runtime (GithubTool.new_repos repositories None None)
      (github_args a) w /\
  callTool exec octokit runtime trello docs_runtime documentCache repositories
    trello_configured defaultBoard defaultList cannot_destructure "docs" (Some a) w =
    (DocumentationTool.run docs_runtime documentCache (docs_args a), w) /\
  callTool exec octokit runtime trello docs_runtime documentCache repositories
    trello_configured defaultBoard defaultList cannot_destructure "wpcli" (Some a) w =
    (Normal {| text := match WpCliTool.err (fst (exec ("wp " ++ JS.show (command a))
                                                   workingDir w)) with
                       | Some message =>
                           "❌ WP-CLI Error: " ++
                           (if WpCliTool.stderr (fst (exec ("wp " ++ JS.show (command a))
                                                       workingDir w)) =? ""
                            then message
                            else WpCliTool.stderr (fst (exec ("wp " ++ JS.show (command a))
                                                          workingDir w)))
                       | None =>
                           "✅ WP-CLI Result:" ++ JS.nl ++
                           WpCliTool.stdout (fst (exec ("wp " ++ JS.show (command a))
                                                    workingDir w))
                       end;
               isError := match WpCliTool.err (fst (exec ("wp " ++ JS.show (command a))
                                                      workingDir w)) with
                          | Some _ => true
                          | None => false
                          end |},
     snd (exec ("wp " ++ JS.show (command a)) workingDir w)) /\
  (trello_configured = true ->
   callTool exec octokit runtime trello docs_runtime documentCache repositories
     trello_configured defaultBoard defaultList cannot_destructure "workflow" (Some a) w =
   workflow_request octokit runtime trello repositories defaultBoard defaultList a w).
Proof.
  split; [|split; [|split]].
  - unfold callTool, try_catch, call_body. pick_action.
    cbn [option_map GithubTool.call].
    destruct (run_returns octokit runtime (GithubTool.new_repos repositories None None)
                (github_args a) w) as (r & w' & ->).
    reflexivity.
  - unfold callTool, try_catch, call_body, with_arguments. pick_action.
    unfold GithubTool.lift.
    destruct (docs_run_returns (docs_args a)) as (r & ->). reflexivity.
  - unfold callTool, try_catch, call_body, with_arguments.
    change ("wpcli" =? "wpcli") with true. cbv iota.
    unfold WpCliTool.run, JS.or_else.
    destruct (exec ("wp " ++ JS.show (command a)) workingDir w) as [out w'].
    cbn [fst snd]. destruct (WpCliTool.err out); reflexivity.
  - intros ->. unfold callTool, try_catch, call_body, with_arguments. pick_action.
    cbn [negb]. unfold workflow_request.
    destruct (handleWorkflow_returns octokit runtime trello repositories defaultBoard
                defaultList (action a) (workflow_params a) (Workflow.start w))
      as (r & s' & ->).
    reflexivity.
Qed.

End Calls.

Lemma callTool_always_answers_witness :
  Dispatch.callTool DocFixtures.shell (Mock.octokit true) Mock.runtime (Mock.trello true)
    DocFixtures.runtime DocFixtures.cache Mock.repositories false None None
    DocFixtures.cannot_destructure "jira" None [] =
  (Normal (Dispatch.refused "jira" "Unknown tool: jira"), []) /\
  Dispatch.callTool DocFixtures.shell (Mock.octokit true) Mock.runtime (Mock.trello true)
    DocFixtures.runtime DocFixtures.cache Mock.repositories false None None
    DocFixtures.cannot_destructure "github" None [] =
  (Normal (Dispatch.refused "github" (DocFixtures.cannot_destructure "github")), []).
Proof.
  split.
  - apply (callTool_always_answers DocFixtures.shell (Mock.octokit true) Mock.runtime
             (Mock.trello true) DocFixtures.runtime DocFixtures.cache Mock.repositories
             false None None DocFixtures.cannot_destructure "jira" None []).
    reflexivity.
  - apply (callTool_always_answers DocFixtures.shell (Mock.octokit true) Mock.runtime
             (Mock.trello true) DocFixtures.runtime DocFixtures.cache Mock.repositories
             false None None DocFixtures.cannot_destructure "github" None []);
      auto.
Defined.

Lemma callTool_reports_trello_failures_witness :
  Dispatch.callTool DocFixtures.shell (Mock.octokit true) Mock.runtime (Mock.trello false)
    DocFixtures.runtime DocFixtures.cache Mock.repositories true None None
    DocFixtures.cannot_destructure "trello"
    (Some (DocFixtures.card_request "update_card" "c1")) [] =
  (Normal (Dispatch.refused "trello" "Trello operation failed: invalid token"), ["put c1"]) /\
  Dispatch.callTool DocFixtures.shell (Mock.octokit true) Mock.runtime (Mock.trello false)
    DocFixtures.runtime DocFixtures.cache Mock.repositories true None None
    DocFixtures.cannot_destructure "trello" None [] =
  (Normal (Dispatch.refused "trello" (DocFixtures.cannot_destructure "trello")), []).
Proof.
  split.
  - exact (proj1 (callTool_reports_trello_failures DocFixtures.shell (Mock.octokit true)
                    Mock.runtime (Mock.trello false) DocFixtures.runtime DocFixtures.cache
                    Mock.repositories true None None DocFixtures.cannot_destructure
                    (Some (DocFixtures.card_request "update_card" "c1")) [] eq_refl)).
  - exact (proj1 (callTool_reports_trello_failures DocFixtures.shell (Mock.octokit true)
                    Mock.runtime (Mock.trello false) DocFixtures.runtime DocFixtures.cache
                    Mock.repositories true None None DocFixtures.cannot_destructure
                    None [] eq_refl)).
Defined.

Lemma callTool_passes_responses_on_witness :
  exists r s,
    Dispatch.callTool DocFixtures.shell (Mock.octokit true) Mock.runtime (Mock.trello true)
      DocFixtures.runtime DocFixtures.cache Mock.repositories true None None
      DocFixtures.cannot_destructure "workflow"
      (Some (DocFixtures.card_request "complete_task" "c1")) [] = (Normal r, s) /\
    isError r = false /\ s = ["put c1"; "comment c1"].
Proof.
  do 2 eexists.
  rewrite (proj2 (proj2 (proj2
    (callTool_passes_responses_on DocFixtures.shell (Mock.octokit true) Mock.runtime
       (Mock.trello true) DocFixtures.runtime DocFixtures.cache Mock.repositories true
       None None DocFixtures.cannot_destructure
       (DocFixtures.card_request "complete_task" "c1") []))) eq_refl).
  repeat split.
Defined.

(** ** Loading the document cache *)

Section Loader.

Import DocumentationTool.
Import DocumentLoader.

Variable runtime : Runtime.
Variable fs : Files.

Lemma set_keys {A : Type} (key k : string) (v : A) (m : list (string * A)) :
  In k (map fst (set key v m)) <-> k = key \/ In k (map fst m).
Proof.
  induction m as [|[k0 v0] m IH]; simpl.
  - split; [intros [<-|[]]; now left | intros [->|[]]; now left].
  - destruct (String.eqb_spec k0 key) as [->|Hne]; simpl.
    + split; [intros [<-|H]; auto | intros [->|[<-|H]]; auto].
    + rewrite IH. split; [intros [<-|[->|H]]; auto | intros [->|[<-|H]]; auto].
Qed.

Lemma set_distinct {A : Type} (key : string) (v : A) (m : list (string * A)) :
  NoDup (map fst m) -> NoDup (map fst (set key v m)).
Proof.
  induction m as [|[k0 v0] m IH]; simpl; intros Hnd.
  - constructor; [intros [] | constructor].
  - inversion Hnd as [|? ? Hnotin Hnd']; subst.
    destruct (String.eqb_spec k0 key) as [->|Hne]; simpl.
    + now constructor.
    + constructor; [|now apply IH].
      rewrite set_keys. intros [->|H]; [now elim Hne | now elim Hnotin].
Qed.

Lemma set_all {A : Type} (P : string * A -> Prop) (key : string) (v : A)
    (m : list (string * A)) :
  P (key, v) -> Forall P m -> Forall P (set key v m).
Proof.
  intros Hnew. induction m as [|[k0 v0] m IH]; simpl; intros Hall.
  - now constructor.
  - inversion Hall as [|? ? H0 Hm]; subst.
    destruct (String.eqb_spec k0 key) as [->|Hne]; constructor; auto.
Qed.

Lemma load_keeps (mdFiles : list string) : forall cache : Cache,
  Forall (fun file => endsWith file ".md" = true) mdFiles ->
  NoDup (map fst cache) -> Forall (from_file fs) cache ->
  NoDup (map fst (load runtime fs mdFiles cache)) /\
  Forall (from_file fs) (load runtime fs mdFiles cache).
Proof.
  induction mdFiles as [|file rest IH]; intros cache Hmd Hnd Hall; simpl.
  - now split.
  - inversion Hmd as [|? ? Hfile Hrest]; subst.
    destruct (readFileSync fs file) as [content|m] eqn:Hread; [|now split].
    apply IH; [exact Hrest | now apply set_distinct |].
    apply set_all; [|exact Hall].
    repeat split; assumption.
Qed.

(** X25. The cache that [loadDocuments] builds is a map: its names are
    distinct, and every entry is stored under the name of a file that ends
    with [.md], with the first [.md] removed, and holds the content read
    from that file.  When the directory does not exist or cannot be
    listed, the cache is empty. *)
Theorem loaded_cache_is_a_map :
  NoDup (map fst (loadDocuments runtime fs)) /\
  Forall (from_file fs) (loadDocuments runtime fs) /\
  (existsSync fs = false -> loadDocuments runtime fs = []) /\
  (forall m, readdirSync fs = Throw m -> loadDocuments runtime fs = []).
Proof.
  unfold loadDocuments.
  assert (Hempty : NoDup (map fst (@nil (string * Doc))) /\
                   Forall (from_file fs) (@nil (string * Doc)))
    by (split; constructor).
  repeat split.
  - destruct (existsSync fs); [|apply Hempty].
    destruct (readdirSync fs) as [files|m]; [|apply Hempty].
    apply load_keeps; try apply Hempty.
    apply Forall_forall. intros file Hin. now apply filter_In in Hin.
  - destruct (existsSync fs); [|apply Hempty].
    destruct (readdirSync fs) as [files|m]; [|apply Hempty].
    apply load_keeps; try apply Hempty.
    apply Forall_forall. intros file Hin. now apply filter_In in Hin.
  - now intros ->.
  - intros m ->. now destruct (existsSync fs).
Qed.

Lemma load_names (mdFiles : list string) : forall (cache : Cache) (k : string),
  readable fs mdFiles ->
  (In k (map fst (load runtime fs mdFiles cache)) <->
   In k (map fst cache) \/ exists file, In file mdFiles /\ k = replace_first ".md" "" file).
Proof.
  induction mdFiles as [|file rest IH]; intros cache k Hread; simpl.
  - split; [now left | intros [H|(f & [] & _)]; exact H].
  - destruct (Hread file (or_introl eq_refl)) as (content & Hfile). rewrite Hfile.
    rewrite IH by (intros f Hf; apply Hread; now right).
    rewrite set_keys. split.
    + intros [[->|H]|(f & Hf & ->)]; [right | now left | right].
      * exists file. split; [now left | reflexivity].
      * exists f. split; [now right | reflexivity].
    + intros [H|(f & [<-|Hf] & ->)]; [left; now right | left; now left | right].
      exists f. now split.
Qed.

Lemma load_stops (before after : list string) (file m : string) : forall cache : Cache,
  readable fs before -> readFileSync fs file = Throw m ->
  load runtime fs (before ++ file :: after) cache =
  load runtime fs before cache.
Proof.
  induction before as [|f rest IH]; intros cache Hread Hfail; simpl.
  - now rewrite Hfail.
  - destruct (Hread f (or_introl eq_refl)) as (content & Hf). rewrite Hf.
    apply IH; [|exact Hfail]. intros g Hg. apply Hread. now right.
Qed.

(** X26. When every Markdown file of the directory can be read, the names
    of the cache are exactly the file names that end with [.md], each with
    its first [.md] removed.  A file that cannot be read ends the
    loading: the documents of the files listed before it stay in the
    cache and the files listed after it are not loaded. *)
Theorem loading_stops_at_an_unreadable_file (files : list string) :
  existsSync fs = true -> readdirSync fs = Normal files ->
  (readable fs (filter (fun file => endsWith file ".md") files) ->
   forall k, In k (map fst (loadDocuments runtime fs)) <->
             exists file, In file files /\ endsWith file ".md" = true /\
                          k = replace_first ".md" "" file) /\
  (forall (before after : list string) (file m : string),
     filter (fun file => endsWith file ".md") files = (before ++ file :: after)%list ->
     readable fs before -> readFileSync fs file = Throw m ->
     loadDocuments runtime fs = load runtime fs before []).
Proof.
  intros Hex Hdir. unfold loadDocuments. rewrite Hex, Hdir. split.
  - intros Hread k. rewrite (load_names _ [] k Hread). simpl. split.
    + intros [[]|(f & Hf & ->)]. apply filter_In in Hf. destruct Hf as (Hin & Hmd).
      now exists f.
    + intros (f & Hin & Hmd & ->). right. exists f. split; [|reflexivity].
      apply filter_In. now split.
  - intros before after file m -> Hread Hfail.
    now apply (load_stops before after file m).
Qed.

Lemma collect_short (lines : list string) : forall kept : list string,
  length kept <= 3 -> length (collect runtime lines kept) <= 3.
Proof.
  induction lines as [|raw rest IH]; intros kept Hk; simpl; [exact Hk|].
  destruct (length kept <? 3)%nat eqn:Hlt; [|exact Hk].
  apply Nat.ltb_lt in Hlt.
  destruct (_ && _); apply IH; [|exact Hk].
  rewrite length_app. simpl. lia.
Qed.

(** X27. The summary of a document is never empty and is made of at most
    three lines joined by spaces: without a line that starts with [# ] it
    is [No summary available], and otherwise it is that text or the join
    of at most three lines. *)
Theorem summary_is_short (content : string) :
  extractSummary runtime content <> "" /\
  (after_title (JS.split "010" content) = None ->
   extractSummary runtime content = "No summary available") /\
  exists summaryLines,
    length summaryLines <= 3 /\
    (extractSummary runtime content = JS.join " " summaryLines \/
     extractSummary runtime content = "No summary available").
Proof.
  unfold extractSummary.
  destruct (after_title (JS.split "010" content)) as [rest|].
  - split; [|split; [discriminate|]].
    + simpl. destruct (JS.join " " (collect runtime rest []) =? "") eqn:He;
        [discriminate | now apply String.eqb_neq in He].
    + exists (collect runtime rest []). split.
      * apply collect_short. simpl. lia.
      * simpl. destruct (JS.join " " (collect runtime rest []) =? ""); auto.
  - split; [discriminate|]. split; [reflexivity|].
    exists []. split; [simpl; lia | now right].
Qed.

End Loader.

Lemma loading_stops_at_an_unreadable_file_witness :
  map fst (DocumentLoader.loadDocuments DocFixtures.runtime DocFixtures.docs_dir) = ["git"].
Proof.
  rewrite (proj2 (loading_stops_at_an_unreadable_file DocFixtures.runtime DocFixtures.docs_dir
                    ["git.md"; "notes.txt"; "broken.md"; "pr.md"] eq_refl eq_refl)
             ["git.md"] ["pr.md"] "broken.md" "EACCES: permission denied" eq_refl).
  - reflexivity.
  - intros file [<-|[]]. now eexists.
  - reflexivity.
Defined.

Lemma summary_is_short_witness :
  DocumentLoader.extractSummary DocFixtures.runtime "no title here" = "No summary available".
Proof.
  exact (proj1 (proj2 (summary_is_short DocFixtures.runtime "no title here")) eq_refl).
Defined.
